(** * Repository onboarding pipeline of sdlc-tools

    A shallow embedding of the onboarding service
    (lib/repository-onboarding.ts: [RepositoryOnboardingService]),
    the older analyzer ([DeepRepositoryAnalyzer]), the hosting-API client
    (lib/github.ts: [GitHubService]), the streaming route
    (app/api/github/onboarding/route.ts: [POST]) and the reader of its
    stream (app/github/page.tsx: [handleOnboarding]), followed by the
    properties of the specification that concern them and by further
    properties of the code.

    Strings are sequences of one-byte characters: one character of the
    model is one UTF-16 unit of the JavaScript string, which is exact for
    ASCII text.  Literal texts of the source that hold other characters
    are kept as they are; their length is never measured. *)

From Stdlib Require Import String Ascii List Arith Bool Lia NArith.
From Stdlib Require Import DecimalString.
From Stdlib Require Import ZArith.
From Stdlib Require DecimalNat DecimalFacts.
Import ListNotations.
Open Scope string_scope.
Open Scope list_scope.
Set Warnings "-register-all".

(** String concatenation, kept apart from list concatenation. *)
Infix "+++" := String.append (right associativity, at level 60).

(** ** The JavaScript runtime the code relies on *)
Module Js.

(** Thrown values.  Every value the code throws or catches is an [Error]
    object; the model keeps its class name and its message. *)
Record exn := mkExn { name : string; message : string }.

Definition Error (m : string) : exn := mkExn "Error" m.
Definition TypeError (m : string) : exn := mkExn "TypeError" m.
Definition SyntaxError (m : string) : exn := mkExn "SyntaxError" m.

(** A computation that returns or throws. *)
Inductive res (A : Type) : Type :=
| Ok (a : A)
| Throw (e : exn).
Arguments Ok {A} a.
Arguments Throw {A} e.

Definition bind {A B} (c : res A) (k : A -> res B) : res B :=
  match c with
  | Ok a => k a
  | Throw e => Throw e
  end.

(** [try { c } catch (error) { h error }] *)
Definition try_catch {A} (c : res A) (h : exn -> res A) : res A :=
  match c with
  | Ok a => Ok a
  | Throw e => h e
  end.

Definition is_ok {A} (c : res A) : bool :=
  match c with Ok _ => true | Throw _ => false end.

(** *** Strings *)

Definition nl : string := String "010"%char EmptyString.
Definition dquote : string := String "034"%char EmptyString.

Definition lower_char (c : ascii) : ascii :=
  let n := nat_of_ascii c in
  if ((65 <=? n)%nat && (n <=? 90)%nat)%bool then ascii_of_nat (n + 32) else c.

(** [s.toLowerCase()] *)
Fixpoint toLowerCase (s : string) : string :=
  match s with
  | EmptyString => EmptyString
  | String c s' => String (lower_char c) (toLowerCase s')
  end.

(** [s.startsWith(p)] *)
Definition startsWith (s p : string) : bool := String.prefix p s.

(** [s.includes(sub)] *)
Fixpoint includes (s sub : string) : bool :=
  if String.prefix sub s then true
  else match s with
       | EmptyString => false
       | String _ s' => includes s' sub
       end.

(** [s.substring(0, n)] *)
Definition substring0 (n : nat) (s : string) : string := String.substring 0 n s.

(** [l.join(sep)] *)
Definition join (sep : string) (l : list string) : string := String.concat sep l.

(** [s || d] on strings: the empty string is falsy. *)
Definition or_default (s d : string) : string :=
  match s with
  | EmptyString => d
  | _ => s
  end.

(** Decimal printing of a count, as a template literal prints it. *)
Definition of_nat (n : nat) : string := NilEmpty.string_of_uint (Nat.to_uint n).

(** White space of [String.prototype.trim] and of the class [\s]
    (ASCII part): tab, line feed, vertical tab, form feed, carriage
    return and space. *)
Definition is_space (c : ascii) : bool :=
  let n := nat_of_ascii c in
  (((9 <=? n)%nat && (n <=? 13)%nat) || (n =? 32)%nat)%bool.

Fixpoint trimStart (s : string) : string :=
  match s with
  | EmptyString => EmptyString
  | String c s' => if is_space c then trimStart s' else s
  end.

Fixpoint rev_string (s acc : string) : string :=
  match s with
  | EmptyString => acc
  | String c s' => rev_string s' (String c acc)
  end.

(** [s.trim()] *)
Definition trim (s : string) : string :=
  rev_string (trimStart (rev_string (trimStart s) EmptyString)) EmptyString.

(** [s.split('\n')]: always at least one piece. *)
Fixpoint split_lines_aux (s cur : string) : list string :=
  match s with
  | EmptyString => [rev_string cur EmptyString]
  | String c s' =>
      if Ascii.eqb c "010"%char
      then rev_string cur EmptyString :: split_lines_aux s' EmptyString
      else split_lines_aux s' (String c cur)
  end.
Definition split_lines (s : string) : list string := split_lines_aux s EmptyString.

(** [s.split('.').pop()]: the part after the last dot, the whole string
    when there is none. *)
Fixpoint last_segment_aux (s cur : string) : string :=
  match s with
  | EmptyString => rev_string cur EmptyString
  | String c s' =>
      if Ascii.eqb c "."%char then last_segment_aux s' EmptyString
      else last_segment_aux s' (String c cur)
  end.
Definition last_segment (s : string) : string := last_segment_aux s EmptyString.

(** *** JSON values

    The values [JSON.parse] returns.  A number keeps its literal text;
    [to_double] below gives the double it denotes, which the code tests
    for truthiness and prints in template literals. *)
Inductive json : Type :=
| JNull
| JBool (b : bool)
| JNum (lit : string)
| JStr (s : string)
| JArr (items : list json)
| JObj (members : list (string * json)).

Definition is_digit (c : ascii) : bool :=
  let n := nat_of_ascii c in ((48 <=? n)%nat && (n <=? 57)%nat)%bool.

(** *** Numbers

    [JSON.parse] reads a number literal as the double nearest to the
    decimal it writes (ties to the even significand); a literal below
    half the least positive double is zero, one beyond the greatest
    double is [Infinity]. *)

(** The value of the decimal digits of a text; other characters are
    passed over. *)
Fixpoint digits_N (s : string) (acc : N) : N :=
  match s with
  | EmptyString => acc
  | String c r =>
      if is_digit c
      then digits_N r (acc * 10 + N.of_nat (nat_of_ascii c - 48))%N
      else digits_N r acc
  end.

(** The text before the first character that satisfies [p], and the
    text after that character. *)
Fixpoint cut (p : ascii -> bool) (s : string) : string * string :=
  match s with
  | EmptyString => (EmptyString, EmptyString)
  | String c r =>
      if p c then (EmptyString, r)
      else let (a, b) := cut p r in (String c a, b)
  end.

(** A literal [-ddd.ddd(e|E)(+|-)ddd] as a sign, its digits and a
    decimal exponent: it writes [digits * 10 ^ exponent], negated when
    [negative]. *)
Record Decimal : Type := {
  negative : bool;
  digits : string;
  exponent : Z
}.

Definition decimal_of (lit : string) : Decimal :=
  let (neg, body) :=
    match lit with
    | String c r => if Ascii.eqb c "-" then (true, r) else (false, lit)
    | EmptyString => (false, lit)
    end in
  let (mantissa, exp_text) :=
    cut (fun c => (Ascii.eqb c "e" || Ascii.eqb c "E")%bool) body in
  let (int_text, frac_text) := cut (fun c => Ascii.eqb c ".") mantissa in
  let e :=
    match exp_text with
    | String c r =>
        if Ascii.eqb c "-" then (- Z.of_N (digits_N r 0))%Z
        else Z.of_N (digits_N exp_text 0)
    | EmptyString => 0%Z
    end in
  {| negative := neg;
     digits := int_text +++ frac_text;
     exponent := (e - Z.of_nat (String.length frac_text))%Z |}.

(** The double of a literal is zero when its digits are all zero, and
    when what it writes is at most [2 ^ -1075], half the least positive
    double.  A literal of [n] digits writes less than [10 ^ (n +
    exponent)], and [10 ^ -324 < 2 ^ -1075]. *)
Definition num_is_zero (lit : string) : bool :=
  let d := decimal_of lit in
  let m := Z.of_N (digits_N (digits d) 0) in
  if (m =? 0)%Z then true
  else if (0 <=? exponent d)%Z then false
  else if (Z.of_nat (String.length (digits d)) + exponent d <=? -324)%Z then true
  else (m * 2 ^ 1075 <=? 10 ^ (- exponent d))%Z.

(** A double other than [NaN], without its sign: [Finite m e] is
    [m * 2 ^ e]. *)
Inductive Double : Type :=
| Zero
| Finite (significand binary_exponent : Z)
| Infinite.

(** [num / den >= 2 ^ k] *)
Definition at_least_pow2 (num den k : Z) : bool :=
  if (0 <=? k)%Z then (den * 2 ^ k <=? num)%Z else (den <=? num * 2 ^ (- k))%Z.

(** The integer nearest to [n / d], the even one of two. *)
Definition round_half_even (n d : Z) : Z :=
  let q := (n / d)%Z in
  match (2 * (n mod d) ?= d)%Z with
  | Lt => q
  | Gt => (q + 1)%Z
  | Eq => if Z.even q then q else (q + 1)%Z
  end.

(** The double nearest to [num / den], for positive [num] and [den]
    with [num / den] above [2 ^ -1075]: 53 bits of significand, the
    binary exponent at least -1074. *)
Definition nearest_double (num den : Z) : Double :=
  let k0 := (Z.log2 num - Z.log2 den)%Z in
  let k := if at_least_pow2 num den k0 then k0 else (k0 - 1)%Z in
  let e := Z.max (k - 52) (-1074) in
  let m :=
    if (0 <=? e)%Z then round_half_even num (den * 2 ^ e)
    else round_half_even (num * 2 ^ (- e)) den in
  let (m', e') := if (m =? 2 ^ 53)%Z then (2 ^ 52, e + 1)%Z else (m, e) in
  if (971 <? e')%Z then Infinite else Finite m' e'.

Definition to_double (lit : string) : Double :=
  if num_is_zero lit then Zero
  else
    let d := decimal_of lit in
    let m := Z.of_N (digits_N (digits d) 0) in
    if (310 <? exponent d)%Z then Infinite
    else if (0 <=? exponent d)%Z then nearest_double (m * 10 ^ exponent d) 1
         else nearest_double m (10 ^ (- exponent d)).

(** *** [Number::toString]

    The shortest decimal that reads back as the double, the nearest to
    it among those of that length, written in positional notation from
    [1e-6] up to [1e21] and with an exponent otherwise. *)

(** [m * 2 ^ e < 10 ^ k] *)
Definition below_pow10 (m e k : Z) : bool :=
  (m * 2 ^ Z.max e 0 * 10 ^ Z.max (- k) 0 <? 10 ^ Z.max k 0 * 2 ^ Z.max (- e) 0)%Z.

(** The [k] with [10 ^ (k - 1) <= m * 2 ^ e < 10 ^ k]. *)
Definition position (m e : Z) : Z :=
  let est := ((Z.log2 m + e) * 30103 / 100000)%Z in
  if below_pow10 m e (est - 1) then (est - 1)%Z
  else if below_pow10 m e est then est
  else if below_pow10 m e (est + 1) then (est + 1)%Z
  else (est + 2)%Z.

(** The decimals of [n] digits at position [k] that read back as
    [m * 2 ^ e]: the nearest to it, if there is one.  In the unit
    [2 ^ (e - 2)] the double is [4 m] and the decimals that round to it
    lie between [4 m - 2] (or [4 m - 1] above a power of two) and
    [4 m + 2], the ends included when [m] is even. *)
Definition candidate (m e k : Z) (n : nat) : option Z :=
  let t := (k - Z.of_nat n)%Z in
  let a := (2 ^ Z.max (e - 2) 0 * 10 ^ Z.max (- t) 0)%Z in
  let b := (2 ^ Z.max (2 - e) 0 * 10 ^ Z.max t 0)%Z in
  let below := if ((m =? 2 ^ 52) && (-1074 <? e))%Z%bool then 1%Z else 2%Z in
  let lo := ((4 * m - below) * a)%Z in
  let hi := ((4 * m + 2) * a)%Z in
  let exact x := (x mod b =? 0)%Z in
  let s_min :=
    if exact lo then (if Z.even m then lo / b else lo / b + 1)%Z
    else (lo / b + 1)%Z in
  let s_max :=
    if exact hi then (if Z.even m then hi / b else hi / b - 1)%Z
    else (hi / b)%Z in
  let first := Z.max s_min (10 ^ (Z.of_nat n - 1)) in
  let last := Z.min s_max (10 ^ Z.of_nat n) in
  if (first <=? last)%Z
  then Some (Z.max first (Z.min last (round_half_even (4 * m * a) b)))
  else None.

Fixpoint shortest (m e k : Z) (fuel n : nat) : Z * nat :=
  match fuel with
  | 0 => (round_half_even (m * 2 ^ Z.max e 0 * 10 ^ Z.max (Z.of_nat n - k) 0)
            (2 ^ Z.max (- e) 0 * 10 ^ Z.max (k - Z.of_nat n) 0), n)
  | S f =>
      match candidate m e k n with
      | Some s => (s, n)
      | None => shortest m e k f (S n)
      end
  end.

Definition text_of_Z (z : Z) : string :=
  NilEmpty.string_of_uint (N.to_uint (Z.to_N z)).

Fixpoint zeros (n : nat) : string :=
  match n with
  | 0 => EmptyString
  | S k => String "0" (zeros k)
  end.

(** The digits [ds] at position [k]: the number is [0.ds * 10 ^ k]. *)
Definition positional (ds : string) (k : Z) : string :=
  let n := Z.of_nat (String.length ds) in
  if ((n <=? k) && (k <=? 21))%Z%bool
  then ds +++ zeros (Z.to_nat (k - n))
  else if ((0 <? k) && (k <=? 21))%Z%bool
  then String.substring 0 (Z.to_nat k) ds +++ "."
       +++ String.substring (Z.to_nat k) (Z.to_nat (n - k)) ds
  else if ((-6 <? k) && (k <=? 0))%Z%bool
  then "0." +++ zeros (Z.to_nat (- k)) +++ ds
  else
    let e := (k - 1)%Z in
    let tail := "e" +++ (if (e <? 0)%Z then "-" else "+") +++ text_of_Z (Z.abs e) in
    match ds with
    | EmptyString => EmptyString
    | String c EmptyString => String c tail
    | String c r => String c ("." +++ r +++ tail)
    end.

Definition double_text (m e : Z) : string :=
  let k := position m e in
  let (s, n) := shortest m e k 17 1 in
  if (s =? 10 ^ Z.of_nat n)%Z then positional "1" (k + 1)
  else positional (text_of_Z s) k.

(** [String(x)] for the number a literal denotes. *)
Definition number_text (lit : string) : string :=
  let sign := if negative (decimal_of lit) then "-" else EmptyString in
  match to_double lit with
  | Zero => "0"
  | Finite m e => sign +++ double_text m e
  | Infinite => sign +++ "Infinity"
  end.

(** Truthiness, as [if (v)] and [v || d] test it. *)
Definition truthy (v : json) : bool :=
  match v with
  | JNull => false
  | JBool b => b
  | JNum lit => negb (num_is_zero lit)
  | JStr EmptyString => false
  | JStr _ => true
  | JArr _ => true
  | JObj _ => true
  end.

(** [undefined] is [None]. *)
Definition truthy_opt (v : option json) : bool :=
  match v with
  | Some j => truthy j
  | None => false
  end.

Fixpoint digits_value (s : string) (acc : N) : option N :=
  match s with
  | EmptyString => Some acc
  | String c r =>
      if is_digit c
      then digits_value r (acc * 10 + N.of_nat (nat_of_ascii c - 48))%N
      else None
  end.

(** Array-index keys: canonical decimal numerals below 2^32 - 1.  The
    own keys of an object list them first, in ascending order. *)
Definition array_index (k : string) : option N :=
  match k with
  | EmptyString => None
  | String c r =>
      if Ascii.eqb c "0"
      then match r with EmptyString => Some 0%N | _ => None end
      else match digits_value k 0%N with
           | Some n => if (n <? 4294967295)%N then Some n else None
           | None => None
           end
  end.

Definition is_array_index (k : string) : bool :=
  match array_index k with Some _ => true | None => false end.

(** A later member with the same key replaces the value and keeps the
    place of the first. *)
Fixpoint upsert (k : string) (v : json) (l : list (string * json))
  : list (string * json) :=
  match l with
  | [] => [(k, v)]
  | (k', v') :: t =>
      if String.eqb k k' then (k, v) :: t else (k', v') :: upsert k v t
  end.

Definition dedup (ms : list (string * json)) : list (string * json) :=
  fold_left (fun acc kv => upsert (fst kv) (snd kv) acc) ms [].

Definition index_of (k : string) : N :=
  match array_index k with Some n => n | None => 0%N end.

Fixpoint insert_by_index (kv : string * json) (l : list (string * json))
  : list (string * json) :=
  match l with
  | [] => [kv]
  | h :: t =>
      if (index_of (fst kv) <=? index_of (fst h))%N then kv :: h :: t
      else h :: insert_by_index kv t
  end.

Definition sort_by_index (l : list (string * json)) : list (string * json) :=
  fold_right insert_by_index [] l.

Fixpoint chars_from (i : nat) (s : string) : list (string * json) :=
  match s with
  | EmptyString => []
  | String c r => (of_nat i, JStr (String c EmptyString)) :: chars_from (S i) r
  end.

Fixpoint items_from (i : nat) (l : list json) : list (string * json) :=
  match l with
  | [] => []
  | x :: r => (of_nat i, x) :: items_from (S i) r
  end.

(** Own enumerable properties, in the order [Object.keys],
    [Object.entries] and [Object.assign] visit them. *)
Definition own_properties (v : json) : list (string * json) :=
  match v with
  | JObj ms =>
      let d := dedup ms in
      sort_by_index (filter (fun kv => is_array_index (fst kv)) d)
        ++ filter (fun kv => negb (is_array_index (fst kv))) d
  | JArr l => items_from 0 l
  | JStr s => chars_from 0 s
  | _ => []
  end.

(** [Object.keys(v)], for [v] other than [null]. *)
Definition Object_keys (v : json) : list string := map fst (own_properties v).

Fixpoint assoc (k : string) (l : list (string * json)) : option json :=
  match l with
  | [] => None
  | (k', v) :: t => if String.eqb k k' then Some v else assoc k t
  end.

(** [v.k] for the property names the code reads (none of them is
    [length] or a member of a prototype): reading a property of [null]
    throws, a missing property is [undefined]. *)
Definition get (v : json) (k : string) : res (option json) :=
  match v with
  | JNull => Throw (TypeError "Cannot read properties of null")
  | _ => Ok (assoc k (own_properties v))
  end.

(** [v.k] when [v] is known to be truthy, hence not [null]. *)
Definition prop (v : json) (k : string) : option json := assoc k (own_properties v).

(** [v.includes(x)] on a truthy value: substring search on a string,
    membership on an array, and a [TypeError] on anything else, which has
    no such method. *)
Definition json_eqb_str (j : json) (x : string) : bool :=
  match j with JStr s => String.eqb s x | _ => false end.

Definition call_includes (v : json) (x : string) : res bool :=
  match v with
  | JStr s => Ok (includes s x)
  | JArr l => Ok (existsb (fun j => json_eqb_str j x) l)
  | _ => Throw (TypeError "includes is not a function")
  end.

(** *** A JSON reader

    A recursive-descent reader of the JSON grammar (RFC 8259), used to
    evaluate the model on concrete texts.  The fuel is the length of the
    text: every nested call consumes a character. *)

Definition is_json_ws (c : ascii) : bool :=
  let n := nat_of_ascii c in
  ((n =? 32)%nat || (n =? 9)%nat || (n =? 10)%nat || (n =? 13)%nat)%bool.

Fixpoint skip_ws (s : string) : string :=
  match s with
  | EmptyString => EmptyString
  | String c r => if is_json_ws c then skip_ws r else s
  end.

Fixpoint take_digits (s : string) : string * string :=
  match s with
  | EmptyString => (EmptyString, EmptyString)
  | String c r =>
      if is_digit c
      then let (ds, rest) := take_digits r in (String c ds, rest)
      else (EmptyString, s)
  end.

Definition read_int (s : string) : option (string * string) :=
  match s with
  | String c r =>
      if Ascii.eqb c "0" then Some ("0", r)
      else if is_digit c then Some (take_digits s)
      else None
  | EmptyString => None
  end.

Definition read_frac (s : string) : option (string * string) :=
  match s with
  | String c r =>
      if Ascii.eqb c "."
      then match take_digits r with
           | (EmptyString, _) => None
           | (ds, rest) => Some (String c ds, rest)
           end
      else Some (EmptyString, s)
  | EmptyString => Some (EmptyString, s)
  end.

Definition read_exp_digits (pre s : string) : option (string * string) :=
  match take_digits s with
  | (EmptyString, _) => None
  | (ds, rest) => Some (pre +++ ds, rest)
  end.

Definition read_exp (s : string) : option (string * string) :=
  match s with
  | String c r =>
      if (Ascii.eqb c "e" || Ascii.eqb c "E")%bool
      then match r with
           | String g r' =>
               if (Ascii.eqb g "+" || Ascii.eqb g "-")%bool
               then read_exp_digits (String c (String g EmptyString)) r'
               else read_exp_digits (String c EmptyString) r
           | EmptyString => None
           end
      else Some (EmptyString, s)
  | EmptyString => Some (EmptyString, s)
  end.

Definition read_number (s : string) : option (string * string) :=
  let (sign, s1) :=
    match s with
    | String c r => if Ascii.eqb c "-" then ("-", r) else (EmptyString, s)
    | EmptyString => (EmptyString, s)
    end in
  match read_int s1 with
  | None => None
  | Some (i, s2) =>
      match read_frac s2 with
      | None => None
      | Some (f, s3) =>
          match read_exp s3 with
          | None => None
          | Some (e, s4) => Some (sign +++ i +++ f +++ e, s4)
          end
      end
  end.

Definition hex_value (c : ascii) : option nat :=
  let n := nat_of_ascii c in
  if ((48 <=? n)%nat && (n <=? 57)%nat)%bool then Some (n - 48)
  else if ((65 <=? n)%nat && (n <=? 70)%nat)%bool then Some (n - 55)
  else if ((97 <=? n)%nat && (n <=? 102)%nat)%bool then Some (n - 87)
  else None.

Definition hex4 (a b c d : ascii) : option nat :=
  match hex_value a, hex_value b, hex_value c, hex_value d with
  | Some x, Some y, Some z, Some w => Some (((x * 16 + y) * 16 + z) * 16 + w)
  | _, _, _, _ => None
  end.

(** The bytes (UTF-8) of a code unit, pushed on a reversed accumulator. *)
Definition push_unit (u : nat) (acc : string) : string :=
  if (u <? 128)%nat then String (ascii_of_nat u) acc
  else if (u <? 2048)%nat
       then String (ascii_of_nat (128 + u mod 64))
              (String (ascii_of_nat (192 + u / 64)) acc)
       else String (ascii_of_nat (128 + u mod 64))
              (String (ascii_of_nat (128 + (u / 64) mod 64))
                 (String (ascii_of_nat (224 + u / 4096)) acc)).

Definition unescape (e : ascii) : option ascii :=
  if Ascii.eqb e "034" then Some "034"%char
  else if Ascii.eqb e "\" then Some "\"%char
  else if Ascii.eqb e "/" then Some "/"%char
  else if Ascii.eqb e "b" then Some "008"%char
  else if Ascii.eqb e "f" then Some "012"%char
  else if Ascii.eqb e "n" then Some "010"%char
  else if Ascii.eqb e "r" then Some "013"%char
  else if Ascii.eqb e "t" then Some "009"%char
  else None.

(** The characters of a string literal after its opening quote. *)
Fixpoint read_chars (s acc : string) : option (string * string) :=
  match s with
  | EmptyString => None
  | String c r =>
      if Ascii.eqb c "034" then Some (rev_string acc EmptyString, r)
      else if Ascii.eqb c "\"
      then match r with
           | String e r2 =>
               if Ascii.eqb e "u"
               then match r2 with
                    | String h1 (String h2 (String h3 (String h4 r3))) =>
                        match hex4 h1 h2 h3 h4 with
                        | Some u => read_chars r3 (push_unit u acc)
                        | None => None
                        end
                    | _ => None
                    end
               else match unescape e with
                    | Some x => read_chars r2 (String x acc)
                    | None => None
                    end
           | EmptyString => None
           end
      else if (nat_of_ascii c <? 32)%nat then None
      else read_chars r (String c acc)
  end.

Definition strip_prefix (p s : string) : option string :=
  if String.prefix p s
  then Some (String.substring (String.length p) (String.length s - String.length p) s)
  else None.

Definition read_literal (s : string) : option (json * string) :=
  match strip_prefix "true" s with
  | Some r => Some (JBool true, r)
  | None =>
      match strip_prefix "false" s with
      | Some r => Some (JBool false, r)
      | None =>
          match strip_prefix "null" s with
          | Some r => Some (JNull, r)
          | None =>
              match read_number s with
              | Some (lit, r) => Some (JNum lit, r)
              | None => None
              end
          end
      end
  end.

Fixpoint read_value (fuel : nat) (s : string) : option (json * string) :=
  match fuel with
  | 0 => None
  | S f =>
      match skip_ws s with
      | EmptyString => None
      | String c r =>
          if Ascii.eqb c "{"
          then match skip_ws r with
               | String c' r' =>
                   if Ascii.eqb c' "}" then Some (JObj [], r')
                   else read_members f r []
               | EmptyString => None
               end
          else if Ascii.eqb c "["
          then match skip_ws r with
               | String c' r' =>
                   if Ascii.eqb c' "]" then Some (JArr [], r')
                   else read_items f r []
               | EmptyString => None
               end
          else if Ascii.eqb c "034"
          then match read_chars r EmptyString with
               | Some (str, r') => Some (JStr str, r')
               | None => None
               end
          else read_literal (String c r)
      end
  end
with read_members (fuel : nat) (s : string) (acc : list (string * json))
  : option (json * string) :=
  match fuel with
  | 0 => None
  | S f =>
      match skip_ws s with
      | String c r =>
          if Ascii.eqb c "034"
          then match read_chars r EmptyString with
               | Some (k, r1) =>
                   match skip_ws r1 with
                   | String c1 r2 =>
                       if Ascii.eqb c1 ":"
                       then match read_value f r2 with
                            | Some (v, r3) =>
                                match skip_ws r3 with
                                | String c3 r4 =>
                                    if Ascii.eqb c3 ","
                                    then read_members f r4 (acc ++ [(k, v)])
                                    else if Ascii.eqb c3 "}"
                                         then Some (JObj (acc ++ [(k, v)]), r4)
                                         else None
                                | EmptyString => None
                                end
                            | None => None
                            end
                       else None
                   | EmptyString => None
                   end
               | None => None
               end
          else None
      | EmptyString => None
      end
  end
with read_items (fuel : nat) (s : string) (acc : list json)
  : option (json * string) :=
  match fuel with
  | 0 => None
  | S f =>
      match read_value f s with
      | Some (v, r) =>
          match skip_ws r with
          | String c r' =>
              if Ascii.eqb c ","
              then read_items f r' (acc ++ [v])
              else if Ascii.eqb c "]"
                   then Some (JArr (acc ++ [v]), r')
                   else None
          | EmptyString => None
          end
      | None => None
      end
  end.

(** [JSON.parse(text)] *)
Definition json_parse (text : string) : res json :=
  match read_value (S (String.length text)) text with
  | Some (v, rest) =>
      match skip_ws rest with
      | EmptyString => Ok v
      | _ => Throw (SyntaxError "Unexpected non-whitespace character after JSON")
      end
  | None => Throw (SyntaxError "Unexpected token in JSON")
  end.

(** *** [JSON.stringify] *)

Definition hex_digit (n : nat) : ascii :=
  if (n <? 10)%nat then ascii_of_nat (48 + n) else ascii_of_nat (87 + n).

Definition escape_char (c : ascii) : string :=
  let n := nat_of_ascii c in
  if Ascii.eqb c "034" then "\" +++ dquote
  else if Ascii.eqb c "\" then "\\"
  else if (n =? 8)%nat then "\b"
  else if (n =? 12)%nat then "\f"
  else if (n =? 10)%nat then "\n"
  else if (n =? 13)%nat then "\r"
  else if (n =? 9)%nat then "\t"
  else if (n <? 32)%nat
       then "\u00" +++ String (hex_digit (n / 16)) (String (hex_digit (n mod 16)) EmptyString)
       else String c EmptyString.

Fixpoint escape (s : string) : string :=
  match s with
  | EmptyString => EmptyString
  | String c r => escape_char c +++ escape r
  end.

Definition quote (s : string) : string := dquote +++ escape s +++ dquote.

Fixpoint stringify (j : json) : string :=
  match j with
  | JNull => "null"
  | JBool true => "true"
  | JBool false => "false"
  | JNum lit => lit
  | JStr s => quote s
  | JArr l => "[" +++ join "," (map stringify l) +++ "]"
  | JObj ms =>
      "{" +++ join "," (map (fun kv => match kv with
                                       | (k, v) => quote k +++ ":" +++ stringify v
                                       end) ms) +++ "}"
  end.

(** *** Regular-expression searches of the code, on ASCII text *)

Fixpoint take_while (p : ascii -> bool) (s : string) : string * string :=
  match s with
  | EmptyString => (EmptyString, EmptyString)
  | String c r =>
      if p c then let (a, b) := take_while p r in (String c a, b)
      else (EmptyString, s)
  end.

Definition is_word (c : ascii) : bool :=
  let n := nat_of_ascii c in
  (is_digit c || ((65 <=? n)%nat && (n <=? 90)%nat)
   || ((97 <=? n)%nat && (n <=? 122)%nat) || (n =? 95)%nat)%bool.

Definition is_empty (s : string) : bool :=
  match s with EmptyString => true | _ => false end.

(** [content.match(/model\s+(\w+)/g)]: the matches from left to right,
    the empty list for [null]. *)
Fixpoint scan_model (fuel : nat) (s : string) : list string :=
  match fuel with
  | 0 => []
  | S f =>
      match s with
      | EmptyString => []
      | String _ r =>
          match strip_prefix "model" s with
          | Some r1 =>
              let (ws, r2) := take_while is_space r1 in
              let (w, r3) := take_while is_word r2 in
              if (is_empty ws || is_empty w)%bool then scan_model f r
              else ("model" +++ ws +++ w) :: scan_model f r3
          | None => scan_model f r
          end
      end
  end.

Definition model_matches (content : string) : list string :=
  scan_model (String.length content) content.

(** The bullet characters of [/[-*•]/]: a hyphen, a star, or the three
    bytes of U+2022. *)
Definition bullet_prefix (s : string) : option (string * string) :=
  match s with
  | String c r =>
      if (Ascii.eqb c "-" || Ascii.eqb c "*")%bool
      then Some (String c EmptyString, r)
      else match s with
           | String "226" (String "128" (String "162" r')) =>
               Some (String "226" (String "128" (String "162" EmptyString)), r')
           | _ => None
           end
  | EmptyString => None
  end.

Definition not_newline (c : ascii) : bool := negb (Ascii.eqb c "010").

(** The longest prefix of a white-space run that ends in a character
    other than a line feed: what [\s*([^\n]+)] keeps of a run that reaches
    the end of the text. *)
Fixpoint upto_last_non_newline (ws : string) : option string :=
  match ws with
  | EmptyString => None
  | String c r =>
      match upto_last_non_newline r with
      | Some p => Some (String c p)
      | None => if not_newline c then Some (String c EmptyString) else None
      end
  end.

(** [text.match(/[-*•]\s*([^\n]+)/g)], the empty list for [null]. *)
Fixpoint scan_bullets (fuel : nat) (s : string) : list string :=
  match fuel with
  | 0 => []
  | S f =>
      match s with
      | EmptyString => []
      | String _ r =>
          match bullet_prefix s with
          | Some (b, r1) =>
              let (ws, r2) := take_while is_space r1 in
              match r2 with
              | EmptyString =>
                  match upto_last_non_newline ws with
                  | Some w => [b +++ w]
                  | None => []
                  end
              | _ =>
                  let (ln, r3) := take_while not_newline r2 in
                  (b +++ ws +++ ln) :: scan_bullets f r3
              end
          | None => scan_bullets f r
          end
      end
  end.

Definition bullet_matches (text : string) : list string :=
  scan_bullets (String.length text) text.

(** [f.replace(/[-*•]\s*/, '')]: the first bullet and the white space
    after it are removed. *)
Fixpoint remove_bullet (s : string) : string :=
  match bullet_prefix s with
  | Some (_, r) => trimStart r
  | None =>
      match s with
      | EmptyString => EmptyString
      | String c r => String c (remove_bullet r)
      end
  end.

(** The text after the first occurrence of [sub], if any. *)
Fixpoint after_first (sub s : string) : option string :=
  match strip_prefix sub s with
  | Some r => Some r
  | None =>
      match s with
      | EmptyString => None
      | String _ r => after_first sub r
      end
  end.

Definition setup_words : list string :=
  ["npm install"; "pip install"; "yarn"; "go get"; "cargo build"].

Fixpoint first_some (l : list string) (s : string) : option string :=
  match l with
  | [] => None
  | w :: t =>
      match strip_prefix w s with
      | Some r => Some r
      | None => first_some t s
      end
  end.

(** The text after the first setup command, if any. *)
Fixpoint after_setup_word (s : string) : option string :=
  match first_some setup_words s with
  | Some r => Some r
  | None =>
      match s with
      | EmptyString => None
      | String _ r => after_setup_word r
      end
  end.

Definition fence : string := "```".

(** The number of matches of
    [/```[\s\S]*?(npm install|pip install|yarn|go get|cargo build)[\s\S]*?```/gi]:
    a fence, the nearest setup command after it, the nearest fence after
    that; the search goes on after the closing fence. *)
Fixpoint scan_setup_blocks (fuel : nat) (s : string) : nat :=
  match fuel with
  | 0 => 0
  | S f =>
      match after_first fence s with
      | None => 0
      | Some r1 =>
          match after_setup_word r1 with
          | None => 0
          | Some r2 =>
              match after_first fence r2 with
              | None => 0
              | Some r3 => S (scan_setup_blocks f r3)
              end
          end
      end
  end.

Definition setup_block_count (content : string) : nat :=
  scan_setup_blocks (String.length content) (toLowerCase content).

(** [String(v)], as a template literal converts a value.  A number is
    printed by [Number::toString], an array by [join], its [null] items
    as empty texts.  An object is printed by the first of its [toString]
    and [valueOf] methods that returns a primitive value: an object of
    [JSON.parse] inherits a [toString] that returns ['[object Object]'],
    unless a member named [toString] hides it; that member is never a
    function, the inherited [valueOf] returns the object itself, and the
    conversion throws a [TypeError]. *)
Fixpoint to_text (j : json) : res string :=
  match j with
  | JNull => Ok "null"
  | JBool true => Ok "true"
  | JBool false => Ok "false"
  | JNum lit => Ok (number_text lit)
  | JStr s => Ok s
  | JArr l =>
      bind ((fix items (l : list json) : res (list string) :=
               match l with
               | [] => Ok []
               | x :: r =>
                   bind (match x with
                         | JNull => Ok EmptyString
                         | _ => to_text x
                         end)
                     (fun t => bind (items r) (fun ts => Ok (t :: ts)))
               end) l)
        (fun ts => Ok (join "," ts))
  | JObj members =>
      if existsb (fun kv => String.eqb (fst kv) "toString") members
      then Throw (TypeError "Cannot convert object to primitive value")
      else Ok "[object Object]"
  end.

(** The services of the runtime that the code calls.  The statements
    below hold for every runtime; [node] is the one used to evaluate
    examples. *)
Class Runtime : Type := {
  JSON_parse : string -> res json;
  RegExp_model : string -> list string;
  RegExp_bullet : string -> list string;
  replace_bullet : string -> string;
  RegExp_setup_count : string -> nat;
  String_of : json -> res string
}.

Definition node : Runtime := {|
  JSON_parse := json_parse;
  RegExp_model := model_matches;
  RegExp_bullet := bullet_matches;
  replace_bullet := remove_bullet;
  RegExp_setup_count := setup_block_count;
  String_of := to_text
|}.

(** *** Code that updates local variables and may throw

    [SE S A] is a block of code over mutable variables [S] that returns an
    [A] or throws; the variables keep the updates made before a throw. *)
Definition SE (S A : Type) : Type := S -> res A * S.

Definition se_ret {S A} (a : A) : SE S A := fun s => (Ok a, s).

Definition se_bind {S A B} (c : SE S A) (k : A -> SE S B) : SE S B :=
  fun s => match c s with
           | (Ok a, s') => k a s'
           | (Throw e, s') => (Throw e, s')
           end.

Definition se_lift {S A} (c : res A) : SE S A := fun s => (c, s).

Definition se_update {S} (f : S -> S) : SE S unit := fun s => (Ok tt, f s).

Definition se_read {S} : SE S S := fun s => (Ok s, s).

(** [try { c } catch (error) { h }] *)
Definition se_try {S A} (c : SE S A) (h : exn -> SE S A) : SE S A :=
  fun s => match c s with
           | (Ok a, s') => (Ok a, s')
           | (Throw e, s') => h e s'
           end.

(** [if (b) { c }] *)
Definition se_when {S} (b : bool) (c : SE S unit) : SE S unit :=
  if b then c else se_ret tt.

(** A block that cannot throw. *)
Definition returns {S A : Type} (c : SE S A) : Prop :=
  forall s, is_ok (fst (c s)) = true.

(** A block that keeps a property of the variables, however it ends. *)
Definition keeps {S A : Type} (P : S -> Prop) (c : SE S A) : Prop :=
  forall s, P s -> P (snd (c s)).

(** A block that throws exactly when [Q] holds. *)
Definition throws_when {S A : Type} (c : SE S A) (Q : Prop) : Prop :=
  forall s, is_ok (fst (c s)) = false <-> Q.

End Js.

Notation "x <- c ;; k" := (Js.se_bind c (fun x => k))
  (at level 61, c at next level, right associativity).
Notation "c ;; k" := (Js.se_bind c (fun _ => k))
  (at level 61, right associativity).

(** ** lib/github.ts: [GitHubService] *)
Module GitHub.
Import Js.

(** Why a call to the hosting API failed. *)
Inductive Cause : Type := not_found | unauthorized | rate_limited | unknown.

(** The outcome of one REST call: its [response.data], or a failure. *)
Definition api (A : Type) : Type := (A + Cause)%type.

Definition succeeded {A} (c : api A) : bool :=
  match c with inl _ => true | inr _ => false end.

(** The fields of [repos.get] that the pipeline reads. *)
Record RepoInfo : Type := {
  description : option string;
  language : option string;
  stargazers_count : nat;
  forks_count : nat;
  open_issues_count : nat;
  created_at : string;
  updated_at : string
}.

Record TreeItem : Type := {
  path : string;
  type : string;
  size : option nat
}.

(** [repos.getContent]: a file with its text (the model holds the text
    that decoding the base64 payload gives), or data without a [content]
    field, as a directory listing is. *)
Inductive Content : Type :=
| File (text : string) (size : nat) (sha : string)
| Listing.

(** The hosting API as one run of the service sees it through
    [this.octokit.rest]. *)
Record Remote : Type := {
  repos_get : api RepoInfo;
  repos_listLanguages : api json;
  repos_listContributors : api json;
  repos_listCommits : api json;
  repos_getCodeFrequencyStats : api json;
  repos_getParticipationStats : api json;
  repos_getPunchCardStats : api json;
  repos_listReleases : api (list json);
  repos_listDeployments : api (list json);
  repos_getViews : api json;
  repos_getClones : api json;
  repos_getTopReferrers : api json;
  repos_getTopPaths : api json;
  git_getTree : api (list TreeItem);
  repos_getContent : string -> api Content
}.

Record RepoDetails : Type := {
  repo : RepoInfo;
  languages : json;
  contributors : json;
  recentCommits : json
}.

(** What octokit throws for a failed request: the error carries the
    cause (its HTTP status). *)
Definition RequestError (c : Cause) : exn :=
  mkExn "HttpError"
    match c with
    | not_found => "Not Found"
    | unauthorized => "Bad credentials"
    | rate_limited => "API rate limit exceeded"
    | unknown => "Unknown error"
    end.

(** [await call]: the data, or the request error thrown. *)
Definition await {A} (c : api A) : res A :=
  match c with
  | inl data => Ok data
  | inr cause => Throw (RequestError cause)
  end.

(** The four requests are awaited together; whichever fails, the
    [catch] replaces its error by a fixed one. *)
Definition getRepoDetails (r : Remote) : res RepoDetails :=
  try_catch
    (bind (await (repos_get r)) (fun repoInfo =>
     bind (await (repos_listLanguages r)) (fun langs =>
     bind (await (repos_listContributors r)) (fun contribs =>
     bind (await (repos_listCommits r)) (fun commits =>
       Ok {| repo := repoInfo; languages := langs;
             contributors := contribs; recentCommits := commits |})))))
    (fun _ => Throw (Error "Failed to fetch repository details")).

Definition getCodeFrequency (r : Remote) : json :=
  match repos_getCodeFrequencyStats r with
  | inl data => data
  | inr _ => JArr []
  end.

Definition getParticipation (r : Remote) : json :=
  match repos_getParticipationStats r with
  | inl data => data
  | inr _ => JObj [("all", JArr []); ("owner", JArr [])]
  end.

Definition getPunchCardStats (r : Remote) : json :=
  match repos_getPunchCardStats r with
  | inl data => data
  | inr _ => JArr []
  end.

(** An object literal built from fields of [v]; a field that is
    [undefined] is left out. *)
Fixpoint pick (fields : list (string * string)) (v : json) : list (string * json) :=
  match fields with
  | [] => []
  | (new, old) :: t =>
      match prop v old with
      | Some x => (new, x) :: pick t v
      | None => pick t v
      end
  end.

Definition getReleases (r : Remote) : json :=
  match repos_listReleases r with
  | inl data =>
      JArr (map (fun release =>
                   JObj (pick [("id", "id"); ("tagName", "tag_name"); ("name", "name");
                               ("publishedAt", "published_at");
                               ("prerelease", "prerelease"); ("draft", "draft");
                               ("htmlUrl", "html_url")] release)) data)
  | inr _ => JArr []
  end.

Definition getDeployments (r : Remote) : json :=
  match repos_listDeployments r with
  | inl data =>
      JArr (map (fun deployment =>
                   JObj (pick [("id", "id"); ("environment", "environment");
                               ("createdAt", "created_at"); ("updatedAt", "updated_at");
                               ("ref", "ref")] deployment)) data)
  | inr _ => JArr []
  end.

Record Traffic : Type := {
  views : json;
  clones : json;
  referrers : json;
  paths : json
}.

(** [call.catch(() => ({ data: d }))] *)
Definition or_data (c : api json) (d : json) : json :=
  match c with inl data => data | inr _ => d end.

Definition getTrafficStats (r : Remote) : Traffic :=
  {| views := or_data (repos_getViews r)
                (JObj [("count", JNum "0"); ("uniques", JNum "0"); ("views", JArr [])]);
     clones := or_data (repos_getClones r)
                 (JObj [("count", JNum "0"); ("uniques", JNum "0"); ("clones", JArr [])]);
     referrers := or_data (repos_getTopReferrers r) (JArr []);
     paths := or_data (repos_getTopPaths r) (JArr []) |}.

Record Analytics : Type := {
  codeFrequency : json;
  participation : json;
  punchCard : json;
  releases : json;
  deployments : json;
  traffic : Traffic
}.

(** [{ ...repoDetails, analytics }] *)
Record RepoAnalytics : Type := {
  details : RepoDetails;
  analytics : Analytics
}.

Definition getComprehensiveRepoAnalytics (r : Remote) : res RepoAnalytics :=
  try_catch
    (bind (getRepoDetails r) (fun repoDetails =>
       Ok {| details := repoDetails;
             analytics := {| codeFrequency := getCodeFrequency r;
                             participation := getParticipation r;
                             punchCard := getPunchCardStats r;
                             releases := getReleases r;
                             deployments := getDeployments r;
                             traffic := getTrafficStats r |} |}))
    (fun _ => Throw (Error "Failed to fetch comprehensive analytics")).

Definition getRepositoryTree (r : Remote) : res (list TreeItem) :=
  try_catch (await (git_getTree r))
    (fun _ => Throw (Error "Failed to fetch repository tree")).

Record FileData : Type := {
  content : string;
  file_size : nat;
  file_sha : string
}.

(** Returns [null] for data without content and for a failed call; it
    has no path that throws. *)
Definition getFileContent (r : Remote) (p : string) : res (option FileData) :=
  try_catch
    (bind (await (repos_getContent r p)) (fun data =>
       match data with
       | File text sz sha =>
           Ok (Some {| content := text; file_size := sz; file_sha := sha |})
       | Listing => Ok None
       end))
    (fun _ => Ok None).

End GitHub.

(** ** lib/repository-onboarding.ts: [RepositoryOnboardingService] *)
Module Onboarding.
Import Js.

Record ContentBlock : Type := {
  block_type : string;
  text : option string
}.

(** [message] is absent on messages that are not assistant turns. *)
Record SDKMessage : Type := {
  msg_type : string;
  message : option (list ContentBlock)
}.

Module KeyFile.
Record t : Type := {
  path : string;
  content : string;
  type : string;
  insights : list string
}.
End KeyFile.

(** The value of [languageMap[ext] || 'Unknown']: a language name, or,
    for an extension that names a member of [Object.prototype], that
    member. *)
Inductive Language : Type :=
| Lang (name : string)
| Inherited.

Module CodeItem.
Record t : Type := {
  path : string;
  type : string;
  size : nat;
  language : Language
}.
End CodeItem.

Record RepositoryAnalysisData : Type := {
  repository : GitHub.RepoAnalytics;
  analytics : GitHub.Analytics;
  codeStructure : list CodeItem.t;
  keyFiles : list KeyFile.t
}.

(** What [performClaudeCodeAnalysis] returns. *)
Record ClaudeAnalysis : Type := {
  codeAnalysis : string;
  dataModel : string;
  architecture : string;
  features : list string;
  setupInstructions : string;
  keyInsights : list string
}.

Record Metadata : Type := {
  analysisType : string;
  meta_setupInstructions : option string;
  meta_keyInsights : option (list string);
  timestamp : string
}.

Record OnboardingResult : Type := {
  success : bool;
  onboardingGuide : string;
  technicalAnalysis : string;
  recommendations : list string;
  error : option string;
  metadata : option Metadata
}.

(** One call of the SDK's [query]: the messages it yields, whether it
    then fails, and how long it takes to end. *)
Record AiCall : Type := {
  yielded : list SDKMessage;
  failure : option exn;
  duration_ms : N
}.

(** What one run of the service meets: the hosting API at the first
    gathering and at the one of the fallback, the AI service, and the
    clock read when the result is built. *)
Record World : Type := {
  remote : GitHub.Remote;
  query : string -> AiCall;
  remote_retry : GitHub.Remote;
  now : string
}.

(** The four builders of report text.  They read only their arguments
    and have no path that throws (the technical analysis formats dates
    and percentages through the locale and floating point); no statement
    below depends on the text they return. *)
Class Texts : Type := {
  generateEnhancedOnboardingGuide :
    RepositoryAnalysisData -> ClaudeAnalysis -> string -> string -> string;
  generateEnhancedTechnicalAnalysis :
    RepositoryAnalysisData -> ClaudeAnalysis -> string -> string -> string;
  generateBasicOnboardingGuide :
    RepositoryAnalysisData -> string -> string -> string;
  generateBasicTechnicalAnalysis :
    RepositoryAnalysisData -> string -> string -> string
}.

Definition languageMap : list (string * string) :=
  [("js", "JavaScript"); ("jsx", "React"); ("ts", "TypeScript");
   ("tsx", "React TypeScript"); ("py", "Python"); ("java", "Java");
   ("cpp", "C++"); ("c", "C"); ("cs", "C#"); ("php", "PHP"); ("rb", "Ruby");
   ("go", "Go"); ("rs", "Rust"); ("swift", "Swift"); ("kt", "Kotlin");
   ("dart", "Dart"); ("vue", "Vue.js"); ("html", "HTML"); ("css", "CSS");
   ("scss", "SCSS"); ("less", "LESS"); ("json", "JSON"); ("xml", "XML");
   ("yaml", "YAML"); ("yml", "YAML"); ("md", "Markdown"); ("sql", "SQL")].

Fixpoint lookup (k : string) (m : list (string * string)) : option string :=
  match m with
  | [] => None
  | (k', v) :: t => if String.eqb k k' then Some v else lookup k t
  end.

Definition detectLanguage (filename : string) : Language :=
  let ext := toLowerCase (last_segment filename) in
  match lookup ext languageMap with
  | Some l => Lang l
  | None =>
      if (String.eqb ext "constructor" || String.eqb ext "__proto__")%bool
      then Inherited
      else Lang "Unknown"
  end.

Definition analyzeCodeStructure (tree : list GitHub.TreeItem) : list CodeItem.t :=
  map (fun item =>
         {| CodeItem.path := GitHub.path item;
            CodeItem.type := GitHub.type item;
            CodeItem.size := match GitHub.size item with Some n => n | None => 0 end;
            CodeItem.language := detectLanguage (GitHub.path item) |}) tree.

Definition keyFileNames : list string :=
  ["README.md"; "README.rst"; "README.txt";
   "package.json"; "requirements.txt"; "Gemfile"; "go.mod"; "Cargo.toml";
   "dockerfile"; "Dockerfile"; "docker-compose.yml";
   "tsconfig.json"; "webpack.config.js"; "vite.config.js";
   ".env.example"; ".env.template";
   "CONTRIBUTING.md"; "LICENSE"; "CHANGELOG.md";
   "prisma/schema.prisma"; "schema.prisma"].

(** [keyFileNames.some(name => path.toLowerCase().includes(name.toLowerCase()))] *)
Definition isKeyFile (p : string) : bool :=
  existsb (fun name => includes (toLowerCase p) (toLowerCase name)) keyFileNames.

Definition getFileType (filename : string) : string :=
  let name := toLowerCase filename in
  if includes name "readme" then "documentation"
  else if (includes name "package.json" || includes name "requirements"
           || includes name "gemfile")%bool then "dependencies"
  else if includes name "docker" then "containerization"
  else if (includes name "config" || includes name "tsconfig"
           || includes name "webpack")%bool then "configuration"
  else if (includes name "test" || includes name "spec")%bool then "testing"
  else if (includes name "contributing" || includes name "license"
           || includes name "changelog")%bool then "project_info"
  else if includes name "schema.prisma" then "database_schema"
  else "code".

Section Service.
Context {RT : Runtime} {TX : Texts}.

(** [insights.push(x)] *)
Definition push (x : string) : SE (list string) unit :=
  se_update (fun insights => insights ++ [x]).

(** The body of the [try] block for [package.json]. *)
Definition packageInsights (content : string) : SE (list string) unit :=
  pkg <- se_lift (JSON_parse content) ;;
  scripts <- se_lift (get pkg "scripts") ;;
  se_when (truthy_opt scripts)
    (match scripts with
     | Some v => push ("Available scripts: " +++ join ", " (Object_keys v))
     | None => se_ret tt
     end) ;;
  deps <- se_lift (get pkg "dependencies") ;;
  se_when (truthy_opt deps)
    (match deps with
     | Some v => push (of_nat (length (Object_keys v)) +++ " dependencies")
     | None => se_ret tt
     end).

Definition analyzeFileContentBody (filename content : string) : SE (list string) unit :=
  let lowerContent := toLowerCase content in
  se_when (includes (toLowerCase filename) "readme")
    (se_when (includes lowerContent "installation")
       (push "Contains installation instructions") ;;
     se_when (includes lowerContent "getting started")
       (push "Has getting started guide") ;;
     se_when (includes lowerContent "api") (push "Includes API documentation") ;;
     se_when (includes lowerContent "example") (push "Provides examples") ;;
     se_when (includes lowerContent "demo") (push "Has demo information")) ;;
  se_when (String.eqb filename "package.json")
    (se_try (packageInsights content)
       (fun _ => push "Contains package configuration")) ;;
  se_when (includes filename "schema.prisma")
    (push "Prisma database schema" ;;
     let modelMatches := RegExp_model content in
     se_when (negb (Nat.eqb (length modelMatches) 0))
       (push ("Database models: " +++ of_nat (length modelMatches)))).

(** The array [insights] starts empty and is returned at the end. *)
Definition analyzeFileContent (filename content : string) : res (list string) :=
  match analyzeFileContentBody filename content [] with
  | (Ok _, insights) => Ok insights
  | (Throw e, _) => Throw e
  end.

(** The object pushed on [keyFiles] for a path and the content read. *)
Definition keyFileOf (p content : string) : res KeyFile.t :=
  bind (analyzeFileContent p content) (fun ins =>
    Ok {| KeyFile.path := p;
          KeyFile.content := substring0 2000 content;
          KeyFile.type := getFileType p;
          KeyFile.insights := ins |}).

(** The body of the [try] block of [getKeyFiles] for one tree item;
    [content] is [fileData?.content || '']. *)
Definition readKeyFile (r : GitHub.Remote) (p : string) : res KeyFile.t :=
  bind (GitHub.getFileContent r p) (fun fileData =>
    let content := match fileData with
                   | Some d => GitHub.content d
                   | None => EmptyString
                   end in
    keyFileOf p content).

Fixpoint getKeyFiles (r : GitHub.Remote) (tree : list GitHub.TreeItem) : list KeyFile.t :=
  match tree with
  | [] => []
  | item :: rest =>
      if isKeyFile (GitHub.path item)
      then match readKeyFile r (GitHub.path item) with
           | Ok kf => kf :: getKeyFiles r rest
           | Throw _ => getKeyFiles r rest
           end
      else getKeyFiles r rest
  end.

Definition gatherRepositoryData (r : GitHub.Remote) : res RepositoryAnalysisData :=
  try_catch
    (bind (GitHub.getComprehensiveRepoAnalytics r) (fun repo =>
     bind (GitHub.getRepositoryTree r) (fun tree =>
       Ok {| repository := repo;
             analytics := GitHub.analytics repo;
             codeStructure := analyzeCodeStructure tree;
             keyFiles := getKeyFiles r tree |})))
    (fun e => Throw e).

Definition show_opt (v : option string) : string :=
  match v with Some x => x | None => "null" end.

Definition opt_or (v : option string) (d : string) : string :=
  match v with Some x => or_default x d | None => d end.

Definition mainLanguageOf (repoData : RepositoryAnalysisData) : option string :=
  GitHub.language (GitHub.repo (GitHub.details (repository repoData))).

Definition createDeepAnalysisPrompt (repoData : RepositoryAnalysisData)
    (owner repo : string) : string :=
  let keyFileContents :=
    join nl
      (map (fun f => nl +++ "## " +++ KeyFile.path f +++ nl +++ KeyFile.content f)
         (filter (fun f => negb (is_empty (KeyFile.content f))) (keyFiles repoData))) in
  let info := GitHub.repo (GitHub.details (repository repoData)) in
  "Analyze this " +++ opt_or (GitHub.language info) "software" +++ " repository: "
    +++ owner +++ "/" +++ repo +++ nl +++ nl
    +++ "Repository Overview:" +++ nl
    +++ "- Language: " +++ show_opt (GitHub.language info) +++ nl
    +++ "- Files: " +++ of_nat (length (codeStructure repoData)) +++ nl
    +++ "- Description: " +++ opt_or (GitHub.description info) "No description" +++ nl +++ nl
    +++ "Key Files Content:" +++ keyFileContents +++ nl +++ nl
    +++ "Please provide a comprehensive developer-focused analysis including:" +++ nl +++ nl
    +++ "1. **Code Architecture & Patterns**: Identify architectural patterns, frameworks, and design principles" +++ nl
    +++ "2. **Data Model Analysis**: Analyze database schema, entity relationships, and data flow" +++ nl
    +++ "3. **Feature Detection**: Identify main features and application capabilities" +++ nl
    +++ "4. **Technology Stack**: Detailed breakdown of technologies, frameworks, and tools" +++ nl
    +++ "5. **Setup Instructions**: Step-by-step developer setup based on actual project structure" +++ nl
    +++ "6. **Key Developer Insights**: Important things developers should know about this codebase" +++ nl +++ nl
    +++ "Focus on actionable insights that help developers understand and contribute to this project effectively.".

(** The bullet items of a text, each without its bullet and trimmed. *)
Definition bulletItems (t : string) : list string :=
  map (fun f => trim (replace_bullet f)) (RegExp_bullet t).

(** One text block of an assistant message, added to the six
    accumulators. *)
Definition scanText (acc : ClaudeAnalysis) (t : string) : ClaudeAnalysis :=
  let low := toLowerCase t in
  {| architecture :=
       if (includes low "architecture" || includes low "pattern")%bool
       then architecture acc +++ t +++ nl else architecture acc;
     dataModel :=
       if (includes low "data model" || includes low "database"
           || includes low "schema")%bool
       then dataModel acc +++ t +++ nl else dataModel acc;
     features :=
       if (includes low "feature" || includes low "capability")%bool
       then features acc ++ bulletItems t else features acc;
     setupInstructions :=
       if (includes low "setup" || includes low "install")%bool
       then setupInstructions acc +++ t +++ nl else setupInstructions acc;
     keyInsights :=
       if (includes low "insight" || includes low "important")%bool
       then keyInsights acc ++ bulletItems t else keyInsights acc;
     codeAnalysis := codeAnalysis acc +++ t +++ nl |}.

Definition scanBlock (acc : ClaudeAnalysis) (b : ContentBlock) : ClaudeAnalysis :=
  if String.eqb (block_type b) "text"
  then match text b with
       | Some t => if is_empty t then acc else scanText acc t
       | None => acc
       end
  else acc.

Definition scanMessage (acc : ClaudeAnalysis) (msg : SDKMessage) : ClaudeAnalysis :=
  if String.eqb (msg_type msg) "assistant"
  then match message msg with
       | Some blocks => fold_left scanBlock blocks acc
       | None => acc
       end
  else acc.

Definition or_list (l d : list string) : list string :=
  match l with [] => d | _ => l end.

Definition extractClaudeInsights (messages : list SDKMessage) : ClaudeAnalysis :=
  let acc :=
    fold_left scanMessage messages
      {| codeAnalysis := EmptyString; dataModel := EmptyString;
         architecture := EmptyString; features := [];
         setupInstructions := EmptyString; keyInsights := [] |} in
  {| codeAnalysis := or_default (codeAnalysis acc) "Code analysis completed";
     dataModel := or_default (dataModel acc) "No specific data model detected";
     architecture := or_default (architecture acc) "Architecture analysis completed";
     features := or_list (features acc) ["Application features detected"];
     setupInstructions :=
       or_default (setupInstructions acc) "Standard development setup required";
     keyInsights := or_list (keyInsights acc) ["Comprehensive analysis completed"] |}.

(** What the [catch] of [performClaudeCodeAnalysis] returns. *)
Definition claudeUnavailable : ClaudeAnalysis :=
  {| codeAnalysis := "Claude analysis unavailable - using GitHub API data only";
     dataModel := "Data model analysis unavailable";
     architecture := "Architecture analysis unavailable";
     features := [];
     setupInstructions := "Standard setup required";
     keyInsights := ["Analysis limited - Claude SDK unavailable"] |}.

(** [for await (const message of query(...)) messages.push(message)],
    entered at the time [started] (in milliseconds): the loop stays
    suspended until the call ends, [duration_ms] later, and leaves with
    the messages the call yielded or with its error.  No timer runs
    beside the loop and [abortController.abort()] is called nowhere, so
    nothing else resumes it. *)
Definition collect (call : AiCall) : SE N (list SDKMessage) :=
  fun started =>
    (match failure call with
     | Some e => Throw e
     | None => Ok (yielded call)
     end,
     (started + duration_ms call)%N).

(** [await this.performClaudeCodeAnalysis(repoData, owner, repo)] begun
    at the time [started]: the analysis it returns and the time at which
    it returns.  The second case is the [catch], which leaves no path
    that throws. *)
Definition performClaudeCodeAnalysisAt (w : World)
    (repoData : RepositoryAnalysisData) (owner repo : string) (started : N)
  : ClaudeAnalysis * N :=
  let prompt := createDeepAnalysisPrompt repoData owner repo in
  match collect (query w prompt) started with
  | (Ok messages, ended) => (extractClaudeInsights messages, ended)
  | (Throw _, ended) => (claudeUnavailable, ended)
  end.

Definition performClaudeCodeAnalysis (w : World) (repoData : RepositoryAnalysisData)
    (owner repo : string) : ClaudeAnalysis :=
  fst (performClaudeCodeAnalysisAt w repoData owner repo 0%N).

(** The time [performClaudeCodeAnalysis] takes to return. *)
Definition claudeWait (w : World) (repoData : RepositoryAnalysisData)
    (owner repo : string) : N :=
  snd (performClaudeCodeAnalysisAt w repoData owner repo 0%N).

Definition firstTruthy (deps : json) (table : list (string * string)) : option string :=
  match find (fun kv => truthy_opt (prop deps (fst kv))) table with
  | Some kv => Some (snd kv)
  | None => None
  end.

Definition frameworkTable : list (string * string) :=
  [("react", "React"); ("vue", "Vue.js"); ("angular", "Angular");
   ("next", "Next.js"); ("express", "Express.js"); ("fastify", "Fastify")].

(** The [try] block of [detectFramework]: the framework it returns, or
    [None] when it falls through. *)
Definition packageFramework (content : string) : res (option string) :=
  bind (JSON_parse content) (fun pkg =>
  bind (get pkg "dependencies") (fun deps =>
    match deps with
    | Some d => if truthy d then Ok (firstTruthy d frameworkTable) else Ok None
    | None => Ok None
    end)).

Definition pythonFramework (content : string) : option string :=
  let c := toLowerCase content in
  if includes c "django" then Some "Django"
  else if includes c "flask" then Some "Flask"
  else if includes c "fastapi" then Some "FastAPI"
  else None.

Definition detectFramework (files : list KeyFile.t) (language : string) : option string :=
  let fromPackage :=
    match find (fun f => String.eqb (KeyFile.path f) "package.json") files with
    | Some packageJson =>
        if is_empty (KeyFile.content packageJson) then None
        else match packageFramework (KeyFile.content packageJson) with
             | Ok fw => fw
             | Throw _ => None
             end
    | None => None
    end in
  match fromPackage with
  | Some fw => Some fw
  | None =>
      match find (fun f => includes (KeyFile.path f) "requirements") files with
      | Some requirements =>
          if is_empty (KeyFile.content requirements) then None
          else pythonFramework (KeyFile.content requirements)
      | None => None
      end
  end.

Definition isJsOrTs (l : option string) : bool :=
  match l with
  | Some x => (String.eqb x "JavaScript" || String.eqb x "TypeScript")%bool
  | None => false
  end.

Definition hasPrisma (files : list KeyFile.t) : bool :=
  existsb (fun f => includes (KeyFile.path f) "schema.prisma") files.

Definition generateEnhancedRecommendations (repoData : RepositoryAnalysisData)
    (claudeAnalysis : ClaudeAnalysis) (owner repo : string) : list string :=
  let mainLanguage := mainLanguageOf repoData in
  (match keyInsights claudeAnalysis with
   | [] => []
   | _ =>
       ["**🤖 AI-Powered Recommendations:**"]
         ++ map (fun insight => "• " +++ insight) (firstn 6 (keyInsights claudeAnalysis))
         ++ [EmptyString]
   end)
  ++ ["**🚀 Setup & Development:**";
      "• Clone the repository and review all README files"]
  ++ (if isJsOrTs mainLanguage
      then ["• Run `npm install` to install all dependencies";
            "• Check package.json for available development scripts"]
           ++ match detectFramework (keyFiles repoData) (show_opt mainLanguage) with
              | Some framework =>
                  ["• Familiarize yourself with " +++ framework +++ " framework patterns"]
              | None => []
              end
      else [])
  ++ (if (hasPrisma (keyFiles repoData)
          || includes (dataModel claudeAnalysis) "prisma")%bool
      then [EmptyString;
            "**🗄️ Database & Data Model:**";
            "• Review the Prisma schema for data model understanding";
            "• Run `npx prisma generate` to generate the client";
            "• Study entity relationships and database constraints";
            "• Use `npx prisma studio` to explore the database visually"]
      else [])
  ++ (match features claudeAnalysis with
      | [] => []
      | _ =>
          [EmptyString; "**🎯 Feature Exploration:**"]
            ++ map (fun feature => "• Explore the " +++ feature +++ " implementation")
                 (firstn 4 (features claudeAnalysis))
      end)
  ++ [EmptyString;
      "**📋 Code Quality & Best Practices:**";
      "• Review the codebase structure and naming conventions";
      "• Check for existing tests and testing patterns";
      "• Look for linting and formatting configurations"].

Definition generateBasicRecommendations (repoData : RepositoryAnalysisData)
    (owner repo : string) : list string :=
  ["Clone the repository and review the README.md file"]
  ++ (if isJsOrTs (mainLanguageOf repoData)
      then ["Run `npm install` to install dependencies";
            "Check package.json for available scripts"]
      else []).

(** The fallback gathers the data again; [err] is the error that
    brought it here, an instance of [Error]. *)
Definition generateBasicOnboarding (w : World) (owner repo : string) (err : exn)
  : OnboardingResult :=
  match gatherRepositoryData (remote_retry w) with
  | Ok repoData =>
      {| success := true;
         onboardingGuide := generateBasicOnboardingGuide repoData owner repo;
         technicalAnalysis := generateBasicTechnicalAnalysis repoData owner repo;
         recommendations := generateBasicRecommendations repoData owner repo;
         error := None;
         metadata := Some {| analysisType := "basic_fallback";
                             meta_setupInstructions := None;
                             meta_keyInsights := None;
                             timestamp := now w |} |}
  | Throw _ =>
      {| success := false;
         error := Some (Js.message err);
         onboardingGuide := "Failed to generate onboarding guide";
         technicalAnalysis := "Analysis failed";
         recommendations := ["Please try again later"];
         metadata := None |}
  end.

(** Of the steps of the [try] block only the gathering can throw; the
    [catch] hands its error to the fallback. *)
Definition generateComprehensiveOnboarding (w : World) (owner repo : string)
  : OnboardingResult :=
  match gatherRepositoryData (remote w) with
  | Ok repoData =>
      let claudeAnalysis := performClaudeCodeAnalysis w repoData owner repo in
      {| success := true;
         onboardingGuide :=
           generateEnhancedOnboardingGuide repoData claudeAnalysis owner repo;
         technicalAnalysis :=
           generateEnhancedTechnicalAnalysis repoData claudeAnalysis owner repo;
         recommendations :=
           generateEnhancedRecommendations repoData claudeAnalysis owner repo;
         error := None;
         metadata := Some {| analysisType := "claude_enhanced_analysis";
                             meta_setupInstructions :=
                               Some (setupInstructions claudeAnalysis);
                             meta_keyInsights := Some (keyInsights claudeAnalysis);
                             timestamp := now w |} |}
  | Throw err => generateBasicOnboarding w owner repo err
  end.

End Service.
End Onboarding.

(** ** The older analyzer: [DeepRepositoryAnalyzer] *)
Module DeepAnalyzer.
Import Js.

Inductive FileType : Type := config | documentation | code | test | build.

Record FileAnalysis : Type := {
  filename : string;
  content : string;
  type : FileType;
  language : option string;
  insights : list string
}.

Module ProjectStructure.
Record t : Type := {
  framework : string;
  language : string;
  buildSystem : string;
  testFramework : option string;
  dependencies : list (string * json);
  scripts : list (string * json);
  architecture : string
}.
End ProjectStructure.

Section Analyzer.
Context {RT : Runtime}.

Definition push (x : string) : SE (list string) unit :=
  se_update (fun insights => insights ++ [x]).

Definition any_of (s : string) (words : list string) : bool :=
  existsb (fun w => includes s w) words.

Definition analyzeReadme (content : string) : list string :=
  let lines := toLowerCase content in
  (if any_of lines ["installation"; "install"]
   then ["Contains installation instructions"] else [])
  ++ (if any_of lines ["getting started"; "quick start"]
      then ["Includes getting started guide"] else [])
  ++ (if any_of lines ["api"; "documentation"]
      then ["Has API or documentation references"] else [])
  ++ (if any_of lines ["contributing"; "contribute"]
      then ["Includes contribution guidelines"] else [])
  ++ (if includes lines "license" then ["Contains license information"] else [])
  ++ (if any_of lines ["demo"; "example"] then ["Provides examples or demos"] else [])
  ++ (match RegExp_setup_count content with
      | 0 => []
      | n => ["Found " +++ of_nat n +++ " setup command blocks"]
      end).

(** [if (v.k) insights.push(x)] for a truthy [v] *)
Definition pushIf (v : json) (k x : string) : SE (list string) unit :=
  se_when (truthy_opt (prop v k)) (push x).

(** [${v.node || 'not specified'}] for the truthy [v] of
    [pkg.engines]: the conversion of [v.node] to a string may throw. *)
Definition nodeRequirement (v : json) : res string :=
  match prop v "node" with
  | Some n => if truthy n then String_of n else Ok "not specified"
  | None => Ok "not specified"
  end.

(** The body of the [try] block of [analyzePackageJson]. *)
Definition packageJsonBody (content : string) : SE (list string) unit :=
  pkg <- se_lift (JSON_parse content) ;;
  pkgScripts <- se_lift (get pkg "scripts") ;;
  match pkgScripts with
  | Some v =>
      se_when (truthy v)
        (push ("Available scripts: " +++ join ", " (Object_keys v)) ;;
         se_when (truthy_opt (prop v "dev") || truthy_opt (prop v "start"))%bool
           (push "Has development server scripts") ;;
         pushIf v "build" "Has build script" ;;
         pushIf v "test" "Has test script")
  | None => se_ret tt
  end ;;
  pkgDeps <- se_lift (get pkg "dependencies") ;;
  match pkgDeps with
  | Some v =>
      se_when (truthy v)
        (push (of_nat (length (Object_keys v)) +++ " production dependencies") ;;
         pushIf v "react" "React application" ;;
         pushIf v "vue" "Vue.js application" ;;
         pushIf v "angular" "Angular application" ;;
         pushIf v "next" "Next.js application" ;;
         pushIf v "express" "Express.js server" ;;
         pushIf v "fastify" "Fastify server")
  | None => se_ret tt
  end ;;
  pkgDev <- se_lift (get pkg "devDependencies") ;;
  match pkgDev with
  | Some v =>
      se_when (truthy v)
        (push (of_nat (length (Object_keys v)) +++ " development dependencies") ;;
         pushIf v "typescript" "TypeScript project" ;;
         pushIf v "jest" "Uses Jest for testing" ;;
         pushIf v "cypress" "Uses Cypress for E2E testing" ;;
         pushIf v "webpack" "Uses Webpack for bundling" ;;
         pushIf v "vite" "Uses Vite for bundling")
  | None => se_ret tt
  end ;;
  pkgEngines <- se_lift (get pkg "engines") ;;
  match pkgEngines with
  | Some v =>
      se_when (truthy v)
        (required <- se_lift (nodeRequirement v) ;;
         push ("Node.js version requirement: " +++ required))
  | None => se_ret tt
  end.

Definition analyzePackageJson (content : string) : list string :=
  snd (se_try (packageJsonBody content)
         (fun _ => push "Invalid package.json format") []).

Definition analyzePythonRequirements (content : string) : list string :=
  let lines :=
    filter (fun line => (negb (is_empty (trim line)) && negb (startsWith line "#"))%bool)
      (split_lines content) in
  let frameworks :=
    filter (fun line => any_of line ["django"; "flask"; "fastapi"; "tornado"; "pyramid"])
      lines in
  [of_nat (length lines) +++ " Python dependencies"]
  ++ (match frameworks with
      | [] => []
      | _ => ["Python web frameworks: " +++ join ", " frameworks]
      end).

Definition analyzeDockerfile (content : string) : list string :=
  let lines := toLowerCase content in
  (if includes lines "from node" then ["Node.js Docker container"] else [])
  ++ (if includes lines "from python" then ["Python Docker container"] else [])
  ++ (if includes lines "from nginx" then ["Nginx web server"] else [])
  ++ (if includes lines "expose" then ["Exposes network ports"] else [])
  ++ (if includes lines "volume" then ["Uses Docker volumes"] else [])
  ++ (if includes lines "multi-stage" then ["Multi-stage Docker build"] else []).

Definition analyzeTestConfig (content : string) : list string :=
  let lines := toLowerCase content in
  (if includes lines "jest" then ["Jest testing framework"] else [])
  ++ (if includes lines "mocha" then ["Mocha testing framework"] else [])
  ++ (if includes lines "cypress" then ["Cypress E2E testing"] else [])
  ++ (if includes lines "playwright" then ["Playwright testing"] else [])
  ++ (if includes lines "coverage" then ["Code coverage configured"] else []).

Definition analyzeConfigFile (name content : string) : list string :=
  (if any_of name ["typescript"; "tsconfig"] then ["TypeScript configuration"] else [])
  ++ (if includes name "webpack" then ["Webpack bundler configuration"] else [])
  ++ (if includes name "vite" then ["Vite build tool configuration"] else []).

Definition analyzeFile (name text : string) : FileAnalysis :=
  let stored := substring0 1000 text in
  if includes (toLowerCase name) "readme"
  then {| filename := name; content := stored; type := documentation;
          language := None; insights := analyzeReadme text |}
  else if String.eqb name "package.json"
  then {| filename := name; content := stored; type := config;
          language := Some "json"; insights := analyzePackageJson text |}
  else if String.eqb name "requirements.txt"
  then {| filename := name; content := stored; type := config;
          language := None; insights := analyzePythonRequirements text |}
  else if includes name "docker"
  then {| filename := name; content := stored; type := build;
          language := None; insights := analyzeDockerfile text |}
  else if any_of name ["test"; "spec"]
  then {| filename := name; content := stored; type := test;
          language := None; insights := analyzeTestConfig text |}
  else if any_of name ["config"; ".json"]
  then {| filename := name; content := stored; type := config;
          language := None; insights := analyzeConfigFile name text |}
  else {| filename := name; content := stored; type := code;
          language := None; insights := [] |}.

(** The local variables of [analyzeProjectStructure]. *)
Record Vars : Type := {
  v_framework : string;
  v_language : string;
  v_buildSystem : string;
  v_testFramework : option string;
  v_dependencies : list (string * json);
  v_scripts : list (string * json)
}.

Definition initialVars : Vars :=
  {| v_framework := "Unknown"; v_language := "Unknown"; v_buildSystem := "Unknown";
     v_testFramework := None; v_dependencies := []; v_scripts := [] |}.

Definition setFramework (x : string) (v : Vars) : Vars :=
  {| v_framework := x; v_language := v_language v; v_buildSystem := v_buildSystem v;
     v_testFramework := v_testFramework v; v_dependencies := v_dependencies v;
     v_scripts := v_scripts v |}.

Definition setLanguage (x : string) (v : Vars) : Vars :=
  {| v_framework := v_framework v; v_language := x; v_buildSystem := v_buildSystem v;
     v_testFramework := v_testFramework v; v_dependencies := v_dependencies v;
     v_scripts := v_scripts v |}.

Definition setBuildSystem (x : string) (v : Vars) : Vars :=
  {| v_framework := v_framework v; v_language := v_language v; v_buildSystem := x;
     v_testFramework := v_testFramework v; v_dependencies := v_dependencies v;
     v_scripts := v_scripts v |}.

Definition setTestFramework (x : string) (v : Vars) : Vars :=
  {| v_framework := v_framework v; v_language := v_language v;
     v_buildSystem := v_buildSystem v; v_testFramework := Some x;
     v_dependencies := v_dependencies v; v_scripts := v_scripts v |}.

(** [Object.assign(target, source)] on a target without properties:
    the own properties of the source, except a key [__proto__], which
    the assignment gives to the prototype setter. *)
Definition assigned (source : json) : list (string * json) :=
  filter (fun kv => negb (String.eqb (fst kv) "__proto__")) (own_properties source).

Definition assignDependencies (source : json) (v : Vars) : Vars :=
  {| v_framework := v_framework v; v_language := v_language v;
     v_buildSystem := v_buildSystem v; v_testFramework := v_testFramework v;
     v_dependencies := assigned source; v_scripts := v_scripts v |}.

Definition assignScripts (source : json) (v : Vars) : Vars :=
  {| v_framework := v_framework v; v_language := v_language v;
     v_buildSystem := v_buildSystem v; v_testFramework := v_testFramework v;
     v_dependencies := v_dependencies v; v_scripts := assigned source |}.

(** The first name of the table that is a truthy property of [v]. *)
Definition firstTruthy (v : json) (table : list (string * string)) : option string :=
  match find (fun kv => truthy_opt (prop v (fst kv))) table with
  | Some kv => Some (snd kv)
  | None => None
  end.

(** [b && b.includes(word)] for [b = pkg.scripts.build] *)
Definition buildIncludes (b : option json) (word : string) : res bool :=
  match b with
  | Some x => if truthy x then call_includes x word else Ok false
  | None => Ok false
  end.

(** The body of the [try] block of [analyzeProjectStructure]. *)
Definition packageStructure (text : string) : SE Vars unit :=
  pkg <- se_lift (JSON_parse text) ;;
  se_update (setLanguage "JavaScript/TypeScript") ;;
  pkgDeps <- se_lift (get pkg "dependencies") ;;
  match pkgDeps with
  | Some d =>
      se_when (truthy d)
        (se_update (assignDependencies d) ;;
         match firstTruthy d [("react", "React"); ("vue", "Vue.js");
                              ("angular", "Angular"); ("next", "Next.js");
                              ("express", "Express.js"); ("fastify", "Fastify")] with
         | Some fw => se_update (setFramework fw)
         | None => se_ret tt
         end)
  | None => se_ret tt
  end ;;
  pkgScripts <- se_lift (get pkg "scripts") ;;
  match pkgScripts with
  | Some sc =>
      se_when (truthy sc)
        (se_update (assignScripts sc) ;;
         isWebpack <- se_lift (buildIncludes (prop sc "build") "webpack") ;;
         if isWebpack : bool then se_update (setBuildSystem "Webpack")
         else
           isVite <- se_lift (buildIncludes (prop sc "build") "vite") ;;
           if isVite : bool then se_update (setBuildSystem "Vite")
           else se_when (truthy_opt (prop sc "build")) (se_update (setBuildSystem "Custom")))
  | None => se_ret tt
  end ;;
  pkgDev <- se_lift (get pkg "devDependencies") ;;
  match pkgDev with
  | Some d =>
      se_when (truthy d)
        (match firstTruthy d [("jest", "Jest"); ("mocha", "Mocha");
                              ("cypress", "Cypress")] with
         | Some tf => se_update (setTestFramework tf)
         | None => se_ret tt
         end)
  | None => se_ret tt
  end.

Definition pythonStructure (text : string) (v : Vars) : Vars :=
  let lines := split_lines text in
  let v1 := setLanguage "Python" v in
  if existsb (fun line => includes line "django") lines then setFramework "Django" v1
  else if existsb (fun line => includes line "flask") lines then setFramework "Flask" v1
  else if existsb (fun line => includes line "fastapi") lines then setFramework "FastAPI" v1
  else v1.

Definition hasDockerFile (keyFiles : list FileAnalysis) : bool :=
  existsb (fun f => includes (filename f) "docker") keyFiles.

Definition architectureOf (keyFiles : list FileAnalysis) (fw : string) : string :=
  if hasDockerFile keyFiles then "Containerized"
  else if (includes fw "Next.js" || includes fw "React")%bool
       then "Single Page Application"
  else if (includes fw "Express" || includes fw "FastAPI")%bool then "API Server"
  else "Unknown".

(** The variables after the two manifest passes. *)
Definition manifestVars (keyFiles : list FileAnalysis) : Vars :=
  let v1 :=
    match find (fun f => String.eqb (filename f) "package.json") keyFiles with
    | Some packageJson =>
        snd (se_try (packageStructure (content packageJson))
               (fun _ => se_ret tt) initialVars)
    | None => initialVars
    end in
  match find (fun f => String.eqb (filename f) "requirements.txt") keyFiles with
  | Some requirements => pythonStructure (content requirements) v1
  | None => v1
  end.

Definition analyzeProjectStructure (keyFiles : list FileAnalysis) : ProjectStructure.t :=
  let v := manifestVars keyFiles in
  {| ProjectStructure.framework := v_framework v;
     ProjectStructure.language := v_language v;
     ProjectStructure.buildSystem := v_buildSystem v;
     ProjectStructure.testFramework := v_testFramework v;
     ProjectStructure.dependencies := v_dependencies v;
     ProjectStructure.scripts := v_scripts v;
     ProjectStructure.architecture := architectureOf keyFiles (v_framework v) |}.

End Analyzer.
End DeepAnalyzer.

(** ** app/api/github/onboarding/route.ts: [POST] *)
Module Route.
Import Js.

(** The objects the route passes to [sendSSE]. *)
Inductive SseData : Type :=
| progress (message : string)
| step (content timestamp : string) (percent : nat)
| complete (onboardingGuide technicalAnalysis : string) (recommendations : list string)
| error (message : string).

Definition toJson (d : SseData) : json :=
  match d with
  | progress m => JObj [("type", JStr "progress"); ("message", JStr m)]
  | step c t p =>
      JObj [("type", JStr "message");
            ("data", JObj [("type", JStr "progress"); ("content", JStr c);
                           ("timestamp", JStr t); ("progress", JNum (of_nat p))])]
  | complete g t r =>
      JObj [("type", JStr "complete");
            ("data", JObj [("onboardingGuide", JStr g);
                           ("technicalAnalysis", JStr t);
                           ("recommendations", JArr (map JStr r))])]
  | error m => JObj [("type", JStr "error"); ("message", JStr m)]
  end.

(** The text [sendSSE] encodes and enqueues for an object. *)
Definition frame (d : SseData) : string :=
  "data: " +++ stringify (toJson d) +++ nl +++ nl.

(** The end-of-stream frame of the sibling route
    app/api/heal-diagram/route.ts. *)
Definition doneSentinel : string := "data: [DONE]" +++ nl +++ nl.

(** The caller's side of one request: at which suspension of [start]
    (if any) the request is aborted, and which calls of
    [controller.enqueue] throw. *)
Record Client : Type := {
  abortAt : option nat;
  enqueueThrows : nat -> bool
}.

(** The variables of [start]: the flag, the chunks enqueued so far (as
    the objects they encode), whether [controller.close()] has run, and
    the number of calls of [controller.enqueue]. *)
Record Stream : Type := {
  isStreamClosed : bool;
  enqueued : list SseData;
  controllerClosed : bool;
  enqueueCalls : nat
}.

Definition opened : Stream :=
  {| isStreamClosed := false; enqueued := []; controllerClosed := false;
     enqueueCalls := 0 |}.

(** The listener of the request's [abort] event. *)
Definition onAbort (st : Stream) : Stream :=
  {| isStreamClosed := true; enqueued := enqueued st; controllerClosed := true;
     enqueueCalls := enqueueCalls st |}.

(** An [await]: while [start] is suspended at its [k]-th suspension the
    listener runs if the client disconnects then. *)
Definition suspend (c : Client) (k : nat) (st : Stream) : Stream :=
  match abortAt c with
  | Some n => if Nat.eqb n k then onAbort st else st
  | None => st
  end.

Definition sendSSE (c : Client) (data : SseData) (st : Stream) : Stream :=
  if isStreamClosed st then st
  else if enqueueThrows c (enqueueCalls st)
       then {| isStreamClosed := true; enqueued := enqueued st;
               controllerClosed := controllerClosed st;
               enqueueCalls := S (enqueueCalls st) |}
       else {| isStreamClosed := false; enqueued := enqueued st ++ [data];
               controllerClosed := controllerClosed st;
               enqueueCalls := S (enqueueCalls st) |}.

Definition progressSteps : list (string * nat) :=
  [("Analyzing repository structure...", 25);
   ("Processing key files...", 50);
   ("Generating technical analysis...", 75);
   ("Creating recommendations...", 90)].

(** The [for] loop: each turn awaits [sendSSE] and then a timer of
    300 ms.  [clock i] is the time stamp read in turn [i]. *)
Fixpoint sendSteps (c : Client) (clock : nat -> string) (i : nat)
    (steps : list (string * nat)) (st : Stream) : Stream :=
  match steps with
  | [] => st
  | (m, p) :: rest =>
      if isStreamClosed st then st
      else
        let st1 := suspend c (3 + 2 * i) (sendSSE c (step m (clock i) p) st) in
        let st2 := suspend c (4 + 2 * i) st1 in
        sendSteps c clock (S i) rest st2
  end.

Definition opt_or (v : option string) (d : string) : string :=
  match v with Some x => or_default x d | None => d end.

(** The [finally] block. *)
Definition finish (st : Stream) : Stream :=
  if isStreamClosed st then st
  else {| isStreamClosed := isStreamClosed st; enqueued := enqueued st;
          controllerClosed := true; enqueueCalls := enqueueCalls st |}.

(** [if (!isStreamClosed) { await sendSSE(data) }] *)
Definition sendIfOpen (c : Client) (k : nat) (data : SseData) (st : Stream) : Stream :=
  if isStreamClosed st then st else suspend c k (sendSSE c data st).

Definition completeOf (result : Onboarding.OnboardingResult) : SseData :=
  complete (or_default (Onboarding.onboardingGuide result) "Analysis completed")
    (or_default (Onboarding.technicalAnalysis result) "Technical analysis completed")
    (Onboarding.recommendations result).

(** What follows [await generateComprehensiveOnboarding(owner, repo)]
    inside the [try], and the [catch]. *)
Definition respond (c : Client) (clock : nat -> string)
    (service : res Onboarding.OnboardingResult) (st : Stream) : Stream :=
  match service with
  | Ok result =>
      if isStreamClosed st then st
      else if Onboarding.success result
           then sendIfOpen c 11 (completeOf result)
                  (sendSteps c clock 0 progressSteps st)
           else sendIfOpen c 3
                  (error (opt_or (Onboarding.error result) "Analysis failed")) st
  | Throw e =>
      sendIfOpen c 3 (error (or_default (Js.message e) "Unknown error occurred")) st
  end.

(** The [start] callback of the stream.  [service] is the outcome of
    [generateComprehensiveOnboarding], awaited at suspension 2. *)
Definition start (c : Client) (clock : nat -> string)
    (service : res Onboarding.OnboardingResult) : Stream :=
  let st0 := suspend c 0 (sendSSE c (progress "Starting repository analysis...") opened) in
  let st1 := suspend c 1 (sendSSE c (progress "Gathering repository data...") st0) in
  let st2 := suspend c 2 st1 in
  finish (respond c clock service st2).

Inductive Response : Type :=
| jsonResponse (status : nat) (body : json)
| eventStream (s : Stream).

Section Handler.
Context {RT : Runtime} {TX : Onboarding.Texts}.

(** [accessToken] is [session?.accessToken]; [owner] and [repo] are the
    fields of the request body. *)
Definition POST (accessToken : option string) (owner repo : string)
    (c : Client) (clock : nat -> string) (w : Onboarding.World) : Response :=
  match accessToken with
  | None => jsonResponse 401 (JObj [("error", JStr "Unauthorized")])
  | Some token =>
      if is_empty token
      then jsonResponse 401 (JObj [("error", JStr "Unauthorized")])
      else if (is_empty owner || is_empty repo)%bool
      then jsonResponse 400 (JObj [("error", JStr "Owner and repo are required")])
      else eventStream
             (start c clock (Ok (Onboarding.generateComprehensiveOnboarding w owner repo)))
  end.

End Handler.

(** The chunks written on the response, in order. *)
Definition chunks (st : Stream) : list string := map frame (enqueued st).

End Route.

(** ** Vocabulary of the specification *)
Module Spec.
Import Js.

(** *** Event streams *)

(** A progress event: a [progress] object, or a [message] object whose
    data has type [progress]. *)
Definition isProgress (d : Route.SseData) : bool :=
  match d with
  | Route.progress _ => true
  | Route.step _ _ _ => true
  | _ => false
  end.

(** A terminal event: the result ([complete]) or an error. *)
Definition isTerminal (d : Route.SseData) : bool :=
  match d with
  | Route.complete _ _ _ => true
  | Route.error _ => true
  | _ => false
  end.

(** At least one progress event, then exactly one terminal event, and
    nothing after it. *)
Definition orderly (l : list Route.SseData) : Prop :=
  exists ps t,
    l = ps ++ [t] /\ ps <> [] /\ forallb isProgress ps = true /\ isTerminal t = true.

Definition terminals (l : list Route.SseData) : list Route.SseData :=
  filter isTerminal l.

(** A client that stays connected and whose stream accepts every chunk. *)
Definition connected (c : Route.Client) : Prop :=
  Route.abortAt c = None /\ forall k, Route.enqueueThrows c k = false.

(** The terminal event of a run that is not cut short. *)
Definition terminalOf (service : res Onboarding.OnboardingResult) : Route.SseData :=
  match service with
  | Ok result =>
      if Onboarding.success result
      then Route.completeOf result
      else Route.error (Route.opt_or (Onboarding.error result) "Analysis failed")
  | Throw e => Route.error (or_default (Js.message e) "Unknown error occurred")
  end.

Definition succeeds (service : res Onboarding.OnboardingResult) : bool :=
  match service with
  | Ok result => Onboarding.success result
  | Throw _ => false
  end.

(** The events of the loop of progress steps, from turn [i] on. *)
Fixpoint stepEvents (clock : nat -> string) (i : nat) (steps : list (string * nat))
  : list Route.SseData :=
  match steps with
  | [] => []
  | (m, p) :: rest => Route.step m (clock i) p :: stepEvents clock (S i) rest
  end.

(** The events of a run that is not cut short. *)
Definition script (clock : nat -> string) (service : res Onboarding.OnboardingResult)
  : list Route.SseData :=
  [Route.progress "Starting repository analysis...";
   Route.progress "Gathering repository data..."]
  ++ (if succeeds service then stepEvents clock 0 Route.progressSteps else [])
  ++ [terminalOf service].

(** The state of a stream when [todo] is still to be sent after
    [done]: open with exactly [done] enqueued, or closed with a part of
    the whole enqueued. *)
Definition tracks (done todo : list Route.SseData) (st : Route.Stream) : Prop :=
  (Route.isStreamClosed st = false /\ Route.enqueued st = done)
  \/ (Route.isStreamClosed st = true
      /\ exists n, Route.enqueued st = firstn n (done ++ todo)).

(** *** The analysis mode of a report

    The specification's [analysisMode] is the [analysisType] of the
    result's metadata: [heuristic-fallback] is ['basic_fallback'],
    [ai-enhanced] is ['claude_enhanced_analysis']. *)
Definition analysisMode (r : Onboarding.OnboardingResult) : option string :=
  match Onboarding.metadata r with
  | Some m => Some (Onboarding.analysisType m)
  | None => None
  end.

Definition heuristic_fallback : string := "basic_fallback".
Definition ai_enhanced : string := "claude_enhanced_analysis".

(** *** The gatherer's mandatory calls *)

Definition detailsOk (r : GitHub.Remote) : bool :=
  (GitHub.succeeded (GitHub.repos_get r)
   && GitHub.succeeded (GitHub.repos_listLanguages r)
   && GitHub.succeeded (GitHub.repos_listContributors r)
   && GitHub.succeeded (GitHub.repos_listCommits r))%bool.

Definition treeOk (r : GitHub.Remote) : bool :=
  GitHub.succeeded (GitHub.git_getTree r).

(** *** Architecture labels, following the specification's words

    Containerization file present, else UI framework, else server
    framework, else unknown.  A UI framework is one that
    [analyzePackageJson] calls an application; a server framework is one
    that it calls a server, or a Python web framework. *)
Definition uiFrameworks : list string := ["React"; "Vue.js"; "Angular"; "Next.js"].

Definition serverFrameworks : list string :=
  ["Express.js"; "Fastify"; "Django"; "Flask"; "FastAPI"].

Definition member (x : string) (l : list string) : bool :=
  existsb (String.eqb x) l.

Definition labelBy (ui server : list string) (containerFile : bool) (fw : string)
  : string :=
  if containerFile then "Containerized"
  else if member fw ui then "Single Page Application"
  else if member fw server then "API Server"
  else "Unknown".

Definition specArchitecture : bool -> string -> string :=
  labelBy uiFrameworks serverFrameworks.

(** The same rule order with the frameworks the code tests for. *)
Definition codeArchitecture : bool -> string -> string :=
  labelBy ["React"; "Next.js"] ["Express.js"; "FastAPI"].

(** The values the variable [framework] can take. *)
Definition detectableFrameworks : list string :=
  "Unknown" :: uiFrameworks ++ serverFrameworks.

Definition knownFramework (v : DeepAnalyzer.Vars) : Prop :=
  In (DeepAnalyzer.v_framework v) detectableFrameworks.

(** No file name holds [docker] in any letter case. *)
Definition noDockerName (keyFiles : list DeepAnalyzer.FileAnalysis) : bool :=
  forallb (fun f => negb (includes (toLowerCase (DeepAnalyzer.filename f)) "docker"))
    keyFiles.

(** *** Bounds of the recommendation list *)
Definition maxRecommendations : nat := 30.



End Spec.

(** ** Concrete inputs *)
Module Samples.
Import Js.

(** A JSON text written with single quotes in place of double ones. *)
Fixpoint jsonText (s : string) : string :=
  match s with
  | EmptyString => EmptyString
  | String c r =>
      String (if Ascii.eqb c "'" then "034"%char else c) (jsonText r)
  end.

Fixpoint filler (n : nat) : string :=
  match n with
  | 0 => EmptyString
  | S k => String "x" (filler k)
  end.

Definition packageSmall : string :=
  jsonText "{'name':'demo','scripts':{'dev':'next dev','build':'next build'},'dependencies':{'react':'18.2.0','next':'14.0.0'}}".

(** A manifest of more than 2000 characters: a long description comes
    before the scripts and the dependencies. *)
Definition packageLong : string :=
  jsonText "{'name':'demo','description':'" +++ filler 2100
    +++ jsonText "','scripts':{'dev':'next dev','build':'next build'},'dependencies':{'react':'18.2.0','next':'14.0.0'}}".

Definition packageVue : string := jsonText "{'dependencies':{'vue':'^3.4.0'}}".
Definition packageExpress : string := jsonText "{'dependencies':{'express':'^4.18.0'}}".

Definition sampleRepo : GitHub.RepoInfo :=
  {| GitHub.description := Some "A demo application";
     GitHub.language := Some "TypeScript";
     GitHub.stargazers_count := 12;
     GitHub.forks_count := 3;
     GitHub.open_issues_count := 4;
     GitHub.created_at := "2024-01-05T10:00:00Z";
     GitHub.updated_at := "2025-01-20T09:30:00Z" |}.

Definition item (p : string) : GitHub.TreeItem :=
  {| GitHub.path := p; GitHub.type := "blob"; GitHub.size := Some 100 |}.

Definition sampleTree : list GitHub.TreeItem :=
  [item "README.md"; item "package.json"; item "src/index.ts"].

Definition sampleContent (pkg : string) (p : string) : GitHub.api GitHub.Content :=
  if String.eqb p "package.json" then inl (GitHub.File pkg (String.length pkg) "a1")
  else if String.eqb p "README.md"
       then inl (GitHub.File "# Demo" 6 "b2")
       else inr GitHub.not_found.

(** A hosting API on which every call succeeds. *)
Definition remoteWith (info : GitHub.api GitHub.RepoInfo)
    (tree : GitHub.api (list GitHub.TreeItem))
    (contents : string -> GitHub.api GitHub.Content) : GitHub.Remote :=
  {| GitHub.repos_get := info;
     GitHub.repos_listLanguages := inl (JObj [("TypeScript", JNum "1200")]);
     GitHub.repos_listContributors := inl (JArr []);
     GitHub.repos_listCommits := inl (JArr []);
     GitHub.repos_getCodeFrequencyStats := inl (JArr []);
     GitHub.repos_getParticipationStats := inr GitHub.unknown;
     GitHub.repos_getPunchCardStats := inl (JArr []);
     GitHub.repos_listReleases := inl [];
     GitHub.repos_listDeployments := inr GitHub.unauthorized;
     GitHub.repos_getViews := inr GitHub.unauthorized;
     GitHub.repos_getClones := inr GitHub.unauthorized;
     GitHub.repos_getTopReferrers := inr GitHub.unauthorized;
     GitHub.repos_getTopPaths := inr GitHub.unauthorized;
     GitHub.git_getTree := tree;
     GitHub.repos_getContent := contents |}.

Definition remoteOk : GitHub.Remote :=
  remoteWith (inl sampleRepo) (inl sampleTree) (sampleContent packageSmall).

(** The same repository with the long manifest. *)
Definition remoteLong : GitHub.Remote :=
  remoteWith (inl sampleRepo) (inl sampleTree) (sampleContent packageLong).

(** The metadata call succeeds and the tree call fails. *)
Definition remoteNoTree : GitHub.Remote :=
  remoteWith (inl sampleRepo) (inr GitHub.rate_limited) (sampleContent packageSmall).

(** The metadata call fails for the given cause. *)
Definition remoteNoRepo (cause : GitHub.Cause) : GitHub.Remote :=
  remoteWith (inr cause) (inl sampleTree) (sampleContent packageSmall).

(** Every content fetch fails. *)
Definition remoteNoContent : GitHub.Remote :=
  remoteWith (inl sampleRepo) (inl [item "package.json"])
    (fun _ => inr GitHub.not_found).

Definition answer : Onboarding.SDKMessage :=
  {| Onboarding.msg_type := "assistant";
     Onboarding.message :=
       Some [{| Onboarding.block_type := "text";
                Onboarding.text :=
                  Some ("Main features and important insights:" +++ nl
                        +++ "- Sign in with GitHub" +++ nl
                        +++ "- Streaming analysis") |}] |}.

Definition aiAnswers (ms : N) : Onboarding.AiCall :=
  {| Onboarding.yielded := [answer]; Onboarding.failure := None;
     Onboarding.duration_ms := ms |}.

Definition aiFails (ms : N) : Onboarding.AiCall :=
  {| Onboarding.yielded := [];
     Onboarding.failure := Some (Error "Claude Code process aborted");
     Onboarding.duration_ms := ms |}.

Definition world (r : GitHub.Remote) (call : Onboarding.AiCall) : Onboarding.World :=
  {| Onboarding.remote := r;
     Onboarding.query := fun _ => call;
     Onboarding.remote_retry := r;
     Onboarding.now := "2025-01-28T12:00:00.000Z" |}.

(** Stand-ins for the four builders of report text. *)
Definition texts : Onboarding.Texts :=
  {| Onboarding.generateEnhancedOnboardingGuide :=
       fun _ _ owner repo => "# AI-Enhanced Developer Onboarding Guide for " +++ owner +++ "/" +++ repo;
     Onboarding.generateEnhancedTechnicalAnalysis :=
       fun _ _ _ _ => "# AI-Enhanced Technical Analysis";
     Onboarding.generateBasicOnboardingGuide :=
       fun _ owner repo => "# Repository Onboarding Guide for " +++ owner +++ "/" +++ repo;
     Onboarding.generateBasicTechnicalAnalysis :=
       fun _ _ _ => "# Technical Analysis" |}.

Definition stays : Route.Client :=
  {| Route.abortAt := None; Route.enqueueThrows := fun _ => false |}.

(** The client disconnects while the service is working. *)
Definition leaves : Route.Client :=
  {| Route.abortAt := Some 2; Route.enqueueThrows := fun _ => false |}.

Definition clock (i : nat) : string := "2025-01-28T12:00:0" +++ of_nat i +++ ".000Z".

(** A timeout as the specification supposes one, in milliseconds. *)
Definition supposedTimeout : N := 60000%N.

Definition fileOf (name text : string) : DeepAnalyzer.FileAnalysis :=
  @DeepAnalyzer.analyzeFile node name text.

(** A repository with a manifest and a Prisma schema. *)
Definition remotePrisma : GitHub.Remote :=
  remoteWith (inl sampleRepo)
    (inl [item "package.json"; item "prisma/schema.prisma"])
    (fun p => if String.eqb p "package.json"
              then inl (GitHub.File packageSmall (String.length packageSmall) "a1")
              else inl (GitHub.File ("model User {" +++ nl +++ "  id Int" +++ nl +++ "}")
                          24 "c3")).

(** An answer with seven bullet items. *)
Definition verbose : Onboarding.SDKMessage :=
  {| Onboarding.msg_type := "assistant";
     Onboarding.message :=
       Some [{| Onboarding.block_type := "text";
                Onboarding.text :=
                  Some ("Main features and important insights:" +++ nl
                        +++ "- one" +++ nl +++ "- two" +++ nl +++ "- three" +++ nl
                        +++ "- four" +++ nl +++ "- five" +++ nl +++ "- six" +++ nl
                        +++ "- seven") |}] |}.

Definition aiVerbose : Onboarding.AiCall :=
  {| Onboarding.yielded := [verbose]; Onboarding.failure := None;
     Onboarding.duration_ms := 30000 |}.

End Samples.



(** ** Counting by key

    An object used as a table of counts, [t[k] = (t[k] || 0) + 1], as
    the list of its entries in insertion order; the keys written below
    are never names of members of [Object.prototype] nor array indices.
    [sort_desc] is [entries.sort(([,a], [,b]) => b - a)]: the sort of the
    runtime is stable, so the result is the one of an insertion sort that
    keeps the order of entries with equal counts. *)
Module Counting.

Fixpoint bump (k : string) (t : list (string * nat)) : list (string * nat) :=
  match t with
  | [] => [(k, 1)]
  | (k', n) :: rest =>
      if String.eqb k' k then (k', n + 1) :: rest else (k', n) :: bump k rest
  end.

Fixpoint insert_desc (x : string * nat) (l : list (string * nat))
  : list (string * nat) :=
  match l with
  | [] => [x]
  | y :: rest => if (snd y <=? snd x)%nat then x :: l else y :: insert_desc x rest
  end.

Definition sort_desc (l : list (string * nat)) : list (string * nat) :=
  fold_right insert_desc [] l.

(** [t[k] || 0] *)
Fixpoint count_of (k : string) (t : list (string * nat)) : nat :=
  match t with
  | [] => 0
  | (k', n) :: rest => if String.eqb k' k then n else count_of k rest
  end.

(** Counts that do not increase along the list. *)
Fixpoint descending (l : list (string * nat)) : Prop :=
  match l with
  | [] => True
  | x :: rest => (forall y, In y rest -> snd y <= snd x) /\ descending rest
  end.

End Counting.

(** ** The older analyzer: development patterns and advice

    [getCommits], [getIssues] and [getPullRequests] are not methods of
    the client of lib/github.ts; the outcome of each call is an input
    here. *)
Module Patterns.
Import Js.

(** A commit as the code reads it: [commit.commit.author] is [null] or
    an object, and [new Date(author.date).getTime()] is a number of
    milliseconds or [NaN] ([None]). *)
Record Commit : Type := {
  author_time : option (option Z)
}.

(** An issue: its title and its body, which can be [null]. *)
Record Issue : Type := {
  title : string;
  body : option string
}.

Record DevPatterns : Type := {
  recentActivity : nat;
  openIssues : nat;
  recentPRs : nat;
  commitFrequency : string;
  commonIssues : list string
}.

(** The fields of [repoInfo] the advice reads. *)
Record Info : Type := {
  stargazers_count : nat;
  forks_count : nat;
  has_wiki : bool
}.

(** Thirty days in milliseconds.  [daysDiff <= 30] compares the
    quotient of the difference by the milliseconds of a day; the
    quotient is at most 30 exactly when the difference is at most this
    number. *)
Definition thirtyDays : Z := 2592000000.

(** The callback of [commits.filter]. *)
Definition isRecent (now : Z) (c : Commit) : res bool :=
  match author_time c with
  | None => Throw (TypeError "Cannot read properties of null (reading 'date')")
  | Some None => Ok false
  | Some (Some t) => Ok (now - t <=? thirtyDays)%Z
  end.

Fixpoint recentCommits (now : Z) (commits : list Commit) : res (list Commit) :=
  match commits with
  | [] => Ok []
  | c :: rest =>
      bind (isRecent now c) (fun keep =>
      bind (recentCommits now rest) (fun l =>
        Ok (if keep then c :: l else l)))
  end.

Definition analyzeCommitFrequency (now : Z) (commits : option (list Commit))
  : res string :=
  match commits with
  | None => Ok "No recent activity"
  | Some [] => Ok "No recent activity"
  | Some l =>
      bind (recentCommits now l) (fun recent =>
        let n := length recent in
        Ok (if (20 <=? n)%nat then "Very active (20+ commits/month)"
            else if (10 <=? n)%nat then "Active (10+ commits/month)"
            else if (5 <=? n)%nat then "Moderate (5+ commits/month)"
            else "Low activity (<5 commits/month)"))
  end.

Definition commonKeywords : list string :=
  ["bug"; "error"; "install"; "setup"; "documentation"; "feature"].

(** [title + ' ' + body] *)
Definition issueText (i : Issue) : string :=
  toLowerCase (title i) +++ " "
    +++ toLowerCase (match body i with Some b => b | None => EmptyString end).

(** The body of [issues.forEach]. *)
Definition countIssue (issueTypes : list (string * nat)) (i : Issue)
  : list (string * nat) :=
  fold_left (fun t keyword =>
               if includes (issueText i) keyword then Counting.bump keyword t else t)
    commonKeywords issueTypes.

Definition issueTypes (issues : list Issue) : list (string * nat) :=
  fold_left countIssue issues [].

(** [Object.entries(issueTypes).sort(...).slice(0, 3)] *)
Definition topIssueTypes (issues : list Issue) : list (string * nat) :=
  firstn 3 (Counting.sort_desc (issueTypes issues)).

Definition analyzeCommonIssues (issues : option (list Issue)) : list string :=
  match issues with
  | None => []
  | Some [] => []
  | Some l =>
      map (fun kc => fst kc +++ " (" +++ of_nat (snd kc) +++ " issues)")
        (topIssueTypes l)
  end.

(** [x?.length || 0] *)
Definition lengthOr0 {A} (l : option (list A)) : nat :=
  match l with Some x => length x | None => 0 end.

(** What the [catch] of [analyzeDevelopmentPatterns] returns. *)
Definition noPatterns : DevPatterns :=
  {| recentActivity := 0; openIssues := 0; recentPRs := 0;
     commitFrequency := "Unknown"; commonIssues := [] |}.

(** [commits], [issues] and [pullRequests] are the outcomes of the three
    awaited calls, in this order. *)
Definition analyzeDevelopmentPatterns (now : Z)
    (commits : res (option (list Commit))) (issues : res (option (list Issue)))
    (pullRequests : res (option (list json))) : DevPatterns :=
  match
    bind commits (fun cs =>
    bind issues (fun iss =>
    bind pullRequests (fun prs =>
    bind (analyzeCommitFrequency now cs) (fun frequency =>
      Ok {| recentActivity := lengthOr0 cs;
            openIssues := lengthOr0 iss;
            recentPRs := lengthOr0 prs;
            commitFrequency := frequency;
            commonIssues := analyzeCommonIssues iss |}))))
  with
  | Ok patterns => patterns
  | Throw _ => noPatterns
  end.

Definition isJs (language : string) : bool :=
  (includes language "JavaScript" || includes language "TypeScript")%bool.

(** [structure.testFramework], when truthy. *)
Definition testFrameworkOf (structure : DeepAnalyzer.ProjectStructure.t)
  : option string :=
  match DeepAnalyzer.ProjectStructure.testFramework structure with
  | Some tf => if is_empty tf then None else Some tf
  | None => None
  end.

Definition generateRecommendations (structure : DeepAnalyzer.ProjectStructure.t)
    (devPatterns : DevPatterns) (repoInfo : Info) : list string :=
  let framework := DeepAnalyzer.ProjectStructure.framework structure in
  (if isJs (DeepAnalyzer.ProjectStructure.language structure)
   then ["Start with `npm install` to install all dependencies"]
        ++ (if truthy_opt (assoc "dev" (DeepAnalyzer.ProjectStructure.scripts structure))
            then ["Use `npm run dev` for development with hot reload"] else [])
        ++ (match testFrameworkOf structure with
            | Some tf => ["Run tests with the configured " +++ tf +++ " framework"]
            | None => []
            end)
   else [])
  ++ (if String.eqb framework "React"
      then ["Familiarize yourself with React component structure and hooks"]
      else if String.eqb framework "Next.js"
      then ["Review the pages/ or app/ directory for routing structure"]
      else if includes framework "Express"
      then ["Check the API routes and middleware configuration"]
      else [])
  ++ (if (5 <? openIssues devPatterns)%nat
      then ["Review open issues to understand current challenges"] else [])
  ++ (if includes (commitFrequency devPatterns) "Low"
      then ["Check if the project is actively maintained"] else [])
  ++ ["Read the README.md for project-specific setup instructions"]
  ++ (if has_wiki repoInfo
      then ["Check the project wiki for additional documentation"] else []).

Definition generateKeyInsights (repoInfo : Info)
    (structure : DeepAnalyzer.ProjectStructure.t) (devPatterns : DevPatterns)
  : list string :=
  (if (100 <? stargazers_count repoInfo)%nat
   then ["Popular project with " +++ of_nat (stargazers_count repoInfo) +++ " stars"]
   else [])
  ++ (if (50 <? forks_count repoInfo)%nat
      then ["Actively forked project (" +++ of_nat (forks_count repoInfo) +++ " forks)"]
      else [])
  ++ (if String.eqb (DeepAnalyzer.ProjectStructure.framework structure) "Unknown"
      then []
      else ["Built with " +++ DeepAnalyzer.ProjectStructure.framework structure
            +++ " framework"])
  ++ (match testFrameworkOf structure with
      | Some tf => ["Uses " +++ tf +++ " for testing"]
      | None => []
      end)
  ++ (if includes (commitFrequency devPatterns) "Very active"
      then ["Very active development with frequent updates"]
      else if includes (commitFrequency devPatterns) "Low"
      then ["Low development activity - check if project is maintained"]
      else [])
  ++ (if String.eqb (DeepAnalyzer.ProjectStructure.architecture structure)
           "Containerized"
      then ["Containerized application with Docker support"] else []).

End Patterns.

(** ** The fallback's technical analysis

    [calculateLanguageStats] and [generateBasicTechnicalAnalysis] of the
    service.  The items are those [analyzeCodeStructure] builds: the
    language of an item is a name of [languageMap], ['Unknown'], or a
    member of [Object.prototype], which the table prints as its key. *)
Module Report.
Import Js.

(** [String(Object)] and [String(Object.prototype)], the keys written
    for the extensions [constructor] and [__proto__]. *)
Definition inheritedKey (p : string) : string :=
  if String.eqb (toLowerCase (last_segment p)) "constructor"
  then "function Object() { [native code] }"
  else "[object Object]".

(** The key an item is counted under, if it is counted. *)
Definition statsKey (item : Onboarding.CodeItem.t) : option string :=
  if String.eqb (Onboarding.CodeItem.type item) "blob"
  then match Onboarding.CodeItem.language item with
       | Onboarding.Lang l =>
           if (is_empty l || String.eqb l "Unknown")%bool then None else Some l
       | Onboarding.Inherited => Some (inheritedKey (Onboarding.CodeItem.path item))
       end
  else None.

Definition calculateLanguageStats (codeStructure : list Onboarding.CodeItem.t)
  : list (string * nat) :=
  fold_left (fun stats item =>
               match statsKey item with
               | Some k => Counting.bump k stats
               | None => stats
               end)
    codeStructure [].

(** [Object.entries(languageStats).sort(...).slice(0, 5)] *)
Definition topLanguages (codeStructure : list Onboarding.CodeItem.t)
  : list (string * nat) :=
  firstn 5 (Counting.sort_desc (calculateLanguageStats codeStructure)).

Definition generateBasicTechnicalAnalysis (repoData : Onboarding.RepositoryAnalysisData)
    (owner repo : string) : string :=
  let languageStats := calculateLanguageStats (Onboarding.codeStructure repoData) in
  join nl
    (["# Technical Analysis" +++ nl]
     ++ match languageStats with
        | [] => []
        | _ =>
            "## 📊 Language Distribution"
            :: map (fun lc => "- **" +++ fst lc +++ "**: " +++ of_nat (snd lc) +++ " files")
                 (topLanguages (Onboarding.codeStructure repoData))
        end).

(** Whether an item is counted under a key. *)
Definition countedAs (k : string) (item : Onboarding.CodeItem.t) : bool :=
  match statsKey item with
  | Some k' => String.eqb k' k
  | None => false
  end.

End Report.

(** ** app/github/page.tsx: [handleOnboarding]

    The reader of the route's stream.  A terminal line is kept without
    its [id] and [timestamp], which are read from the clock. *)
Module Page.
Import Js.

Record TerminalLine : Type := {
  text : string;
  type : string
}.

(** The state variables of the component that [handleOnboarding]
    writes. *)
Record State : Type := {
  onboardingTerminalLines : list TerminalLine;
  currentOnboarding : option json;
  isOnboardingLoading : bool;
  showOnboardingModal : bool
}.

(** The body of a response: the chunks its reader returns, and the error
    of the read that fails, if one does. *)
Record Body : Type := {
  chunks : list string;
  failure : option exn
}.

(** What [fetch] gives: it throws, or it returns a response with a
    status and a body, which can be [null]. *)
Inductive Fetched : Type :=
| rejected (e : exn)
| answered (status : nat) (body : option Body).

(** The state after the four calls that open [handleOnboarding]. *)
Definition started : State :=
  {| onboardingTerminalLines := []; currentOnboarding := None;
     isOnboardingLoading := true; showOnboardingModal := true |}.

Definition addTerminalLine (t ty : string) : SE State unit :=
  se_update (fun st =>
    {| onboardingTerminalLines :=
         onboardingTerminalLines st ++ [{| text := t; type := ty |}];
       currentOnboarding := currentOnboarding st;
       isOnboardingLoading := isOnboardingLoading st;
       showOnboardingModal := showOnboardingModal st |}).

Definition setCurrentOnboarding (v : option json) : SE State unit :=
  se_update (fun st =>
    {| onboardingTerminalLines := onboardingTerminalLines st;
       currentOnboarding := v;
       isOnboardingLoading := isOnboardingLoading st;
       showOnboardingModal := showOnboardingModal st |}).

Definition setIsOnboardingLoading (b : bool) : SE State unit :=
  se_update (fun st =>
    {| onboardingTerminalLines := onboardingTerminalLines st;
       currentOnboarding := currentOnboarding st;
       isOnboardingLoading := b;
       showOnboardingModal := showOnboardingModal st |}).

(** [v === s] for a string [s] *)
Definition is_string (v : option json) (s : string) : bool :=
  match v with
  | Some (JStr x) => String.eqb x s
  | _ => false
  end.

(** [v?.k] *)
Definition optional (v : option json) (k : string) : option json :=
  match v with
  | None => None
  | Some JNull => None
  | Some d => prop d k
  end.

(** [{...v}] *)
Definition spread (v : option json) : list (string * json) :=
  match v with
  | Some d => own_properties d
  | None => []
  end.

(** [content.substring(0, 80)]: only a string has the method. *)
Definition substring80 (content : option json) : res string :=
  match content with
  | Some (JStr s) => Ok (substring0 80 s)
  | _ => Throw (TypeError "content.substring is not a function")
  end.

(** [line.slice(n)] *)
Fixpoint slice (n : nat) (s : string) : string :=
  match n, s with
  | 0, _ => s
  | S k, String _ r => slice k r
  | S _, EmptyString => EmptyString
  end.

(** [response.ok] *)
Definition ok (status : nat) : bool := ((200 <=? status) && (status <=? 299))%nat.

Fixpoint forEach {A : Type} (f : A -> SE State unit) (l : list A) : SE State unit :=
  match l with
  | [] => se_ret tt
  | x :: rest => f x ;; forEach f rest
  end.

Section Reader.
Context {RT : Runtime}.

(** A value in a template literal; [undefined] prints as its name and
    the conversion of an object may throw. *)
Definition shown (v : option json) : res string :=
  match v with
  | Some j => String_of j
  | None => Ok "undefined"
  end.

(** What follows [JSON.parse] inside the [try] of a line. *)
Definition handleData (owner repo : string) (data : json) : SE State unit :=
  ty <- se_lift (get data "type") ;;
  if is_string ty "progress"
  then
    message <- se_lift (shown (prop data "message")) ;;
    addTerminalLine ("⏳ " +++ message) "progress"
  else if is_string ty "message"
  then
    let inner := prop data "data" in
    let content :=
      if truthy_opt (optional inner "content") then optional inner "content"
      else Some (JStr "Processing...") in
    progress <- se_lift
      (if truthy_opt (optional inner "progress")
       then bind (shown (optional inner "progress"))
              (fun percent => Ok (" (" +++ percent +++ "%)"))
       else Ok EmptyString) ;;
    head <- se_lift (substring80 content) ;;
    addTerminalLine ("🔍 " +++ head +++ "..." +++ progress) "info"
  else if is_string ty "complete"
  then
    setCurrentOnboarding
      (Some (JObj (upsert "repositoryName" (JStr (owner +++ "/" +++ repo))
                     (spread (prop data "data"))))) ;;
    setIsOnboardingLoading false ;;
    addTerminalLine "🎉 Analysis completed successfully!" "success"
  else if is_string ty "error"
  then
    message <- se_lift (shown (prop data "message")) ;;
    addTerminalLine ("❌ Error: " +++ message) "error"
  else se_ret tt.

(** The body of [for (const line of lines)]. *)
Definition processLine (owner repo line : string) : SE State unit :=
  se_when (startsWith line "data: ")
    (se_try
       (data <- se_lift (JSON_parse (slice 6 line)) ;;
        handleData owner repo data)
       (fun _ => addTerminalLine "⚠️ Failed to parse response data" "error")).

Definition processChunk (owner repo chunk : string) : SE State unit :=
  forEach (processLine owner repo) (split_lines chunk).

(** The [while (true)] loop over the reads. *)
Fixpoint readLoop (owner repo : string) (reads : list string) (failed : option exn)
  : SE State unit :=
  match reads with
  | [] =>
      match failed with
      | Some e => se_lift (Throw e)
      | None => addTerminalLine "✅ Analysis stream completed" "success"
      end
  | chunk :: rest =>
      processChunk owner repo chunk ;; readLoop owner repo rest failed
  end.

Definition handleOnboarding (owner repo : string) (response : Fetched) : State :=
  snd ((addTerminalLine ("🚀 Starting comprehensive analysis for " +++ owner +++ "/" +++ repo)
          "info" ;;
        addTerminalLine "📊 Initializing repository onboarding system..." "progress" ;;
        se_try
          (match response with
           | rejected e => se_lift (Throw e)
           | answered status body =>
               if ok status
               then match body with
                    | Some b =>
                        addTerminalLine "🔄 Connected to analysis stream..." "success" ;;
                        readLoop owner repo (chunks b) (failure b)
                    | None => se_lift (Throw (Error "Failed to get response reader"))
                    end
               else se_lift (Throw (Error ("HTTP error! status: " +++ of_nat status)))
           end)
          (fun e => addTerminalLine ("❌ Connection error: " +++ Js.message e) "error") ;;
        setIsOnboardingLoading false) started).

End Reader.

(** The chunk of a read that delivers the frames of some events whole. *)
Definition delivered (events : list Route.SseData) : string :=
  String.concat EmptyString (map Route.frame events).

End Page.

(** ** Further concrete inputs *)
Module Cases.
Import Js.

(** The first gathering meets a failing tree call, the second a failing
    metadata call. *)
Definition worldTwoFailures : Onboarding.World :=
  {| Onboarding.remote := Samples.remoteNoTree;
     Onboarding.query := fun _ => Samples.aiAnswers 1500;
     Onboarding.remote_retry := Samples.remoteNoRepo GitHub.rate_limited;
     Onboarding.now := "2025-01-28T12:00:00.000Z" |}.

(** A manifest that names React and Next.js, as a key file. *)
Definition manifestFile : Onboarding.KeyFile.t :=
  {| Onboarding.KeyFile.path := "package.json";
     Onboarding.KeyFile.content := Samples.packageSmall;
     Onboarding.KeyFile.type := "dependencies";
     Onboarding.KeyFile.insights := [] |}.

(** The client disconnects during the third progress step. *)
Definition leavesLate : Route.Client :=
  {| Route.abortAt := Some 7; Route.enqueueThrows := fun _ => false |}.

(** A manifest and a requirements file, as the older analyzer reads
    them. *)
Definition bothManifests : list DeepAnalyzer.FileAnalysis :=
  [Samples.fileOf "package.json" Samples.packageSmall;
   Samples.fileOf "requirements.txt" "flask==3.0.0"].

(** Twenty commits of the last day, and one without an author. *)
Definition recentCommit : Patterns.Commit :=
  {| Patterns.author_time := Some (Some 1738000000000%Z) |}.

Definition twentyCommits : list Patterns.Commit := repeat recentCommit 20.

Definition orphanCommit : Patterns.Commit := {| Patterns.author_time := None |}.

Definition today : Z := 1738065600000%Z.

Definition someIssues : list Patterns.Issue :=
  [{| Patterns.title := "Install fails on Windows"; Patterns.body := None |};
   {| Patterns.title := "Bug: crash at start";
      Patterns.body := Some "Error after install" |}].

Definition plainInfo : Patterns.Info :=
  {| Patterns.stargazers_count := 12; Patterns.forks_count := 3;
     Patterns.has_wiki := false |}.

Definition noStructure : DeepAnalyzer.ProjectStructure.t :=
  {| DeepAnalyzer.ProjectStructure.framework := "Unknown";
     DeepAnalyzer.ProjectStructure.language := "Unknown";
     DeepAnalyzer.ProjectStructure.buildSystem := "Unknown";
     DeepAnalyzer.ProjectStructure.testFramework := None;
     DeepAnalyzer.ProjectStructure.dependencies := [];
     DeepAnalyzer.ProjectStructure.scripts := [];
     DeepAnalyzer.ProjectStructure.architecture := "Unknown" |}.

End Cases.

(** ** Invariants used below *)
Module Props.

(** Once the route's flag is set, [controller.close()] has been called. *)
Definition closedTogether (st : Route.Stream) : Prop :=
  Route.isStreamClosed st = true -> Route.controllerClosed st = true.

(** The values of the variables of [analyzeProjectStructure] other than
    the framework. *)
Definition knownValues (v : DeepAnalyzer.Vars) : Prop :=
  In (DeepAnalyzer.v_language v) ["Unknown"; "JavaScript/TypeScript"; "Python"]
  /\ In (DeepAnalyzer.v_buildSystem v) ["Unknown"; "Webpack"; "Vite"; "Custom"]
  /\ In (DeepAnalyzer.v_testFramework v)
        [None; Some "Jest"; Some "Mocha"; Some "Cypress"].

(** Nothing has been derived yet, or the language has been set. *)
Definition languageFirst (v : DeepAnalyzer.Vars) : Prop :=
  DeepAnalyzer.v_language v = "Unknown" -> v = DeepAnalyzer.initialVars.

Definition languageSet (v : DeepAnalyzer.Vars) : Prop :=
  DeepAnalyzer.v_language v <> "Unknown".

(** Whether an issue mentions a keyword of the list. *)
Definition mentions (k : string) (i : Patterns.Issue) : bool :=
  (existsb (String.eqb k) Patterns.commonKeywords
   && Js.includes (Patterns.issueText i) k)%bool.

(** The line the page shows for an event of the route. *)
Definition lineOf (d : Route.SseData) : Page.TerminalLine :=
  match d with
  | Route.progress m =>
      {| Page.text := "⏳ " +++ m; Page.type := "progress" |}
  | Route.step content _ percent =>
      {| Page.text :=
           "🔍 " +++ Js.substring0 80 (Js.or_default content "Processing...") +++ "..."
           +++ (if Nat.eqb percent 0 then EmptyString
                else " (" +++ Js.number_text (Js.of_nat percent) +++ "%)");
         Page.type := "info" |}
  | Route.complete _ _ _ =>
      {| Page.text := "🎉 Analysis completed successfully!"; Page.type := "success" |}
  | Route.error m =>
      {| Page.text := "❌ Error: " +++ m; Page.type := "error" |}
  end.

(** The result the page keeps after some events: the data of the last
    [complete] event with the repository's name. *)
Definition resultOf (owner repo : string) (events : list Route.SseData)
  : option Js.json :=
  fold_left (fun kept d =>
               match d with
               | Route.complete g t r =>
                   Some (Js.JObj [("onboardingGuide", Js.JStr g);
                                  ("technicalAnalysis", Js.JStr t);
                                  ("recommendations", Js.JArr (map Js.JStr r));
                                  ("repositoryName", Js.JStr (owner +++ "/" +++ repo))])
               | _ => kept
               end) events None.

(** *** Values that [JSON.stringify] writes for the route

    Strings, natural numbers in decimal, arrays and objects of such. *)
Fixpoint every (p : ascii -> bool) (s : string) : bool :=
  match s with
  | EmptyString => true
  | String c r => (p c && every p r)%bool
  end.

(** A decimal numeral without a leading zero. *)
Definition canonical (lit : string) : bool :=
  match lit with
  | EmptyString => false
  | String c r =>
      if Ascii.eqb c "0" then Js.is_empty r
      else (Js.is_digit c && every Js.is_digit r)%bool
  end.

Fixpoint plain (j : Js.json) : bool :=
  match j with
  | Js.JStr _ => true
  | Js.JNum lit => canonical lit
  | Js.JArr l => forallb plain l
  | Js.JObj ms => forallb (fun kv => plain (snd kv)) ms
  | _ => false
  end.

(** The nested calls the reader makes for a value. *)
Fixpoint weight (j : Js.json) : nat :=
  match j with
  | Js.JArr l => 1 + fold_right (fun x n => 1 + weight x + n) 0 l
  | Js.JObj ms => 1 + fold_right (fun kv n => 1 + weight (snd kv) + n) 0 ms
  | _ => 1
  end.

(** What can follow a value in a text: nothing, or a comma or a closing
    bracket. *)
Definition closes (rest : string) : bool :=
  match rest with
  | EmptyString => true
  | String c _ => (Ascii.eqb c "," || Ascii.eqb c "]" || Ascii.eqb c "}")%bool
  end.

Definition not_nl (c : ascii) : bool := negb (Ascii.eqb c "010"%char).

(** A text that opens with a character other than white space and a
    closing bracket. *)
Definition opens (s : string) : bool :=
  match s with
  | EmptyString => false
  | String c _ =>
      (negb (Js.is_json_ws c) && negb (Ascii.eqb c "]") && negb (Ascii.eqb c "}"))%bool
  end.

(** The property proved of every value by induction: it is read back
    from its text, with any fuel that covers its weight. *)
Definition readBack (j : Js.json) : Prop :=
  plain j = true ->
  forall fuel rest, weight j <= fuel -> closes rest = true ->
  Js.read_value fuel (Js.stringify j +++ rest) = Some (j, rest).

(** The state of the page after an event of the route has been read. *)
Definition received (owner repo : string) (st : Page.State) (d : Route.SseData)
  : Page.State :=
  {| Page.onboardingTerminalLines := Page.onboardingTerminalLines st ++ [lineOf d];
     Page.currentOnboarding :=
       match d with
       | Route.complete g t r =>
           Some (Js.JObj [("onboardingGuide", Js.JStr g);
                          ("technicalAnalysis", Js.JStr t);
                          ("recommendations", Js.JArr (map Js.JStr r));
                          ("repositoryName", Js.JStr (owner +++ "/" +++ repo))])
       | _ => Page.currentOnboarding st
       end;
     Page.isOnboardingLoading :=
       match d with
       | Route.complete _ _ _ => false
       | _ => Page.isOnboardingLoading st
       end;
     Page.showOnboardingModal := Page.showOnboardingModal st |}.

End Props.

(** ** The model on concrete inputs *)
Section Examples.
Import Js Samples.

Example parse_manifest :
  json_parse packageVue = Ok (JObj [("dependencies", JObj [("vue", JStr "^3.4.0")])]).
Proof. vm_compute. reflexivity. Qed.

Example parse_rejects_cut_text :
  is_ok (json_parse (substring0 20 packageVue)) = false
  /\ is_ok (json_parse EmptyString) = false
  /\ is_ok (json_parse "{'single': 'quotes'}") = false.
Proof. repeat split; vm_compute; reflexivity. Qed.

Example parse_accepts_values :
  json_parse " null " = Ok JNull
  /\ json_parse "[1, -2.5e3, true, [], {}]"
     = Ok (JArr [JNum "1"; JNum "-2.5e3"; JBool true; JArr []; JObj []]).
Proof. split; vm_compute; reflexivity. Qed.

Example keys_order :
  Object_keys (JObj [("b", JNull); ("10", JNull); ("2", JNull); ("b", JBool true)])
  = ["2"; "10"; "b"].
Proof. vm_compute. reflexivity. Qed.

Example truthiness :
  map truthy [JNull; JNum "0"; JNum "-0.0"; JNum "7"; JStr EmptyString; JStr "0";
              JArr []; JObj []; JBool false]
  = [false; false; false; true; false; true; true; true; false].
Proof. vm_compute. reflexivity. Qed.

(** A number is the double of its literal: a literal of at most half
    the least positive double is zero, and falsy. *)
Example numbers_are_doubles :
  map truthy [JNum "1e-400"; JNum "0.0e10"; JNum "2e-324"; JNum "3e-324";
              JNum "5e-324"; JNum "1e400"]
  = [false; false; false; true; true; true]
  /\ map to_double ["1"; "0.1"; "9007199254740993"; "1e400"; "1e-400"]
     = [Finite 4503599627370496 (-52); Finite 7205759403792794 (-56);
        Finite 4503599627370496 1; Infinite; Zero].
Proof. split; vm_compute; reflexivity. Qed.

Example numbers_printed :
  map number_text ["18.0"; "1e21"; "1e20"; "1e-7"; "0.000001"; "-0"; "0.1"; "-2.50";
                   "123456789012345678901234567890"; "9007199254740993"; "1e400";
                   "5e-324"; "1.7976931348623157e308"; "100"]
  = ["18"; "1e+21"; "100000000000000000000"; "1e-7"; "0.000001"; "0"; "0.1"; "-2.5";
     "1.2345678901234568e+29"; "9007199254740992"; "Infinity";
     "5e-324"; "1.7976931348623157e+308"; "100"].
Proof. vm_compute. reflexivity. Qed.

Example conversion_to_text :
  map to_text [JNull; JBool true; JStr "x"; JNum "18.0";
               JArr [JNum "1.0"; JNull; JArr [JStr "a"; JStr "b"]];
               JObj [("a", JNull)]]
  = [Ok "null"; Ok "true"; Ok "x"; Ok "18"; Ok "1,,a,b"; Ok "[object Object]"]
  /\ to_text (JObj [("toString", JNum "1")])
     = Throw (TypeError "Cannot convert object to primitive value")
  /\ is_ok (to_text (JArr [JStr "a"; JObj [("toString", JNull)]])) = false.
Proof. repeat split; vm_compute; reflexivity. Qed.

(** A dependency whose version is a number that rounds to zero is not
    counted as present. *)
Example framework_of_zero_entry :
  @Onboarding.detectFramework node
    [{| Onboarding.KeyFile.path := "package.json";
        Onboarding.KeyFile.content :=
          jsonText "{'dependencies':{'react':1e-400,'vue':'3'}}";
        Onboarding.KeyFile.type := "dependencies";
        Onboarding.KeyFile.insights := [] |}] "JavaScript"
  = Some "Vue.js".
Proof. vm_compute. reflexivity. Qed.

Example bullets_found :
  map remove_bullet
    (bullet_matches ("Features:" +++ nl +++ "- one" +++ nl +++ "*   two - three"))
  = ["one"; "two - three"].
Proof. vm_compute. reflexivity. Qed.

Example models_found :
  model_matches ("model User {" +++ nl +++ "}" +++ nl +++ "model  Post {}")
  = ["model User"; "model  Post"].
Proof. vm_compute. reflexivity. Qed.

Example file_types :
  map Onboarding.getFileType
    ["Dockerfile"; "src/app.test.ts"; "tsconfig.json"; "README.md"; "Gemfile.lock";
     "prisma/schema.prisma"; "LICENSE"; "frontend/package.json"]
  = ["containerization"; "testing"; "configuration"; "documentation"; "dependencies";
     "database_schema"; "project_info"; "dependencies"].
Proof. vm_compute. reflexivity. Qed.

Example key_files :
  map Onboarding.isKeyFile ["Dockerfile"; "docs/readme.md"; "frontend/package.json"; "main.go"]
  = [true; true; true; false].
Proof. vm_compute. reflexivity. Qed.

Example languages :
  map Onboarding.detectLanguage ["a.TS"; "Makefile"; "x.constructor"; "c.yml"]
  = [Onboarding.Lang "TypeScript"; Onboarding.Lang "Unknown"; Onboarding.Inherited;
     Onboarding.Lang "YAML"].
Proof. vm_compute. reflexivity. Qed.

Example manifest_insights :
  @Onboarding.analyzeFileContent node "package.json" packageSmall
  = Ok ["Available scripts: dev, build"; "2 dependencies"].
Proof. vm_compute. reflexivity. Qed.

Example schema_insights :
  @Onboarding.analyzeFileContent node "prisma/schema.prisma"
    ("model User {" +++ nl +++ "}" +++ nl +++ "model Post {}")
  = Ok ["Prisma database schema"; "Database models: 2"].
Proof. vm_compute. reflexivity. Qed.

Example insights_extracted :
  Onboarding.keyInsights (@Onboarding.extractClaudeInsights node [answer])
  = ["Sign in with GitHub"; "Streaming analysis"].
Proof. vm_compute. reflexivity. Qed.

Example stream_of_a_success :
  map Spec.isTerminal
    (Route.enqueued
       (Route.start stays clock
          (Ok (@Onboarding.generateComprehensiveOnboarding node texts
                 (world remoteOk (aiAnswers 42000)) "durdan" "sdlc-tools"))))
  = [false; false; false; false; false; false; true].
Proof. vm_compute. reflexivity. Qed.

Example stream_rejected :
  @Route.POST node texts None "durdan" "sdlc-tools" stays clock
    (world remoteOk (aiAnswers 42000))
  = Route.jsonResponse 401 (JObj [("error", JStr "Unauthorized")])
  /\ @Route.POST node texts (Some "gho_token") EmptyString "sdlc-tools" stays clock
       (world remoteOk (aiAnswers 42000))
     = Route.jsonResponse 400 (JObj [("error", JStr "Owner and repo are required")]).
Proof. split; reflexivity. Qed.

(** The bound on the recommendation list is reached. *)
Example recommendations_reach_bound :
  length (Onboarding.recommendations
            (@Onboarding.generateComprehensiveOnboarding node texts
               (world remotePrisma aiVerbose) "durdan" "sdlc-tools"))
  = Spec.maxRecommendations.
Proof. vm_compute. reflexivity. Qed.

End Examples.
(** ** Facts about the streaming route *)
Section RouteFacts.
Import Js.
Variable c : Route.Client.
Variable clock : nat -> string.

Lemma suspend_connected k st :
  Route.abortAt c = None -> Route.suspend c k st = st.
Proof. intros H. unfold Route.suspend. now rewrite H. Qed.

Lemma sendSSE_connected d l b n :
  (forall k, Route.enqueueThrows c k = false) ->
  Route.sendSSE c d (Route.Build_Stream false l b n) =
    Route.Build_Stream false (l ++ [d]) b (S n).
Proof. intros Hq. unfold Route.sendSSE. cbn. now rewrite Hq. Qed.

Lemma start_connected service :
  Spec.connected c ->
  Route.enqueued (Route.start c clock service) = Spec.script clock service
  /\ Route.controllerClosed (Route.start c clock service) = true
  /\ Route.isStreamClosed (Route.start c clock service) = false.
Proof.
  intros [Hab Hq].
  unfold Route.start, Route.respond, Route.sendIfOpen, Spec.script, Spec.terminalOf,
    Spec.succeeds, Route.opened, Route.progressSteps.
  rewrite !suspend_connected by assumption.
  rewrite !sendSSE_connected by assumption.
  cbn [Route.isStreamClosed Route.sendSteps].
  destruct service as [result | e]; [destruct (Onboarding.success result) eqn:E |];
    repeat (rewrite ?suspend_connected by assumption;
            rewrite ?sendSSE_connected by assumption;
            cbn [Route.isStreamClosed Route.sendSteps]);
    cbn; auto.
Qed.

Lemma tracks_closed done todo done' todo' st :
  Route.isStreamClosed st = true ->
  done ++ todo = done' ++ todo' ->
  Spec.tracks done todo st -> Spec.tracks done' todo' st.
Proof.
  intros Hc Heq [[Ho _] | [_ [n Hn]]]; [congruence |].
  right. split; [assumption |]. exists n. now rewrite <- Heq.
Qed.

Lemma tracks_suspend k done todo st :
  Spec.tracks done todo st -> Spec.tracks done todo (Route.suspend c k st).
Proof.
  intros H. unfold Route.suspend.
  destruct (Route.abortAt c) as [n |]; [| assumption].
  destruct (Nat.eqb n k); [| assumption].
  right. split; [reflexivity |]. cbn.
  destruct H as [[_ He] | [_ [m Hm]]].
  - exists (length done). rewrite He. now rewrite firstn_app, Nat.sub_diag, firstn_all, firstn_O, app_nil_r.
  - now exists m.
Qed.

Lemma tracks_send d done todo st :
  Spec.tracks done (d :: todo) st ->
  Spec.tracks (done ++ [d]) todo (Route.sendSSE c d st).
Proof.
  intros H. unfold Route.sendSSE.
  destruct H as [[Ho He] | [Hc [m Hm]]].
  - rewrite Ho. destruct (Route.enqueueThrows c (Route.enqueueCalls st)).
    + right. split; [reflexivity |]. cbn. exists (length done).
      rewrite He, <- app_assoc.
      now rewrite firstn_app, Nat.sub_diag, firstn_all, firstn_O, app_nil_r.
    + left. cbn. split; [reflexivity | now rewrite He].
  - rewrite Hc. right. split; [assumption |]. exists m.
    now rewrite <- app_assoc.
Qed.

Lemma tracks_sendIfOpen k d done todo st :
  Spec.tracks done (d :: todo) st ->
  Spec.tracks (done ++ [d]) todo (Route.sendIfOpen c k d st).
Proof.
  intros H. unfold Route.sendIfOpen.
  destruct (Route.isStreamClosed st) eqn:Hc.
  - apply (tracks_closed done (d :: todo)); [assumption | | assumption].
    now rewrite <- app_assoc.
  - now apply tracks_suspend, tracks_send.
Qed.

Lemma tracks_sendSteps steps : forall i done todo st,
  Spec.tracks done (Spec.stepEvents clock i steps ++ todo) st ->
  Spec.tracks (done ++ Spec.stepEvents clock i steps) todo
    (Route.sendSteps c clock i steps st).
Proof.
  induction steps as [| [m p] rest IH]; intros i done todo st H; cbn.
  - now rewrite app_nil_r.
  - destruct (Route.isStreamClosed st) eqn:Hc.
    + apply (tracks_closed done (Spec.stepEvents clock i ((m, p) :: rest) ++ todo));
        [assumption | | assumption].
      cbn. now rewrite <- app_assoc.
    + replace (done ++ Route.step m (clock i) p :: Spec.stepEvents clock (S i) rest)
        with ((done ++ [Route.step m (clock i) p]) ++ Spec.stepEvents clock (S i) rest)
        by now rewrite <- app_assoc.
      apply IH. do 2 apply tracks_suspend. now apply tracks_send.
Qed.

Lemma tracks_finish done todo st :
  Spec.tracks done todo st -> Spec.tracks done todo (Route.finish st).
Proof.
  intros H. unfold Route.finish.
  destruct (Route.isStreamClosed st) eqn:Hc; [assumption |].
  destruct H as [[_ He] | [Hc' _]]; [| congruence].
  left. cbn. split; [reflexivity | assumption].
Qed.

Lemma tracks_respond service done st :
  Spec.tracks done
    ((if Spec.succeeds service then Spec.stepEvents clock 0 Route.progressSteps else [])
       ++ [Spec.terminalOf service]) st ->
  exists done', Spec.tracks done' [] (Route.respond c clock service st)
                /\ done' = done ++ (if Spec.succeeds service
                                    then Spec.stepEvents clock 0 Route.progressSteps
                                    else [])
                                ++ [Spec.terminalOf service].
Proof.
  intros H. eexists. split; [| reflexivity].
  unfold Route.respond.
  destruct service as [result | e]; cbn [Spec.succeeds Spec.terminalOf] in *.
  - destruct (Route.isStreamClosed st) eqn:Hc.
    + eapply tracks_closed; [assumption | | exact H]. now rewrite app_nil_r.
    + destruct (Onboarding.success result).
      * rewrite app_assoc. apply tracks_sendIfOpen. now apply tracks_sendSteps.
      * cbn in *. now apply tracks_sendIfOpen.
  - cbn in *. now apply tracks_sendIfOpen.
Qed.

(** Whatever the client does, the events enqueued are a beginning of
    the events of the run that is not cut short. *)
Lemma start_prefix service :
  exists n, Route.enqueued (Route.start c clock service)
            = firstn n (Spec.script clock service).
Proof.
  unfold Route.start.
  assert (H0 : Spec.tracks [] (Spec.script clock service) Route.opened)
    by (left; split; reflexivity).
  unfold Spec.script in H0 at 1. cbn [app] in H0.
  apply tracks_send, (tracks_suspend 0) in H0.
  apply tracks_send, (tracks_suspend 1), (tracks_suspend 2) in H0.
  apply tracks_respond in H0. destruct H0 as [done' [H0 Hd]].
  apply tracks_finish in H0. subst done'.
  destruct H0 as [[_ He] | [_ [n Hn]]]; cbv zeta.
  - exists (length (Spec.script clock service)). rewrite firstn_all. exact He.
  - exists n. rewrite app_nil_r in Hn. exact Hn.
Qed.

End RouteFacts.

Section StreamShape.
Import Js.

Lemma terminalOf_terminal service : Spec.isTerminal (Spec.terminalOf service) = true.
Proof.
  destruct service as [result | e]; cbn; [| reflexivity].
  now destruct (Onboarding.success result).
Qed.

Lemma stepEvents_progress clock steps : forall i,
  forallb Spec.isProgress (Spec.stepEvents clock i steps) = true.
Proof.
  induction steps as [| [m p] rest IH]; intros i; cbn; [reflexivity | apply IH].
Qed.

Lemma script_orderly clock service : Spec.orderly (Spec.script clock service).
Proof.
  exists ([Route.progress "Starting repository analysis...";
           Route.progress "Gathering repository data..."]
          ++ (if Spec.succeeds service
              then Spec.stepEvents clock 0 Route.progressSteps else [])),
    (Spec.terminalOf service).
  split; [| split; [| split]].
  - unfold Spec.script. apply app_assoc.
  - discriminate.
  - rewrite forallb_app. cbn [forallb Spec.isProgress andb].
    destruct (Spec.succeeds service); [apply stepEvents_progress | reflexivity].
  - apply terminalOf_terminal.
Qed.

(** The members of the script: the two opening events, the steps of a
    successful run, and the terminal event. *)
Lemma script_complete clock service g t recs :
  In (Route.complete g t recs) (Spec.script clock service) ->
  exists result, service = Ok result /\ Onboarding.success result = true
                 /\ recs = Onboarding.recommendations result.
Proof.
  unfold Spec.script. intros H.
  apply in_app_or in H. destruct H as [H | H].
  - cbn in H. destruct H as [H | [H | []]]; discriminate.
  - apply in_app_or in H. destruct H as [H | H].
    + destruct (Spec.succeeds service); [| destruct H].
      cbn in H. repeat (destruct H as [H | H]; [discriminate |]). destruct H.
    + destruct H as [H | []].
      destruct service as [result | e]; cbn in H; [| discriminate].
      destruct (Onboarding.success result) eqn:E; [| discriminate].
      exists result. unfold Route.completeOf in H. inversion H. auto.
Qed.

Lemma frame_shape d : startsWith (Route.frame d) "data: {" = true.
Proof. destruct d; reflexivity. Qed.

Lemma frame_not_sentinel d : Route.frame d <> Route.doneSentinel.
Proof.
  intros H. pose proof (frame_shape d) as Hs. rewrite H in Hs. discriminate.
Qed.

End StreamShape.

Section Recommendations.
Import Js.
Context {RT : Runtime} {TX : Onboarding.Texts}.

Lemma enhanced_nonempty data ca owner repo :
  Onboarding.generateEnhancedRecommendations data ca owner repo <> [].
Proof.
  unfold Onboarding.generateEnhancedRecommendations. intros H.
  apply (f_equal (@length string)) in H.
  rewrite !length_app in H. cbn in H. lia.
Qed.

Lemma basic_nonempty data owner repo :
  Onboarding.generateBasicRecommendations data owner repo <> [].
Proof. unfold Onboarding.generateBasicRecommendations. discriminate. Qed.

Lemma service_recommendations_nonempty w owner repo :
  Onboarding.recommendations
    (Onboarding.generateComprehensiveOnboarding w owner repo) <> [].
Proof.
  unfold Onboarding.generateComprehensiveOnboarding, Onboarding.generateBasicOnboarding.
  destruct (Onboarding.gatherRepositoryData (Onboarding.remote w)) as [data | err]; cbn.
  - exact (enhanced_nonempty _ _ owner repo).
  - destruct (Onboarding.gatherRepositoryData (Onboarding.remote_retry w)); cbn.
    + exact (basic_nonempty _ owner repo).
    + discriminate.
Qed.

End Recommendations.

Section StreamOrder.
Import Js.

Lemma in_firstn {A} (x : A) : forall n l, In x (firstn n l) -> In x l.
Proof.
  induction n as [| n IH]; intros [| a l]; cbn; try tauto.
  intros [H | H]; [now left | right; now apply IH].
Qed.

Lemma progress_not_terminal d : Spec.isProgress d = true -> Spec.isTerminal d = false.
Proof. now destruct d. Qed.

Lemma no_terminal_among_progress ps :
  forallb Spec.isProgress ps = true -> Spec.terminals ps = [].
Proof.
  induction ps as [| d ps IH]; cbn; [reflexivity |].
  intros H. apply andb_prop in H. destruct H as [Hd Hps].
  rewrite (progress_not_terminal d Hd). now apply IH.
Qed.

(** A beginning of an orderly sequence holds at most one terminal event. *)
Lemma terminals_of_prefix full n :
  Spec.orderly full -> length (Spec.terminals (firstn n full)) <= 1.
Proof.
  intros [ps [t [Hf [_ [Hp _]]]]]. subst full.
  rewrite firstn_app. unfold Spec.terminals. rewrite filter_app, length_app.
  assert (Hps : forallb Spec.isProgress (firstn n ps) = true).
  { rewrite forallb_forall in *. intros x Hx. apply Hp.
    now apply (in_firstn x n). }
  apply no_terminal_among_progress in Hps. unfold Spec.terminals in Hps.
  rewrite Hps. cbn [length plus].
  destruct (n - length ps) as [| k]; cbn; [lia |].
  rewrite firstn_nil. destruct (Spec.isTerminal t); cbn; lia.
Qed.

Lemma is_empty_false s : s <> EmptyString -> is_empty s = false.
Proof. destruct s; [congruence | reflexivity]. Qed.

Lemma POST_stream {RT : Runtime} {TX : Onboarding.Texts} token owner repo c clock w :
  token <> EmptyString -> owner <> EmptyString -> repo <> EmptyString ->
  Route.POST (Some token) owner repo c clock w =
    Route.eventStream
      (Route.start c clock (Ok (Onboarding.generateComprehensiveOnboarding w owner repo))).
Proof.
  intros Ht Ho Hr. unfold Route.POST.
  now rewrite (is_empty_false _ Ht), (is_empty_false _ Ho), (is_empty_false _ Hr).
Qed.

Lemma POST_stream_inv {RT : Runtime} {TX : Onboarding.Texts} token owner repo c clock w st :
  Route.POST token owner repo c clock w = Route.eventStream st ->
  st = Route.start c clock (Ok (Onboarding.generateComprehensiveOnboarding w owner repo)).
Proof.
  unfold Route.POST. destruct token as [tok |]; [| discriminate].
  destruct (is_empty tok); [discriminate |].
  destruct (is_empty owner || is_empty repo)%bool; [discriminate |].
  intros H. now inversion H.
Qed.

End StreamOrder.

(** C1 (amended).  For every invocation with a session token and
    non-empty owner and name, the route answers with a stream.  While the
    client stays connected and the stream accepts every chunk, the events
    are at least one progress event followed by exactly one terminal
    event (the result or an error) and nothing after it.  Whatever the
    client does, the events are a beginning of such a sequence: at most
    one terminal event, and none followed by another event. *)
Theorem C1_event_order {RT : Js.Runtime} {TX : Onboarding.Texts}
    (token owner repo : string) (c : Route.Client) (clock : nat -> string)
    (w : Onboarding.World) :
  token <> EmptyString -> owner <> EmptyString -> repo <> EmptyString ->
  exists st,
    Route.POST (Some token) owner repo c clock w = Route.eventStream st
    /\ (Spec.connected c -> Spec.orderly (Route.enqueued st))
    /\ (exists full n, Spec.orderly full /\ Route.enqueued st = firstn n full)
    /\ length (Spec.terminals (Route.enqueued st)) <= 1.
Proof.
  intros Ht Ho Hr. eexists. split; [now apply POST_stream |].
  set (service := Js.Ok (Onboarding.generateComprehensiveOnboarding w owner repo)).
  destruct (start_prefix c clock service) as [n Hn].
  split; [| split].
  - intros Hc. destruct (start_connected c clock service Hc) as [He _].
    rewrite He. apply script_orderly.
  - exists (Spec.script clock service), n. split; [apply script_orderly | exact Hn].
  - rewrite Hn. apply terminals_of_prefix, script_orderly.
Qed.

Lemma C1_event_order_witness :
  "gho_token" <> EmptyString /\ "durdan" <> EmptyString /\ "sdlc-tools" <> EmptyString
  /\ Spec.connected Samples.stays
  /\ exists st,
       @Route.POST Js.node Samples.texts (Some "gho_token") "durdan" "sdlc-tools"
         Samples.stays Samples.clock (Samples.world Samples.remoteOk (Samples.aiAnswers 42000))
       = Route.eventStream st
       /\ Spec.orderly (Route.enqueued st).
Proof.
  assert (Hc : Spec.connected Samples.stays) by (split; reflexivity).
  repeat (split; [discriminate || exact Hc |]).
  destruct (@C1_event_order Js.node Samples.texts "gho_token" "durdan" "sdlc-tools"
              Samples.stays Samples.clock
              (Samples.world Samples.remoteOk (Samples.aiAnswers 42000)))
    as [st [Hp [Ho _]]]; try discriminate.
  exists st. split; [exact Hp | exact (Ho Hc)].
Defined.

(** C1 as stated fails: when the client disconnects while the service is
    working, the stream holds the two opening progress events and no
    terminal event. *)
Lemma C1_no_terminal_after_disconnect :
  exists st,
    @Route.POST Js.node Samples.texts (Some "gho_token") "durdan" "sdlc-tools"
      Samples.leaves Samples.clock (Samples.world Samples.remoteOk (Samples.aiAnswers 42000))
    = Route.eventStream st
    /\ Spec.terminals (Route.enqueued st) = []
    /\ ~ Spec.orderly (Route.enqueued st).
Proof.
  eexists. split; [vm_compute; reflexivity |]. split; [reflexivity |].
  intros [ps [t [Hl [_ [_ Ht]]]]].
  cbn in Hl.
  destruct ps as [| a [| b [| x ps]]]; cbn in Hl; try discriminate.
  inversion Hl. subst t. discriminate.
Qed.

(** C8 (amended).  The onboarding stream carries no end-of-stream
    sentinel: every chunk written is [data: ] followed by a JSON object
    and a blank line, none is the [data: [DONE]] frame, and for a client
    that stays connected the last chunk is the terminal event, after
    which the controller is closed; the reader sees the end through the
    closing of the stream. *)
Theorem C8_stream_ends_by_closing (c : Route.Client) (clock : nat -> string)
    (service : Js.res Onboarding.OnboardingResult) :
  let st := Route.start c clock service in
  ~ In Route.doneSentinel (Route.chunks st)
  /\ (forall ch, In ch (Route.chunks st) -> Js.startsWith ch "data: {" = true)
  /\ (Spec.connected c ->
      Route.controllerClosed st = true
      /\ exists before,
           Route.chunks st = before ++ [Route.frame (Spec.terminalOf service)]).
Proof.
  intros st. split; [| split].
  - unfold Route.chunks. intros H. apply in_map_iff in H.
    destruct H as [d [Hd _]]. now apply (frame_not_sentinel d).
  - unfold Route.chunks. intros ch H. apply in_map_iff in H.
    destruct H as [d [Hd _]]. subst ch. apply frame_shape.
  - intros Hc. destruct (start_connected c clock service Hc) as [He [Hk _]].
    split; [exact Hk |].
    unfold Route.chunks. fold st in He. rewrite He. unfold Spec.script.
    rewrite app_assoc, map_app. eexists. reflexivity.
Qed.

Lemma C8_stream_ends_by_closing_witness :
  Spec.connected Samples.stays
  /\ let st := Route.start Samples.stays Samples.clock
                 (Js.Throw (Js.Error "Failed to fetch repository tree")) in
     Route.controllerClosed st = true
     /\ ~ In Route.doneSentinel (Route.chunks st).
Proof.
  assert (Hc : Spec.connected Samples.stays) by (split; reflexivity).
  split; [exact Hc |].
  destruct (C8_stream_ends_by_closing Samples.stays Samples.clock
              (Js.Throw (Js.Error "Failed to fetch repository tree")))
    as [Hn [_ Hl]].
  destruct (Hl Hc) as [Hk _].
  split; [exact Hk | exact Hn].
Defined.

(** C8 as stated fails: a run that ends with its result has the result
    as its last chunk; the controller is closed and no chunk is the
    sentinel. *)
Lemma C8_no_sentinel_after_result :
  exists st,
    @Route.POST Js.node Samples.texts (Some "gho_token") "durdan" "sdlc-tools"
      Samples.stays Samples.clock (Samples.world Samples.remoteOk (Samples.aiAnswers 42000))
    = Route.eventStream st
    /\ Route.controllerClosed st = true
    /\ Spec.isTerminal (last (Route.enqueued st) (Route.progress EmptyString)) = true
    /\ ~ In Route.doneSentinel (Route.chunks st).
Proof.
  eexists. split; [vm_compute; reflexivity |].
  split; [reflexivity |]. split; [reflexivity |].
  unfold Route.chunks. intros H. apply in_map_iff in H.
  destruct H as [d [Hd _]]. now apply (frame_not_sentinel d).
Qed.

(** C4.  Every result event that a run of the route emits carries a
    recommendation list that is not empty, whatever the hosting API and
    the AI service answered. *)
Theorem C4_recommendations_nonempty {RT : Js.Runtime} {TX : Onboarding.Texts}
    (token : option string) (owner repo : string) (c : Route.Client)
    (clock : nat -> string) (w : Onboarding.World) (st : Route.Stream)
    (guide analysis : string) (recs : list string) :
  Route.POST token owner repo c clock w = Route.eventStream st ->
  In (Route.complete guide analysis recs) (Route.enqueued st) ->
  recs <> [].
Proof.
  intros Hp Hin. apply POST_stream_inv in Hp. subst st.
  destruct (start_prefix c clock
              (Js.Ok (Onboarding.generateComprehensiveOnboarding w owner repo)))
    as [n Hn].
  rewrite Hn in Hin. apply in_firstn, script_complete in Hin.
  destruct Hin as [result [Hr [_ Hrecs]]].
  inversion Hr. subst result recs.
  apply service_recommendations_nonempty.
Qed.

Lemma C4_recommendations_nonempty_witness :
  let w := Samples.world Samples.remoteOk (Samples.aiFails 42000) in
  let result := @Onboarding.generateComprehensiveOnboarding Js.node Samples.texts
                  w "durdan" "sdlc-tools" in
  let st := Route.start Samples.stays Samples.clock (Js.Ok result) in
  @Route.POST Js.node Samples.texts (Some "gho_token") "durdan" "sdlc-tools"
    Samples.stays Samples.clock w = Route.eventStream st
  /\ In (Route.completeOf result) (Route.enqueued st)
  /\ Onboarding.recommendations result <> [].
Proof.
  intros w result st.
  assert (Hp : @Route.POST Js.node Samples.texts (Some "gho_token") "durdan" "sdlc-tools"
                 Samples.stays Samples.clock w = Route.eventStream st) by reflexivity.
  assert (Hin : In (Route.completeOf result) (Route.enqueued st))
    by (vm_compute; tauto).
  split; [exact Hp |]. split; [exact Hin |].
  exact (@C4_recommendations_nonempty Js.node Samples.texts (Some "gho_token")
           "durdan" "sdlc-tools" Samples.stays Samples.clock w st _ _ _ Hp Hin).
Defined.


Section RecommendationBounds.
Import Js.
Context {RT : Runtime} {TX : Onboarding.Texts}.






End RecommendationBounds.


Section Gathering.
Import Js.
Context {RT : Runtime}.

Lemma returns_ret {S A} (a : A) : returns (@se_ret S A a).
Proof. intros s. reflexivity. Qed.

Lemma returns_update {S} (f : S -> S) : returns (se_update f).
Proof. intros s. reflexivity. Qed.

Lemma returns_bind {S A B} (c : SE S A) (k : A -> SE S B) :
  returns c -> (forall a, returns (k a)) -> returns (se_bind c k).
Proof.
  intros Hc Hk s. unfold se_bind. specialize (Hc s).
  destruct (c s) as [[a | e] s']; [apply Hk | discriminate].
Qed.

Lemma returns_when {S} (b : bool) (c : SE S unit) :
  returns c -> returns (se_when b c).
Proof. intros Hc. destruct b; [exact Hc | apply returns_ret]. Qed.

Lemma returns_try {S A} (c : SE S A) (h : exn -> SE S A) :
  (forall e, returns (h e)) -> returns (se_try c h).
Proof.
  intros Hh s. unfold se_try.
  destruct (c s) as [[a | e] s']; [reflexivity | apply Hh].
Qed.

Lemma returns_push x : returns (Onboarding.push x).
Proof. apply returns_update. Qed.

Lemma analyzeFileContentBody_returns filename content :
  returns (Onboarding.analyzeFileContentBody filename content).
Proof.
  unfold Onboarding.analyzeFileContentBody.
  repeat (apply returns_bind; [| intros _]);
    repeat (first [ apply returns_when | apply returns_bind; [| intros _]
                  | apply returns_try; intros _ | apply returns_push ]).
Qed.

(** The classifier has no path that throws. *)
Lemma analyzeFileContent_total filename content :
  exists ins, Onboarding.analyzeFileContent filename content = Ok ins.
Proof.
  unfold Onboarding.analyzeFileContent.
  pose proof (analyzeFileContentBody_returns filename content []) as H.
  destruct (Onboarding.analyzeFileContentBody filename content [])
    as [[u | e] ins]; [now exists ins | discriminate].
Qed.

Lemma manifest_unreadable content :
  is_ok (JSON_parse content) = false ->
  Onboarding.analyzeFileContent "package.json" content
  = Ok ["Contains package configuration"].
Proof.
  intros H.
  unfold Onboarding.analyzeFileContent, Onboarding.analyzeFileContentBody,
    Onboarding.packageInsights.
  cbn. unfold se_bind, se_try, se_lift, se_when, se_ret. cbn.
  destruct (JSON_parse content); [discriminate | reflexivity].
Qed.

Lemma manifest_null content :
  JSON_parse content = Ok JNull ->
  Onboarding.analyzeFileContent "package.json" content
  = Ok ["Contains package configuration"].
Proof.
  intros H.
  unfold Onboarding.analyzeFileContent, Onboarding.analyzeFileContentBody,
    Onboarding.packageInsights.
  cbn. unfold se_bind, se_try, se_lift, se_when, se_ret. cbn.
  rewrite H. reflexivity.
Qed.

Lemma other_file_no_insight p content :
  includes (toLowerCase p) "readme" = false ->
  String.eqb p "package.json" = false ->
  includes p "schema.prisma" = false ->
  Onboarding.analyzeFileContent p content = Ok [].
Proof.
  intros H1 H2 H3.
  unfold Onboarding.analyzeFileContent, Onboarding.analyzeFileContentBody.
  rewrite H1, H2, H3. reflexivity.
Qed.

Lemma get_defined v k : v <> JNull -> get v k = Ok (prop v k).
Proof. destruct v; try reflexivity. congruence. Qed.

(** A printed count opens with a digit. *)
Lemma count_text n rest c s :
  of_nat n +++ String " " rest = String c s -> c <> "C"%char /\ c <> "I"%char.
Proof.
  unfold of_nat.
  destruct (Nat.to_uint n); cbn; intros H; inversion H; split; discriminate.
Qed.

(** A manifest that parses to a value other than [null] is read to the
    end of the [try]: the generic insight is not among its insights. *)
Lemma manifest_parsed content pkg ins :
  JSON_parse content = Ok pkg -> pkg <> JNull ->
  Onboarding.analyzeFileContent "package.json" content = Ok ins ->
  ~ In "Contains package configuration" ins.
Proof.
  intros Hp Hn.
  assert (E1 : includes (toLowerCase "package.json") "readme" = false)
    by (vm_compute; reflexivity).
  assert (E2 : String.eqb "package.json" "package.json" = true)
    by (vm_compute; reflexivity).
  assert (E3 : includes "package.json" "schema.prisma" = false)
    by (vm_compute; reflexivity).
  unfold Onboarding.analyzeFileContent, Onboarding.analyzeFileContentBody,
    Onboarding.packageInsights.
  rewrite E1, E2, E3.
  unfold se_bind, se_try, se_lift, se_when, se_ret. cbn.
  rewrite Hp, !(get_defined pkg _ Hn).
  intros H.
  destruct (prop pkg "scripts") as [sc |], (prop pkg "dependencies") as [d |];
    cbn in H;
    repeat match type of H with
           | context [if ?b then _ else _] => destruct b; cbn in H
           end;
    inversion H; subst ins; cbn; intros Hin;
    repeat match goal with
           | Hx : _ \/ _ |- _ => destruct Hx
           | Hx : False |- _ => destruct Hx
           | Hx : String _ _ = _ |- _ => discriminate Hx
           | Hx : of_nat _ +++ _ = _ |- _ =>
               apply count_text in Hx; destruct Hx as [Hx _]; congruence
           end.
Qed.

(** For the path [package.json] the generic insight is there exactly
    when the content does not parse or parses to [null], and it is then
    the only one. *)
Lemma generic_insight_cases content ins :
  Onboarding.analyzeFileContent "package.json" content = Ok ins ->
  (In "Contains package configuration" ins
   <-> is_ok (JSON_parse content) = false \/ JSON_parse content = Ok JNull)
  /\ (In "Contains package configuration" ins
      -> ins = ["Contains package configuration"]).
Proof.
  intros Hi.
  destruct (JSON_parse content) as [pkg | e] eqn:Hp.
  - assert (Hd : pkg = JNull \/ pkg <> JNull)
      by (destruct pkg; (now left) || (right; discriminate)).
    destruct Hd as [-> | Hn].
    + rewrite (manifest_null content Hp) in Hi. inversion Hi. cbn. tauto.
    + pose proof (manifest_parsed content pkg ins Hp Hn Hi) as Hout.
      split; [split |]; try tauto.
      intros [H | H]; [discriminate | congruence].
  - assert (Hj : is_ok (JSON_parse content) = false) by now rewrite Hp.
    rewrite (manifest_unreadable content Hj) in Hi. inversion Hi. cbn. tauto.
Qed.

(** A content fetch that fails leaves an entry with empty content. *)
Lemma failed_fetch_listed (r : GitHub.Remote) (p : string) (item : GitHub.TreeItem) :
  GitHub.path item = p ->
  Onboarding.isKeyFile p = true ->
  GitHub.succeeded (GitHub.repos_getContent r p) = false ->
  exists kf, Onboarding.getKeyFiles r [item] = [kf]
             /\ Onboarding.KeyFile.path kf = p
             /\ Onboarding.KeyFile.content kf = EmptyString.
Proof.
  intros Hp Hk Hf. cbn [Onboarding.getKeyFiles]. rewrite Hp, Hk.
  unfold Onboarding.readKeyFile, GitHub.getFileContent.
  destruct (GitHub.repos_getContent r p) as [data | cause]; [discriminate |].
  cbn. unfold Onboarding.keyFileOf.
  destruct (analyzeFileContent_total p EmptyString) as [ins Hi].
  rewrite Hi. cbn. eexists. split; [reflexivity |]. split; reflexivity.
Qed.

End Gathering.

(** C3 (amended).  The gatherer fails exactly when one of the four
    requests for repository details (metadata, languages, contributors,
    commits) or the request for the file tree fails; the analytics
    requests and the content fetches cannot fail it.  The error it
    surfaces has a fixed message that tells the two groups apart and
    nothing else: the cause of the failed request is not kept. *)
Theorem C3_gather_failure {RT : Js.Runtime} (r : GitHub.Remote) :
  match Onboarding.gatherRepositoryData r with
  | Js.Ok data => Spec.detailsOk r = true /\ Spec.treeOk r = true
  | Js.Throw e =>
      (Spec.detailsOk r && Spec.treeOk r)%bool = false
      /\ e = Js.Error (if Spec.detailsOk r
                       then "Failed to fetch repository tree"
                       else "Failed to fetch comprehensive analytics")
  end.
Proof.
  unfold Onboarding.gatherRepositoryData, GitHub.getComprehensiveRepoAnalytics,
    GitHub.getRepoDetails, GitHub.getRepositoryTree, Spec.detailsOk, Spec.treeOk.
  destruct (GitHub.repos_get r) as [info | cause];
    [destruct (GitHub.repos_listLanguages r) as [langs | cause];
     [destruct (GitHub.repos_listContributors r) as [contribs | cause];
      [destruct (GitHub.repos_listCommits r) as [commits | cause] | ] | ] | ];
    destruct (GitHub.git_getTree r) as [tree | cause'];
    cbn; auto.
Qed.

(** C3 as stated fails: the gatherer fails when the file-tree request
    fails although the metadata request succeeded, and a metadata request
    that fails as not-found, as rate-limited or as unauthorized surfaces
    the same error, up to the error event of the stream. *)
Lemma C3_other_failure_and_lost_cause :
  GitHub.succeeded (GitHub.repos_get Samples.remoteNoTree) = true
  /\ @Onboarding.gatherRepositoryData Js.node Samples.remoteNoTree
     = Js.Throw (Js.Error "Failed to fetch repository tree")
  /\ @Onboarding.gatherRepositoryData Js.node (Samples.remoteNoRepo GitHub.not_found)
     = @Onboarding.gatherRepositoryData Js.node (Samples.remoteNoRepo GitHub.rate_limited)
  /\ @Onboarding.gatherRepositoryData Js.node (Samples.remoteNoRepo GitHub.not_found)
     = @Onboarding.gatherRepositoryData Js.node (Samples.remoteNoRepo GitHub.unauthorized)
  /\ Route.enqueued
       (Route.start Samples.stays Samples.clock
          (Js.Ok (@Onboarding.generateComprehensiveOnboarding Js.node Samples.texts
                    (Samples.world (Samples.remoteNoRepo GitHub.not_found)
                       (Samples.aiAnswers 42000)) "durdan" "sdlc-tools")))
     = [Route.progress "Starting repository analysis...";
        Route.progress "Gathering repository data...";
        Route.error "Failed to fetch comprehensive analytics"].
Proof. repeat split; vm_compute; reflexivity. Qed.

(** C6 (amended).  The classifier has no path that throws: for every
    path and content it returns a key file with that path, the type of
    the path and the first 2000 characters of the content.  For the path
    [package.json] itself, the insight ['Contains package configuration']
    is returned exactly when [JSON.parse] rejects the content or returns
    [null] for it (reading a property of [null] throws inside the same
    [try]), and it is then the only insight.  For a path that holds
    neither [readme] (in any case) nor [schema.prisma] and is not
    [package.json], whatever its type, the insight list is empty. *)
Theorem C6_classifier_total {RT : Js.Runtime} (path content : string) :
  exists kf,
    Onboarding.keyFileOf path content = Js.Ok kf
    /\ Onboarding.KeyFile.path kf = path
    /\ Onboarding.KeyFile.type kf = Onboarding.getFileType path
    /\ Onboarding.KeyFile.content kf = Js.substring0 2000 content
    /\ (path = "package.json" ->
        (In "Contains package configuration" (Onboarding.KeyFile.insights kf)
         <-> Js.is_ok (Js.JSON_parse content) = false
             \/ Js.JSON_parse content = Js.Ok Js.JNull)
        /\ (In "Contains package configuration" (Onboarding.KeyFile.insights kf)
            -> Onboarding.KeyFile.insights kf = ["Contains package configuration"]))
    /\ (Js.includes (Js.toLowerCase path) "readme" = false ->
        path <> "package.json" ->
        Js.includes path "schema.prisma" = false ->
        Onboarding.KeyFile.insights kf = []).
Proof.
  unfold Onboarding.keyFileOf.
  destruct (analyzeFileContent_total path content) as [ins Hi].
  rewrite Hi. cbn. eexists. split; [reflexivity |]. cbn.
  repeat (split; [reflexivity |]). split.
  - intros Hp. subst path. now apply generic_insight_cases.
  - intros H1 H2 H3. apply String.eqb_neq in H2.
    rewrite (other_file_no_insight path content H1 H2 H3) in Hi. now inversion Hi.
Qed.

Lemma C6_classifier_total_witness :
  @Js.JSON_parse Js.node "null" = Js.Ok Js.JNull
  /\ exists kf,
       @Onboarding.keyFileOf Js.node "package.json" "null" = Js.Ok kf
       /\ Onboarding.KeyFile.insights kf = ["Contains package configuration"].
Proof.
  assert (Hj : @Js.JSON_parse Js.node "null" = Js.Ok Js.JNull) by reflexivity.
  split; [exact Hj |].
  destruct (@C6_classifier_total Js.node "package.json" "null")
    as [kf [Hk [_ [_ [_ [Hm _]]]]]].
  exists kf. split; [exact Hk |].
  destruct (Hm eq_refl) as [Hin Hone].
  exact (Hone (proj2 Hin (or_intror Hj))).
Defined.

(** C6 as stated fails: a manifest that is not at the root is typed as
    a dependency manifest, and with a content that cannot be parsed its
    insight list is empty instead of the single generic insight. *)
Lemma C6_nested_manifest_no_insight :
  Js.is_ok (@Js.JSON_parse Js.node "{ name: demo") = false
  /\ @Onboarding.keyFileOf Js.node "frontend/package.json" "{ name: demo"
     = Js.Ok {| Onboarding.KeyFile.path := "frontend/package.json";
                Onboarding.KeyFile.content := "{ name: demo";
                Onboarding.KeyFile.type := "dependencies";
                Onboarding.KeyFile.insights := [] |}.
Proof. split; reflexivity. Qed.

(** C7 (the code at the failing input).  On the repository whose tree lists [package.json] and
    whose content fetches all fail, the gather succeeds and the file is
    not omitted: it is recorded with empty content and the insight of an
    unreadable manifest. *)
Theorem C7_failed_fetch_recorded :
  GitHub.getFileContent Samples.remoteNoContent "package.json" = Js.Ok None
  /\ @Onboarding.getKeyFiles Js.node Samples.remoteNoContent [Samples.item "package.json"]
     = [{| Onboarding.KeyFile.path := "package.json";
           Onboarding.KeyFile.content := EmptyString;
           Onboarding.KeyFile.type := "dependencies";
           Onboarding.KeyFile.insights := ["Contains package configuration"] |}]
  /\ (exists data,
        @Onboarding.gatherRepositoryData Js.node Samples.remoteNoContent = Js.Ok data
        /\ length (Onboarding.keyFiles data) = 1).
Proof.
  split; [reflexivity |]. split; [reflexivity |].
  eexists. split; [vm_compute; reflexivity | reflexivity].
Qed.

Section AiCall.
Import Js.
Context {RT : Runtime} {TX : Onboarding.Texts}.

Lemma script_terminals clock service :
  Spec.terminals (Spec.script clock service) = [Spec.terminalOf service].
Proof.
  unfold Spec.script, Spec.terminals. rewrite !filter_app.
  assert (Hs : filter Spec.isTerminal
                 (if Spec.succeeds service
                  then Spec.stepEvents clock 0 Route.progressSteps else []) = []).
  { apply no_terminal_among_progress.
    destruct (Spec.succeeds service); [apply stepEvents_progress | reflexivity]. }
  rewrite Hs. cbn. now rewrite terminalOf_terminal.
Qed.

(** The call is awaited to its end, whenever it was begun: what is
    returned is read from the messages of a call that answered, and is
    the fixed placeholder for a call that failed. *)
Lemma analysis_at w data owner repo started :
  let call := Onboarding.query w (Onboarding.createDeepAnalysisPrompt data owner repo) in
  Onboarding.performClaudeCodeAnalysisAt w data owner repo started
  = (match Onboarding.failure call with
     | Some _ => Onboarding.claudeUnavailable
     | None => Onboarding.extractClaudeInsights (Onboarding.yielded call)
     end,
     (started + Onboarding.duration_ms call)%N).
Proof.
  intros call. unfold Onboarding.performClaudeCodeAnalysisAt, Onboarding.collect.
  fold call. now destruct (Onboarding.failure call).
Qed.

Lemma analysis_value w data owner repo :
  let call := Onboarding.query w (Onboarding.createDeepAnalysisPrompt data owner repo) in
  Onboarding.performClaudeCodeAnalysis w data owner repo
  = match Onboarding.failure call with
    | Some _ => Onboarding.claudeUnavailable
    | None => Onboarding.extractClaudeInsights (Onboarding.yielded call)
    end.
Proof.
  intros call. unfold Onboarding.performClaudeCodeAnalysis.
  now rewrite analysis_at.
Qed.

Lemma enhanced_result w owner repo data :
  Onboarding.gatherRepositoryData (Onboarding.remote w) = Ok data ->
  Onboarding.generateComprehensiveOnboarding w owner repo =
    let claudeAnalysis := Onboarding.performClaudeCodeAnalysis w data owner repo in
    {| Onboarding.success := true;
       Onboarding.onboardingGuide :=
         Onboarding.generateEnhancedOnboardingGuide data claudeAnalysis owner repo;
       Onboarding.technicalAnalysis :=
         Onboarding.generateEnhancedTechnicalAnalysis data claudeAnalysis owner repo;
       Onboarding.recommendations :=
         Onboarding.generateEnhancedRecommendations data claudeAnalysis owner repo;
       Onboarding.error := None;
       Onboarding.metadata :=
         Some {| Onboarding.analysisType := "claude_enhanced_analysis";
                 Onboarding.meta_setupInstructions :=
                   Some (Onboarding.setupInstructions claudeAnalysis);
                 Onboarding.meta_keyInsights :=
                   Some (Onboarding.keyInsights claudeAnalysis);
                 Onboarding.timestamp := Onboarding.now w |} |}.
Proof.
  intros H. unfold Onboarding.generateComprehensiveOnboarding. now rewrite H.
Qed.

End AiCall.

(** C2 (amended).  The code sets no timeout on the AI call and never
    cancels it: whenever [performClaudeCodeAnalysis] is begun, it returns
    when the call ends and not before, however long the call takes.  A
    call that answers, late or not, has its answer used: the analysis is
    the one read from the messages it yielded, the report is built from
    that analysis and is AI-enhanced.  A call that fails has its error
    caught and the analysis replaced by fixed placeholder values.  In
    both cases, once the gathering has succeeded, the run completes with
    a result event and no error event. *)
Theorem C2_no_timeout_no_fallback {RT : Js.Runtime} {TX : Onboarding.Texts}
    (w : Onboarding.World) (owner repo : string)
    (data : Onboarding.RepositoryAnalysisData)
    (c : Route.Client) (clock : nat -> string) :
  Onboarding.gatherRepositoryData (Onboarding.remote w) = Js.Ok data ->
  Spec.connected c ->
  let r := Onboarding.generateComprehensiveOnboarding w owner repo in
  let call := Onboarding.query w (Onboarding.createDeepAnalysisPrompt data owner repo) in
  let answer := Onboarding.extractClaudeInsights (Onboarding.yielded call) in
  (forall started : N,
      snd (Onboarding.performClaudeCodeAnalysisAt w data owner repo started)
      = (started + Onboarding.duration_ms call)%N)
  /\ Onboarding.claudeWait w data owner repo = Onboarding.duration_ms call
  /\ (Onboarding.failure call = None ->
      (forall started : N,
          fst (Onboarding.performClaudeCodeAnalysisAt w data owner repo started)
          = answer)
      /\ Onboarding.performClaudeCodeAnalysis w data owner repo = answer
      /\ Spec.analysisMode r = Some Spec.ai_enhanced
      /\ r = {| Onboarding.success := true;
                Onboarding.onboardingGuide :=
                  Onboarding.generateEnhancedOnboardingGuide data answer owner repo;
                Onboarding.technicalAnalysis :=
                  Onboarding.generateEnhancedTechnicalAnalysis data answer owner repo;
                Onboarding.recommendations :=
                  Onboarding.generateEnhancedRecommendations data answer owner repo;
                Onboarding.error := None;
                Onboarding.metadata :=
                  Some {| Onboarding.analysisType := "claude_enhanced_analysis";
                          Onboarding.meta_setupInstructions :=
                            Some (Onboarding.setupInstructions answer);
                          Onboarding.meta_keyInsights :=
                            Some (Onboarding.keyInsights answer);
                          Onboarding.timestamp := Onboarding.now w |} |})
  /\ (Onboarding.failure call <> None ->
      Onboarding.performClaudeCodeAnalysis w data owner repo
      = Onboarding.claudeUnavailable)
  /\ Onboarding.success r = true
  /\ Spec.terminals (Route.enqueued (Route.start c clock (Js.Ok r)))
     = [Route.completeOf r].
Proof.
  intros Hg Hc r call answer. subst r.
  rewrite (enhanced_result w owner repo data Hg).
  pose proof (analysis_value w data owner repo) as Hv. cbv zeta in Hv. fold call in Hv.
  split; [intros started; now rewrite analysis_at |].
  split; [unfold Onboarding.claudeWait; now rewrite analysis_at |].
  split; [| split; [| split; [reflexivity |]]].
  - intros Hf. rewrite Hf in Hv. fold answer in Hv.
    split; [intros started; rewrite analysis_at; fold call; now rewrite Hf |].
    split; [exact Hv |]. split; [reflexivity |].
    cbv zeta. now rewrite Hv.
  - intros Hf. rewrite Hv. destruct (Onboarding.failure call); [reflexivity | congruence].
  - destruct (start_connected c clock
                (Js.Ok (Onboarding.generateComprehensiveOnboarding w owner repo)) Hc)
      as [He _].
    rewrite (enhanced_result w owner repo data Hg) in He.
    rewrite He, script_terminals. reflexivity.
Qed.

Lemma C2_no_timeout_no_fallback_witness :
  let w := Samples.world Samples.remoteOk (Samples.aiAnswers 90000) in
  exists data,
    @Onboarding.gatherRepositoryData Js.node (Onboarding.remote w) = Js.Ok data
    /\ Spec.connected Samples.stays
    /\ @Onboarding.claudeWait Js.node w data "durdan" "sdlc-tools" = 90000%N
    /\ @Onboarding.performClaudeCodeAnalysis Js.node w data "durdan" "sdlc-tools"
       = @Onboarding.extractClaudeInsights Js.node [Samples.answer]
    /\ Spec.analysisMode
         (@Onboarding.generateComprehensiveOnboarding Js.node Samples.texts
            w "durdan" "sdlc-tools") = Some Spec.ai_enhanced.
Proof.
  intros w.
  assert (Hc : Spec.connected Samples.stays) by (split; reflexivity).
  assert (Hg : { data | @Onboarding.gatherRepositoryData Js.node (Onboarding.remote w)
                         = Js.Ok data })
    by (eexists; vm_compute; reflexivity).
  destruct Hg as [data Hg].
  exists data. split; [exact Hg |]. split; [exact Hc |].
  destruct (@C2_no_timeout_no_fallback Js.node Samples.texts w "durdan" "sdlc-tools"
              data Samples.stays Samples.clock Hg Hc) as [_ [Hw [Ha _]]].
  destruct (Ha eq_refl) as [_ [Hv [Hm _]]].
  split; [rewrite Hw; reflexivity |]. split; [exact Hv | exact Hm].
Defined.

(** C2 as stated fails: with a timeout of 60 s supposed, a call that
    answers after 90 s is waited for in full and the report is
    AI-enhanced, and a call that fails after 90 s still gives a report
    whose analysis type is not the fallback one. *)
Lemma C2_slow_call_not_cut :
  (exists data,
     @Onboarding.gatherRepositoryData Js.node Samples.remoteOk = Js.Ok data
     /\ (Samples.supposedTimeout
         < @Onboarding.claudeWait Js.node
             (Samples.world Samples.remoteOk (Samples.aiAnswers 90000))
             data "durdan" "sdlc-tools")%N)
  /\ Spec.analysisMode
       (@Onboarding.generateComprehensiveOnboarding Js.node Samples.texts
          (Samples.world Samples.remoteOk (Samples.aiAnswers 90000))
          "durdan" "sdlc-tools") = Some Spec.ai_enhanced
  /\ Spec.analysisMode
       (@Onboarding.generateComprehensiveOnboarding Js.node Samples.texts
          (Samples.world Samples.remoteOk (Samples.aiAnswers 90000))
          "durdan" "sdlc-tools") <> Some Spec.heuristic_fallback
  /\ Spec.analysisMode
       (@Onboarding.generateComprehensiveOnboarding Js.node Samples.texts
          (Samples.world Samples.remoteOk (Samples.aiFails 90000))
          "durdan" "sdlc-tools") <> Some Spec.heuristic_fallback.
Proof.
  split.
  - eexists. split; vm_compute; reflexivity.
  - split; [vm_compute; reflexivity |]. split; vm_compute; discriminate.
Qed.

Section Structure.
Import Js.
Context {RT : Runtime}.

Lemma keeps_ret {S A} (P : S -> Prop) (a : A) : keeps P (se_ret a).
Proof. intros s H. exact H. Qed.

Lemma keeps_lift {S A} (P : S -> Prop) (c : res A) : keeps P (se_lift c).
Proof. intros s H. exact H. Qed.

Lemma keeps_update {S} (P : S -> Prop) (f : S -> S) :
  (forall s, P s -> P (f s)) -> keeps P (se_update f).
Proof. intros Hf s H. now apply Hf. Qed.

Lemma keeps_bind {S A B} (P : S -> Prop) (c : SE S A) (k : A -> SE S B) :
  keeps P c -> (forall a, keeps P (k a)) -> keeps P (se_bind c k).
Proof.
  intros Hc Hk s H. unfold se_bind. specialize (Hc s H).
  destruct (c s) as [[a | e] s']; cbn in *; [now apply Hk | exact Hc].
Qed.

Lemma keeps_when {S} (P : S -> Prop) (b : bool) (c : SE S unit) :
  keeps P c -> keeps P (se_when b c).
Proof. intros Hc. destruct b; [exact Hc | apply keeps_ret]. Qed.

Lemma keeps_try {S A} (P : S -> Prop) (c : SE S A) (h : exn -> SE S A) :
  keeps P c -> (forall e, keeps P (h e)) -> keeps P (se_try c h).
Proof.
  intros Hc Hh s H. unfold se_try. specialize (Hc s H).
  destruct (c s) as [[a | e] s']; cbn in *; [exact Hc | now apply Hh].
Qed.

Lemma firstTruthy_in d table fw :
  DeepAnalyzer.firstTruthy d table = Some fw -> In fw (map snd table).
Proof.
  unfold DeepAnalyzer.firstTruthy.
  destruct (find _ table) as [kv |] eqn:Hf; [| discriminate].
  intros H. inversion H. subst fw. apply find_some in Hf.
  apply in_map. tauto.
Qed.

Lemma packageStructure_known text :
  keeps Spec.knownFramework (DeepAnalyzer.packageStructure text).
Proof.
  unfold DeepAnalyzer.packageStructure.
  apply keeps_bind; [apply keeps_lift | intros pkg].
  apply keeps_bind; [apply keeps_update; intros v0 Hv0; exact Hv0 | intros _].
  apply keeps_bind; [apply keeps_lift | intros pkgDeps].
  apply keeps_bind.
  { destruct pkgDeps as [d |]; [| apply keeps_ret].
    apply keeps_when. apply keeps_bind; [apply keeps_update; intros v0 Hv0; exact Hv0 | intros _].
    destruct (DeepAnalyzer.firstTruthy d _) as [fw |] eqn:Hfw; [| apply keeps_ret].
    apply keeps_update. intros v0 _. unfold Spec.knownFramework. cbn.
    apply firstTruthy_in in Hfw. cbn in Hfw.
    unfold Spec.detectableFrameworks. cbn. tauto. }
  intros _.
  apply keeps_bind; [apply keeps_lift | intros pkgScripts].
  apply keeps_bind.
  { destruct pkgScripts as [sc |]; [| apply keeps_ret].
    apply keeps_when. apply keeps_bind; [apply keeps_update; intros v0 Hv0; exact Hv0 | intros _].
    apply keeps_bind; [apply keeps_lift | intros [|]].
    - apply keeps_update; intros v0 Hv0; exact Hv0.
    - apply keeps_bind; [apply keeps_lift | intros [|]].
      + apply keeps_update; intros v0 Hv0; exact Hv0.
      + apply keeps_when. apply keeps_update; intros v0 Hv0; exact Hv0. }
  intros _.
  apply keeps_bind; [apply keeps_lift | intros pkgDev].
  destruct pkgDev as [d |]; [| apply keeps_ret].
  apply keeps_when.
  destruct (DeepAnalyzer.firstTruthy d _); [| apply keeps_ret].
  apply keeps_update; intros v0 Hv0; exact Hv0.
Qed.

Lemma pythonStructure_known text v :
  Spec.knownFramework v -> Spec.knownFramework (DeepAnalyzer.pythonStructure text v).
Proof.
  intros H. unfold DeepAnalyzer.pythonStructure, Spec.knownFramework in *.
  repeat match goal with
         | |- context [if ?b then _ else _] => destruct b
         end; cbn; unfold Spec.detectableFrameworks; cbn; tauto.
Qed.

(** The variable [framework] only takes the ten known values. *)
Lemma manifestVars_known keyFiles :
  Spec.knownFramework (DeepAnalyzer.manifestVars keyFiles).
Proof.
  unfold DeepAnalyzer.manifestVars.
  assert (H0 : Spec.knownFramework DeepAnalyzer.initialVars)
    by (unfold Spec.knownFramework; cbn; tauto).
  assert (H1 : Spec.knownFramework
                 match find (fun f => String.eqb (DeepAnalyzer.filename f) "package.json")
                         keyFiles with
                 | Some packageJson =>
                     snd (se_try (DeepAnalyzer.packageStructure
                                    (DeepAnalyzer.content packageJson))
                            (fun _ => se_ret tt) DeepAnalyzer.initialVars)
                 | None => DeepAnalyzer.initialVars
                 end).
  { destruct (find _ keyFiles) as [packageJson |]; [| exact H0].
    apply (keeps_try Spec.knownFramework); [apply packageStructure_known | | exact H0].
    intros e. apply keeps_ret. }
  destruct (find (fun f => String.eqb (DeepAnalyzer.filename f) "requirements.txt")
              keyFiles); [now apply pythonStructure_known | exact H1].
Qed.

Lemma prefix_lower p : forall s,
  String.prefix p s = true ->
  String.prefix (toLowerCase p) (toLowerCase s) = true.
Proof.
  induction p as [| a p IH]; intros s H; [destruct s; reflexivity |].
  destruct s as [| b s]; [discriminate |]. cbn in *.
  destruct (ascii_dec a b) as [-> | Hne]; [| discriminate].
  destruct (ascii_dec (lower_char b) (lower_char b)); [now apply IH | congruence].
Qed.

Lemma includes_cons a s sub :
  includes (String a s) sub
  = if String.prefix sub (String a s) then true else includes s sub.
Proof. reflexivity. Qed.

Lemma includes_lower sub : forall s,
  includes s sub = true -> includes (toLowerCase s) (toLowerCase sub) = true.
Proof.
  induction s as [| a s IH]; intros H.
  - destruct sub; [reflexivity | discriminate].
  - rewrite includes_cons in H.
    change (toLowerCase (String a s)) with (String (lower_char a) (toLowerCase s)).
    rewrite includes_cons.
    change (String (lower_char a) (toLowerCase s)) with (toLowerCase (String a s)).
    destruct (String.prefix sub (String a s)) eqn:E.
    + now rewrite (prefix_lower sub (String a s) E).
    + rewrite (IH H).
      now destruct (String.prefix (toLowerCase sub) (toLowerCase (String a s))).
Qed.

Lemma noDocker_hasDocker keyFiles :
  Spec.noDockerName keyFiles = true -> DeepAnalyzer.hasDockerFile keyFiles = false.
Proof.
  unfold Spec.noDockerName, DeepAnalyzer.hasDockerFile.
  induction keyFiles as [| f rest IH]; cbn [forallb existsb]; [reflexivity |].
  intros H. apply andb_prop in H. destruct H as [Hf Hr].
  rewrite (IH Hr), orb_false_r.
  destruct (includes (DeepAnalyzer.filename f) "docker") eqn:E; [| reflexivity].
  apply (includes_lower "docker") in E.
  change (toLowerCase "docker") with "docker" in E.
  rewrite E in Hf. discriminate.
Qed.

Lemma label_of_known fw :
  In fw Spec.detectableFrameworks ->
  (if (includes fw "Next.js" || includes fw "React")%bool
   then "Single Page Application"
   else if (includes fw "Express" || includes fw "FastAPI")%bool
        then "API Server" else "Unknown")
  = Spec.codeArchitecture false fw.
Proof.
  unfold Spec.detectableFrameworks. cbn [app Spec.uiFrameworks Spec.serverFrameworks In].
  intros H. decompose [or] H; try contradiction; subst fw; vm_compute; reflexivity.
Qed.

End Structure.

(** C5 (amended).  The label follows the first rule that matches, with
    the tests the code makes: [Containerized] when some file name holds
    [docker]; for file sets without [docker] in any letter case,
    [Single Page Application] when the framework is React or Next.js,
    else [API Server] when it is Express.js or FastAPI, else [Unknown]
    (which covers Vue.js, Angular, Fastify, Django and Flask).  The
    framework is always one of the ten known values. *)
Theorem C5_architecture_label {RT : Js.Runtime}
    (keyFiles : list DeepAnalyzer.FileAnalysis) :
  let ps := DeepAnalyzer.analyzeProjectStructure keyFiles in
  In (DeepAnalyzer.ProjectStructure.framework ps) Spec.detectableFrameworks
  /\ (DeepAnalyzer.hasDockerFile keyFiles = true ->
      DeepAnalyzer.ProjectStructure.architecture ps = "Containerized")
  /\ (Spec.noDockerName keyFiles = true ->
      DeepAnalyzer.ProjectStructure.architecture ps
      = Spec.codeArchitecture false (DeepAnalyzer.ProjectStructure.framework ps)).
Proof.
  cbn. pose proof (manifestVars_known keyFiles) as Hk. unfold Spec.knownFramework in Hk.
  split; [exact Hk |]. unfold DeepAnalyzer.architectureOf. split.
  - intros Hd. now rewrite Hd.
  - intros Hn. rewrite (noDocker_hasDocker keyFiles Hn). now apply label_of_known.
Qed.

Lemma C5_architecture_label_witness :
  let keyFiles := [Samples.fileOf "package.json" Samples.packageExpress;
                   Samples.fileOf "docker-compose.yml" "services:"] in
  DeepAnalyzer.hasDockerFile keyFiles = true
  /\ DeepAnalyzer.ProjectStructure.framework
       (@DeepAnalyzer.analyzeProjectStructure Js.node keyFiles) = "Express.js"
  /\ DeepAnalyzer.ProjectStructure.architecture
       (@DeepAnalyzer.analyzeProjectStructure Js.node keyFiles) = "Containerized".
Proof.
  intros keyFiles.
  assert (Hd : DeepAnalyzer.hasDockerFile keyFiles = true) by reflexivity.
  split; [exact Hd |]. split; [vm_compute; reflexivity |].
  destruct (@C5_architecture_label Js.node keyFiles) as [_ [Hc _]].
  exact (Hc Hd).
Defined.

(** C5 as stated fails: for a manifest that declares Vue.js, a UI
    framework, and no container file, the rule of the specification
    gives [Single Page Application] and the code gives [Unknown]. *)
Lemma C5_vue_is_unknown :
  let keyFiles := [Samples.fileOf "package.json" Samples.packageVue] in
  let ps := @DeepAnalyzer.analyzeProjectStructure Js.node keyFiles in
  DeepAnalyzer.ProjectStructure.framework ps = "Vue.js"
  /\ Spec.member "Vue.js" Spec.uiFrameworks = true
  /\ Spec.noDockerName keyFiles = true
  /\ Spec.specArchitecture false (DeepAnalyzer.ProjectStructure.framework ps)
     = "Single Page Application"
  /\ DeepAnalyzer.ProjectStructure.architecture ps = "Unknown".
Proof. repeat split; vm_compute; reflexivity. Qed.

(** The container rule tests the file name as it is written: with the
    usual [Dockerfile] and an Express dependency the label is
    [API Server], although the classifier of the current service types
    the same name as a containerization file. *)
Remark dockerfile_letter_case :
  let keyFiles := [Samples.fileOf "package.json" Samples.packageExpress;
                   Samples.fileOf "Dockerfile" "FROM node:20"] in
  DeepAnalyzer.ProjectStructure.architecture
    (@DeepAnalyzer.analyzeProjectStructure Js.node keyFiles) = "API Server"
  /\ Onboarding.getFileType "Dockerfile" = "containerization".
Proof. split; vm_compute; reflexivity. Qed.

Section Truncation.
Import Js.
Context {RT : Runtime}.

Lemma find_filter {A} (p q : A -> bool) (l : list A) :
  (forall x, p x = true -> q x = true) -> find p (filter q l) = find p l.
Proof.
  intros H. induction l as [| a l IH]; [reflexivity |]. cbn [filter find].
  destruct (p a) eqn:Ep.
  - rewrite (H a Ep). cbn [find]. now rewrite Ep.
  - destruct (q a); [cbn [find]; now rewrite Ep | exact IH].
Qed.

Lemma find_filtered_out {A} (p : A -> bool) (l : list A) :
  find p (filter (fun x => negb (p x)) l) = None.
Proof.
  induction l as [| a l IH]; [reflexivity |]. cbn [filter].
  destruct (p a) eqn:Ep; cbn [negb]; [exact IH |]. cbn [find]. now rewrite Ep.
Qed.

Lemma existsb_filter {A} (p q : A -> bool) (l : list A) :
  (forall x, p x = true -> q x = true) -> existsb p (filter q l) = existsb p l.
Proof.
  intros H. induction l as [| a l IH]; [reflexivity |]. cbn [filter existsb].
  destruct (p a) eqn:Ep.
  - rewrite (H a Ep). cbn [existsb]. now rewrite Ep.
  - destruct (q a); [cbn [existsb]; now rewrite Ep, IH | exact IH].
Qed.

(** The entry of a file whose content was fetched: the stored content is
    cut, the insights are those of the whole text. *)
Lemma readKeyFile_fetched (r : GitHub.Remote) (p text : string) (sz : nat) (sha : string) :
  GitHub.repos_getContent r p = inl (GitHub.File text sz sha) ->
  exists ins,
    Onboarding.analyzeFileContent p text = Ok ins
    /\ Onboarding.readKeyFile r p
       = Ok {| Onboarding.KeyFile.path := p;
               Onboarding.KeyFile.content := substring0 2000 text;
               Onboarding.KeyFile.type := Onboarding.getFileType p;
               Onboarding.KeyFile.insights := ins |}.
Proof.
  intros Hc. unfold Onboarding.readKeyFile, GitHub.getFileContent. rewrite Hc.
  cbn [GitHub.await bind try_catch GitHub.content].
  unfold Onboarding.keyFileOf.
  destruct (analyzeFileContent_total p text) as [ins Hi].
  exists ins. split; [exact Hi |]. now rewrite Hi.
Qed.

Lemma getKeyFiles_fetched (r : GitHub.Remote) (tree : list GitHub.TreeItem)
    (entry : GitHub.TreeItem) (text : string) (sz : nat) (sha : string) :
  In entry tree ->
  Onboarding.isKeyFile (GitHub.path entry) = true ->
  GitHub.repos_getContent r (GitHub.path entry) = inl (GitHub.File text sz sha) ->
  exists kf,
    In kf (Onboarding.getKeyFiles r tree)
    /\ Onboarding.KeyFile.path kf = GitHub.path entry
    /\ Onboarding.KeyFile.content kf = substring0 2000 text
    /\ Onboarding.analyzeFileContent (GitHub.path entry) text
       = Ok (Onboarding.KeyFile.insights kf).
Proof.
  intros Hin Hk Hc.
  destruct (readKeyFile_fetched r (GitHub.path entry) text sz sha Hc) as [ins [Hi Hr]].
  induction tree as [| item rest IH]; [destruct Hin |].
  cbn [Onboarding.getKeyFiles]. destruct Hin as [-> | Hin].
  - rewrite Hk, Hr. eexists. split; [left; reflexivity |]. cbn. now repeat split.
  - destruct (IH Hin) as [kf [H1 H2]]. exists kf. split; [| exact H2].
    destruct (Onboarding.isKeyFile (GitHub.path item)); [| exact H1].
    destruct (Onboarding.readKeyFile r (GitHub.path item)); [now right | exact H1].
Qed.

(** [detectFramework] takes nothing from a manifest whose stored content
    does not parse. *)
Lemma detectFramework_unreadable (files : list Onboarding.KeyFile.t)
    (pj : Onboarding.KeyFile.t) (lang : string) :
  find (fun f => String.eqb (Onboarding.KeyFile.path f) "package.json") files = Some pj ->
  is_ok (JSON_parse (Onboarding.KeyFile.content pj)) = false ->
  Onboarding.detectFramework files lang
  = match find (fun f => includes (Onboarding.KeyFile.path f) "requirements") files with
    | Some requirements =>
        if is_empty (Onboarding.KeyFile.content requirements) then None
        else Onboarding.pythonFramework (Onboarding.KeyFile.content requirements)
    | None => None
    end.
Proof.
  intros Hf Hj. unfold Onboarding.detectFramework. rewrite Hf.
  unfold Onboarding.packageFramework.
  destruct (is_empty (Onboarding.KeyFile.content pj)); [reflexivity |].
  destruct (JSON_parse (Onboarding.KeyFile.content pj)); [discriminate | reflexivity].
Qed.

Lemma detectFramework_without_manifest (files : list Onboarding.KeyFile.t) (lang : string) :
  Onboarding.detectFramework
    (filter (fun f => negb (String.eqb (Onboarding.KeyFile.path f) "package.json")) files)
    lang
  = match find (fun f => includes (Onboarding.KeyFile.path f) "requirements") files with
    | Some requirements =>
        if is_empty (Onboarding.KeyFile.content requirements) then None
        else Onboarding.pythonFramework (Onboarding.KeyFile.content requirements)
    | None => None
    end.
Proof.
  unfold Onboarding.detectFramework.
  rewrite (find_filtered_out
             (fun f => String.eqb (Onboarding.KeyFile.path f) "package.json") files).
  rewrite find_filter; [reflexivity |].
  intros f Hr. destruct (String.eqb (Onboarding.KeyFile.path f) "package.json") eqn:E;
    [| reflexivity].
  apply String.eqb_eq in E. rewrite E in Hr. vm_compute in Hr. discriminate.
Qed.

(** The older [analyzeProjectStructure] likewise: the [catch] of the
    manifest pass leaves the variables as they were. *)
Lemma manifestVars_unreadable (keyFiles : list DeepAnalyzer.FileAnalysis)
    (pf : DeepAnalyzer.FileAnalysis) :
  find (fun f => String.eqb (DeepAnalyzer.filename f) "package.json") keyFiles = Some pf ->
  is_ok (JSON_parse (DeepAnalyzer.content pf)) = false ->
  DeepAnalyzer.manifestVars keyFiles
  = match find (fun f => String.eqb (DeepAnalyzer.filename f) "requirements.txt")
            keyFiles with
    | Some requirements =>
        DeepAnalyzer.pythonStructure (DeepAnalyzer.content requirements)
          DeepAnalyzer.initialVars
    | None => DeepAnalyzer.initialVars
    end.
Proof.
  intros Hf Hj. unfold DeepAnalyzer.manifestVars. rewrite Hf.
  unfold DeepAnalyzer.packageStructure, se_try, se_bind, se_lift.
  destruct (JSON_parse (DeepAnalyzer.content pf)); [discriminate | reflexivity].
Qed.

Lemma manifestVars_without_manifest (keyFiles : list DeepAnalyzer.FileAnalysis) :
  DeepAnalyzer.manifestVars
    (filter (fun f => negb (String.eqb (DeepAnalyzer.filename f) "package.json")) keyFiles)
  = match find (fun f => String.eqb (DeepAnalyzer.filename f) "requirements.txt")
            keyFiles with
    | Some requirements =>
        DeepAnalyzer.pythonStructure (DeepAnalyzer.content requirements)
          DeepAnalyzer.initialVars
    | None => DeepAnalyzer.initialVars
    end.
Proof.
  unfold DeepAnalyzer.manifestVars.
  rewrite (find_filtered_out
             (fun f => String.eqb (DeepAnalyzer.filename f) "package.json") keyFiles).
  rewrite find_filter; [reflexivity |].
  intros f Hr. apply String.eqb_eq in Hr. now rewrite Hr.
Qed.

Lemma hasDockerFile_without_manifest (keyFiles : list DeepAnalyzer.FileAnalysis) :
  DeepAnalyzer.hasDockerFile
    (filter (fun f => negb (String.eqb (DeepAnalyzer.filename f) "package.json")) keyFiles)
  = DeepAnalyzer.hasDockerFile keyFiles.
Proof.
  unfold DeepAnalyzer.hasDockerFile. apply existsb_filter.
  intros f Hd. destruct (String.eqb (DeepAnalyzer.filename f) "package.json") eqn:E;
    [| reflexivity].
  apply String.eqb_eq in E. rewrite E in Hd. vm_compute in Hd. discriminate.
Qed.

Lemma analyzeFile_stored (name text : string) :
  DeepAnalyzer.content (DeepAnalyzer.analyzeFile name text) = substring0 1000 text.
Proof.
  unfold DeepAnalyzer.analyzeFile.
  repeat match goal with
         | |- context [if ?b then _ else _] => destruct b
         end; reflexivity.
Qed.

End Truncation.

(** C10 (amended).  Only the stored copy of a key file is truncated
    (2000 characters in the current service, 1000 in the older analyzer):
    the insights of a file are computed from the whole content that was
    fetched.  The later readers parse the stored copy of [package.json];
    when that copy does not parse they take nothing from it:
    [detectFramework] and the older [analyzeProjectStructure] answer as
    they do for the same files without [package.json], that is, with
    what a requirements file gives, and with no framework, or every
    derived field at its initial value, when there is no such file. *)
Theorem C10_truncation_follows_classification {RT : Js.Runtime}
    (r : GitHub.Remote) (tree : list GitHub.TreeItem) (entry : GitHub.TreeItem)
    (text : string) (sz : nat) (sha : string)
    (files : list Onboarding.KeyFile.t) (lang : string)
    (keyFiles : list DeepAnalyzer.FileAnalysis) (name : string) :
  (In entry tree ->
   Onboarding.isKeyFile (GitHub.path entry) = true ->
   GitHub.repos_getContent r (GitHub.path entry) = inl (GitHub.File text sz sha) ->
   exists kf,
     In kf (Onboarding.getKeyFiles r tree)
     /\ Onboarding.KeyFile.path kf = GitHub.path entry
     /\ Onboarding.KeyFile.content kf = Js.substring0 2000 text
     /\ Onboarding.analyzeFileContent (GitHub.path entry) text
        = Js.Ok (Onboarding.KeyFile.insights kf))
  /\ (forall pj,
        find (fun f => String.eqb (Onboarding.KeyFile.path f) "package.json") files
        = Some pj ->
        Js.is_ok (Js.JSON_parse (Onboarding.KeyFile.content pj)) = false ->
        Onboarding.detectFramework files lang
        = Onboarding.detectFramework
            (filter (fun f => negb (String.eqb (Onboarding.KeyFile.path f) "package.json"))
               files) lang
        /\ ((forall f, In f files ->
                       Js.includes (Onboarding.KeyFile.path f) "requirements" = false) ->
            Onboarding.detectFramework files lang = None))
  /\ DeepAnalyzer.content (DeepAnalyzer.analyzeFile name text) = Js.substring0 1000 text
  /\ DeepAnalyzer.insights (DeepAnalyzer.analyzeFile "package.json" text)
     = DeepAnalyzer.analyzePackageJson text
  /\ (forall pf,
        find (fun f => String.eqb (DeepAnalyzer.filename f) "package.json") keyFiles
        = Some pf ->
        Js.is_ok (Js.JSON_parse (DeepAnalyzer.content pf)) = false ->
        DeepAnalyzer.analyzeProjectStructure keyFiles
        = DeepAnalyzer.analyzeProjectStructure
            (filter (fun f => negb (String.eqb (DeepAnalyzer.filename f) "package.json"))
               keyFiles)
        /\ ((forall f, In f keyFiles -> DeepAnalyzer.filename f <> "requirements.txt") ->
            DeepAnalyzer.analyzeProjectStructure keyFiles
            = {| DeepAnalyzer.ProjectStructure.framework := "Unknown";
                 DeepAnalyzer.ProjectStructure.language := "Unknown";
                 DeepAnalyzer.ProjectStructure.buildSystem := "Unknown";
                 DeepAnalyzer.ProjectStructure.testFramework := None;
                 DeepAnalyzer.ProjectStructure.dependencies := [];
                 DeepAnalyzer.ProjectStructure.scripts := [];
                 DeepAnalyzer.ProjectStructure.architecture :=
                   if DeepAnalyzer.hasDockerFile keyFiles
                   then "Containerized" else "Unknown" |})).
Proof.
  split; [apply getKeyFiles_fetched |]. split; [| split; [| split]].
  - intros pj Hf Hj. split.
    + rewrite (detectFramework_unreadable files pj lang Hf Hj).
      now rewrite detectFramework_without_manifest.
    + intros Hn. rewrite (detectFramework_unreadable files pj lang Hf Hj).
      destruct (find (fun f => Js.includes (Onboarding.KeyFile.path f) "requirements")
                  files) as [q |] eqn:E; [| reflexivity].
      apply find_some in E. destruct E as [Hin Hq].
      rewrite (Hn q Hin) in Hq. discriminate.
  - apply analyzeFile_stored.
  - reflexivity.
  - intros pf Hf Hj.
    pose proof (manifestVars_unreadable keyFiles pf Hf Hj) as Hv.
    split.
    + unfold DeepAnalyzer.analyzeProjectStructure, DeepAnalyzer.architectureOf.
      rewrite hasDockerFile_without_manifest, manifestVars_without_manifest, Hv.
      reflexivity.
    + intros Hn.
      unfold DeepAnalyzer.analyzeProjectStructure, DeepAnalyzer.architectureOf.
      rewrite Hv.
      destruct (find (fun f => String.eqb (DeepAnalyzer.filename f) "requirements.txt")
                  keyFiles) as [q |] eqn:E.
      * apply find_some in E. destruct E as [Hin Hq].
        apply String.eqb_eq in Hq. now destruct (Hn q Hin).
      * cbn. now destruct (DeepAnalyzer.hasDockerFile keyFiles).
Qed.

(** A manifest whose stored copy is cut in the middle, beside a
    requirements file: the structure is the one the requirements file
    gives. *)
Lemma C10_truncation_follows_classification_witness :
  let keyFiles := [Samples.fileOf "package.json" Samples.packageLong;
                   Samples.fileOf "requirements.txt" "django==4.2"] in
  Js.is_ok (@Js.JSON_parse Js.node (Js.substring0 1000 Samples.packageLong)) = false
  /\ DeepAnalyzer.ProjectStructure.framework
       (@DeepAnalyzer.analyzeProjectStructure Js.node keyFiles) = "Django"
  /\ DeepAnalyzer.ProjectStructure.language
       (@DeepAnalyzer.analyzeProjectStructure Js.node keyFiles) = "Python"
  /\ DeepAnalyzer.ProjectStructure.scripts
       (@DeepAnalyzer.analyzeProjectStructure Js.node keyFiles) = [].
Proof.
  intros keyFiles.
  assert (H1 : Js.is_ok (@Js.JSON_parse Js.node (Js.substring0 1000 Samples.packageLong))
               = false) by (vm_compute; reflexivity).
  split; [exact H1 |].
  destruct (@C10_truncation_follows_classification Js.node Samples.remoteLong
              [] (Samples.item "package.json") Samples.packageLong 0 "a1"
              [] "TypeScript" keyFiles "package.json") as [_ [_ [_ [_ Hs]]]].
  destruct (Hs (Samples.fileOf "package.json" Samples.packageLong) eq_refl H1)
    as [Hs' _].
  rewrite Hs'. repeat split; vm_compute; reflexivity.
Defined.

(** C10 as stated fails: for a valid manifest of more than 2000
    characters the stored prefix does not parse, yet the insights of the
    key file list its scripts and count its dependencies, in the current
    service and in the older analyzer, instead of degrading to the
    generic insight. *)
Lemma C10_long_manifest_keeps_insights :
  2000 < String.length Samples.packageLong
  /\ Js.is_ok (Js.json_parse Samples.packageLong) = true
  /\ Js.is_ok (Js.json_parse (Js.substring0 2000 Samples.packageLong)) = false
  /\ map Onboarding.KeyFile.insights
       (@Onboarding.getKeyFiles Js.node Samples.remoteLong [Samples.item "package.json"])
     = [["Available scripts: dev, build"; "2 dependencies"]]
  /\ DeepAnalyzer.insights (Samples.fileOf "package.json" Samples.packageLong)
     = ["Available scripts: dev, build"; "Has development server scripts";
        "Has build script"; "2 production dependencies"; "React application";
        "Next.js application"].
Proof.
  split; [vm_compute; lia |]. repeat split; vm_compute; reflexivity.
Qed.

(** * Further properties of the code *)

(** ** Strings *)
Section StringFacts.
Import Js.

Lemma lower_char_idem c : lower_char (lower_char c) = lower_char c.
Proof. destruct c as [[] [] [] [] [] [] [] []]; reflexivity. Qed.

Lemma toLowerCase_idem s : toLowerCase (toLowerCase s) = toLowerCase s.
Proof.
  induction s as [| c s IH]; [reflexivity |].
  cbn [toLowerCase]. now rewrite lower_char_idem, IH.
Qed.

Lemma lower_char_dot c : Ascii.eqb (lower_char c) "." = Ascii.eqb c ".".
Proof. destruct c as [[] [] [] [] [] [] [] []]; reflexivity. Qed.

Lemma rev_string_lower s : forall acc,
  rev_string (toLowerCase s) (toLowerCase acc) = toLowerCase (rev_string s acc).
Proof.
  induction s as [| c s IH]; intros acc; [reflexivity |].
  cbn [toLowerCase rev_string].
  change (String (lower_char c) (toLowerCase acc)) with (toLowerCase (String c acc)).
  apply IH.
Qed.

Lemma last_segment_aux_lower s : forall cur,
  last_segment_aux (toLowerCase s) (toLowerCase cur)
  = toLowerCase (last_segment_aux s cur).
Proof.
  induction s as [| c s IH]; intros cur.
  - cbn [toLowerCase last_segment_aux].
    exact (rev_string_lower cur EmptyString).
  - cbn [toLowerCase last_segment_aux]. rewrite lower_char_dot.
    destruct (Ascii.eqb c "."); [exact (IH EmptyString) |].
    change (String (lower_char c) (toLowerCase cur)) with (toLowerCase (String c cur)).
    apply IH.
Qed.

Lemma last_segment_lower s :
  last_segment (toLowerCase s) = toLowerCase (last_segment s).
Proof. exact (last_segment_aux_lower s EmptyString). Qed.

Lemma last_segment_aux_after_dot a : forall b cur,
  last_segment_aux (a +++ String "." b) cur = last_segment_aux b EmptyString.
Proof.
  induction a as [| c a IH]; intros b cur; cbn [String.append last_segment_aux].
  - reflexivity.
  - destruct (Ascii.eqb c "."); apply IH.
Qed.

Lemma append_length a b : String.length (a +++ b) = String.length a + String.length b.
Proof. induction a as [| c a IH]; cbn; [reflexivity | now rewrite IH]. Qed.

Lemma substring0_length n : forall s, String.length (substring0 n s) <= n.
Proof.
  unfold substring0.
  induction n as [| n IH]; intros [| c s]; cbn; try lia.
  specialize (IH s). lia.
Qed.

Lemma substring0_prefix n : forall s, String.prefix (substring0 n s) s = true.
Proof.
  unfold substring0.
  induction n as [| n IH]; intros [| c s]; cbn; try reflexivity.
  destruct (ascii_dec c c); [apply IH | congruence].
Qed.

Lemma substring0_short n : forall s, String.length s <= n -> substring0 n s = s.
Proof.
  unfold substring0.
  induction n as [| n IH]; intros [| c s] H; cbn in *; try reflexivity; try lia.
  f_equal. apply IH. lia.
Qed.

End StringFacts.

(** X1.  Classification ignores letter case.  The type of a path, its
    membership of the allow-list and the language of a file name are the
    same for the path and for its lower-case form. *)
Theorem classification_ignores_case (p : string) :
  Onboarding.getFileType (Js.toLowerCase p) = Onboarding.getFileType p
  /\ Onboarding.isKeyFile (Js.toLowerCase p) = Onboarding.isKeyFile p
  /\ Onboarding.detectLanguage (Js.toLowerCase p) = Onboarding.detectLanguage p.
Proof.
  unfold Onboarding.getFileType, Onboarding.isKeyFile, Onboarding.detectLanguage.
  rewrite last_segment_lower, !toLowerCase_idem. auto.
Qed.

(** X2.  The language of a file is read off what follows its last dot:
    whatever comes before a dot does not matter, directories included. *)
Theorem language_from_extension (before after : string) :
  Onboarding.detectLanguage (before +++ String "." after)
  = Onboarding.detectLanguage after.
Proof.
  unfold Onboarding.detectLanguage, Js.last_segment.
  now rewrite last_segment_aux_after_dot.
Qed.

(** ** Key files *)
Section KeyFiles.
Import Js.
Context {RT : Runtime}.

(** Reading one allow-listed path always gives an entry. *)
Lemma readKeyFile_entry (r : GitHub.Remote) (p : string) :
  exists kf, Onboarding.readKeyFile r p = Ok kf
    /\ Onboarding.KeyFile.path kf = p
    /\ Onboarding.KeyFile.type kf = Onboarding.getFileType p
    /\ (Onboarding.KeyFile.content kf = EmptyString
        \/ exists text sz sha,
             GitHub.repos_getContent r p = inl (GitHub.File text sz sha)
             /\ Onboarding.KeyFile.content kf = substring0 2000 text).
Proof.
  unfold Onboarding.readKeyFile, GitHub.getFileContent, Onboarding.keyFileOf.
  destruct (GitHub.repos_getContent r p) as [[text sz sha |] | cause]; cbn.
  - destruct (analyzeFileContent_total p text) as [ins ->]. cbn.
    eexists. split; [reflexivity |]. cbn. repeat split.
    right. now exists text, sz, sha.
  - destruct (analyzeFileContent_total p EmptyString) as [ins ->]. cbn.
    eexists. split; [reflexivity |]. cbn. repeat split. now left.
  - destruct (analyzeFileContent_total p EmptyString) as [ins ->]. cbn.
    eexists. split; [reflexivity |]. cbn. repeat split. now left.
Qed.

End KeyFiles.

(** X3.  The key files are the allow-listed paths of the tree, one
    entry for each, in the order of the tree: whether an item is a file
    or a directory, and whether its content could be read, plays no
    part. *)
Theorem key_files_follow_tree `{RT : Js.Runtime}
    (r : GitHub.Remote) (tree : list GitHub.TreeItem) :
  map Onboarding.KeyFile.path (Onboarding.getKeyFiles r tree)
  = filter Onboarding.isKeyFile (map GitHub.path tree).
Proof.
  induction tree as [| item rest IH]; [reflexivity |].
  cbn [Onboarding.getKeyFiles map filter].
  destruct (Onboarding.isKeyFile (GitHub.path item)); [| exact IH].
  destruct (readKeyFile_entry r (GitHub.path item)) as [kf [-> [Hp _]]].
  cbn [map]. now rewrite Hp, IH.
Qed.

(** X4.  Every key file gathered holds at most 2000 characters, and
    they are the empty text or the first 2000 characters of what the
    content request for its path returned; its type is the one of its
    path. *)
Theorem key_file_content_bounded `{RT : Js.Runtime}
    (r : GitHub.Remote) (tree : list GitHub.TreeItem) (kf : Onboarding.KeyFile.t) :
  In kf (Onboarding.getKeyFiles r tree) ->
  String.length (Onboarding.KeyFile.content kf) <= 2000
  /\ Onboarding.KeyFile.type kf = Onboarding.getFileType (Onboarding.KeyFile.path kf)
  /\ (Onboarding.KeyFile.content kf = EmptyString
      \/ exists text sz sha,
           GitHub.repos_getContent r (Onboarding.KeyFile.path kf)
           = inl (GitHub.File text sz sha)
           /\ Onboarding.KeyFile.content kf = Js.substring0 2000 text
           /\ String.prefix (Onboarding.KeyFile.content kf) text = true).
Proof.
  induction tree as [| item rest IH]; [intros [] |].
  cbn [Onboarding.getKeyFiles].
  destruct (Onboarding.isKeyFile (GitHub.path item)); [| exact IH].
  destruct (readKeyFile_entry r (GitHub.path item))
    as [kf' [-> [Hp [Ht Hc]]]].
  intros [<- | Hin]; [| exact (IH Hin)].
  rewrite Hp. split; [| split; [exact Ht |]].
  - destruct Hc as [-> | [text [sz [sha [_ ->]]]]]; [cbn; lia |].
    apply substring0_length.
  - destruct Hc as [Hc | [text [sz [sha [Hr Hc]]]]]; [now left | right].
    exists text, sz, sha. split; [exact Hr |]. split; [exact Hc |].
    rewrite Hc. apply substring0_prefix.
Qed.

Lemma key_file_content_bounded_witness :
  exists kf,
    In kf (@Onboarding.getKeyFiles Js.node Samples.remoteLong Samples.sampleTree)
    /\ Onboarding.KeyFile.path kf = "package.json"
    /\ String.length (Onboarding.KeyFile.content kf) <= 2000.
Proof.
  pose (l := @Onboarding.getKeyFiles Js.node Samples.remoteLong Samples.sampleTree).
  pose (kf := nth 1 l {| Onboarding.KeyFile.path := EmptyString;
                         Onboarding.KeyFile.content := EmptyString;
                         Onboarding.KeyFile.type := EmptyString;
                         Onboarding.KeyFile.insights := [] |}).
  assert (H : In kf l) by (vm_compute; auto).
  exists kf. split; [exact H |]. split; [vm_compute; reflexivity |].
  exact (proj1 (@key_file_content_bounded Js.node Samples.remoteLong
                  Samples.sampleTree kf H)).
Defined.

(** ** Manifest insights *)
Section ManifestInsights.
Import Js.
Context {RT : Runtime}.

Lemma push_keeps_out (bad x : string) :
  x <> bad -> keeps (fun ins => ~ In bad ins) (Onboarding.push x).
Proof.
  intros Hx. apply keeps_update. intros ins Hins Hin.
  apply in_app_or in Hin. destruct Hin as [Hin | [Hin | []]]; [tauto | congruence].
Qed.

Lemma older_push_keeps_out (bad x : string) :
  x <> bad -> keeps (fun ins => ~ In bad ins) (DeepAnalyzer.push x).
Proof. exact (push_keeps_out bad x). Qed.

Lemma older_pushIf_keeps_out (bad : string) v k x :
  x <> bad -> keeps (fun ins => ~ In bad ins) (DeepAnalyzer.pushIf v k x).
Proof. intros H. apply keeps_when. now apply older_push_keeps_out. Qed.

Lemma older_pushIf_returns v k x : returns (DeepAnalyzer.pushIf v k x).
Proof. apply returns_when, returns_update. Qed.

Lemma returns_lift_get {S} v k : v <> JNull -> returns (@se_lift S _ (get v k)).
Proof. intros H s. cbn. now rewrite (get_defined v k H). Qed.

End ManifestInsights.

(** X5.  For the path [package.json] the service's classifier reports
    ['Contains package configuration'] exactly when the content does not
    parse or parses to [null], and it is then the only insight. *)
Theorem manifest_generic_insight `{RT : Js.Runtime} (content : string) :
  exists ins,
    Onboarding.analyzeFileContent "package.json" content = Js.Ok ins
    /\ (In "Contains package configuration" ins
        <-> Js.is_ok (Js.JSON_parse content) = false
            \/ Js.JSON_parse content = Js.Ok Js.JNull)
    /\ (In "Contains package configuration" ins
        -> ins = ["Contains package configuration"]).
Proof.
  destruct (analyzeFileContent_total "package.json" content) as [ins Hi].
  exists ins. split; [exact Hi |]. now apply generic_insight_cases.
Qed.

Section OlderManifest.
Import Js.
Context {RT : Runtime}.

Lemma packageJsonBody_keeps_out content :
  keeps (fun ins => ~ In "Invalid package.json format" ins)
    (DeepAnalyzer.packageJsonBody content).
Proof.
  assert (Hc : forall n rest, of_nat n +++ String " " rest <> "Invalid package.json format").
  { intros n rest H. apply count_text in H. destruct H as [_ H]. congruence. }
  unfold DeepAnalyzer.packageJsonBody.
  repeat first
    [ apply keeps_lift
    | apply keeps_ret
    | apply keeps_when
    | apply older_pushIf_keeps_out; discriminate
    | apply older_push_keeps_out; first [discriminate | apply Hc]
    | apply keeps_bind; [| intros ?]
    | match goal with
      | |- keeps _ (match ?x with Some _ => _ | None => _ end) => destruct x
      end ].
Qed.

Lemma throws_when_bind {S A B} (c : SE S A) (k : A -> SE S B) (Q : Prop) :
  returns c -> (forall a, throws_when (k a) Q) -> throws_when (se_bind c k) Q.
Proof.
  intros Hc Hk s. unfold se_bind. specialize (Hc s).
  destruct (c s) as [[a | e] s']; [apply Hk | discriminate].
Qed.

Lemma throws_when_lift {S A B} (c : res A) (a : A) (k : A -> SE S B) (Q : Prop) :
  c = Ok a -> throws_when (k a) Q -> throws_when (se_bind (se_lift c) k) Q.
Proof. intros -> Hk s. unfold se_bind, se_lift. apply Hk. Qed.

(** The last step of the [try]: the only one that can throw once the
    manifest has parsed to a value other than [null]. *)
Lemma engines_step_throws (found : option json) :
  throws_when
    (match found with
     | Some v =>
         se_when (truthy v)
           (required <- se_lift (DeepAnalyzer.nodeRequirement v) ;;
            DeepAnalyzer.push ("Node.js version requirement: " +++ required))
     | None => se_ret tt
     end)
    (exists engines,
        found = Some engines /\ truthy engines = true
        /\ is_ok (DeepAnalyzer.nodeRequirement engines) = false).
Proof.
  intros s. destruct found as [v |].
  - destruct (truthy v) eqn:Et; cbn [se_when].
    + unfold se_bind, se_lift.
      destruct (DeepAnalyzer.nodeRequirement v) as [t | e] eqn:En; cbn.
      * split; [discriminate |]. intros [w [Hw [_ Hn]]].
        inversion Hw; subst w. rewrite En in Hn. discriminate.
      * split; [| reflexivity]. intros _. exists v. rewrite En. now repeat split.
    + cbn. split; [discriminate |]. intros [w [Hw [Ht _]]].
      inversion Hw; subst w. congruence.
  - cbn. split; [discriminate |]. intros [w [Hw _]]. discriminate.
Qed.

Lemma packageJsonBody_throws content pkg :
  JSON_parse content = Ok pkg -> pkg <> JNull ->
  throws_when (DeepAnalyzer.packageJsonBody content)
    (exists engines,
        prop pkg "engines" = Some engines /\ truthy engines = true
        /\ is_ok (DeepAnalyzer.nodeRequirement engines) = false).
Proof.
  intros Hp Hn. unfold DeepAnalyzer.packageJsonBody.
  apply (throws_when_lift _ pkg); [exact Hp |].
  do 3 (eapply throws_when_lift; [apply (get_defined pkg _ Hn) |];
        apply throws_when_bind;
        [ match goal with
          | |- returns (match ?x with Some _ => _ | None => _ end) => destruct x
          end;
          repeat first
            [ apply returns_ret
            | apply returns_when
            | apply older_pushIf_returns
            | apply returns_update
            | apply returns_bind; [| intros ?] ]
        | intros _ ]).
  eapply throws_when_lift; [apply (get_defined pkg _ Hn) |].
  apply engines_step_throws.
Qed.

(** What the analyzer returns: the insights gathered by the [try], and
    the fixed insight after them when it threw. *)
Lemma analyzePackageJson_outcome content :
  exists before,
    ~ In "Invalid package.json format" before
    /\ DeepAnalyzer.analyzePackageJson content
       = (if is_ok (fst (DeepAnalyzer.packageJsonBody content []))
          then before else before ++ ["Invalid package.json format"]).
Proof.
  unfold DeepAnalyzer.analyzePackageJson, se_try.
  pose proof (packageJsonBody_keeps_out content [] (fun H => H)) as Hk.
  destruct (DeepAnalyzer.packageJsonBody content []) as [[u | e] ins];
    exists ins; (split; [exact Hk | reflexivity]).
Qed.

Lemma analyzePackageJson_unreadable content :
  is_ok (JSON_parse content) = false \/ JSON_parse content = Ok JNull ->
  DeepAnalyzer.analyzePackageJson content = ["Invalid package.json format"].
Proof.
  intros H.
  unfold DeepAnalyzer.analyzePackageJson, DeepAnalyzer.packageJsonBody.
  unfold se_try. unfold se_bind at 1. unfold se_lift at 1.
  destruct (JSON_parse content) as [pkg | e].
  - destruct H as [H | H]; [discriminate |]. inversion H. reflexivity.
  - reflexivity.
Qed.

End OlderManifest.

(** X6.  The older analyzer reports ['Invalid package.json format']
    exactly when its [try] throws: when the manifest does not parse,
    when it parses to [null], and when its truthy [engines] has a truthy
    [node] whose conversion to a string throws.  The insight then comes
    last, once, after the insights gathered before the failure; it is
    the only insight in the first two cases. *)
Theorem invalid_manifest_insight `{RT : Js.Runtime} (content : string) :
  (In "Invalid package.json format" (DeepAnalyzer.analyzePackageJson content)
   <-> Js.is_ok (Js.JSON_parse content) = false
       \/ Js.JSON_parse content = Js.Ok Js.JNull
       \/ exists pkg engines,
            Js.JSON_parse content = Js.Ok pkg
            /\ Js.prop pkg "engines" = Some engines
            /\ Js.truthy engines = true
            /\ Js.is_ok (DeepAnalyzer.nodeRequirement engines) = false)
  /\ (In "Invalid package.json format" (DeepAnalyzer.analyzePackageJson content)
      -> exists before,
           DeepAnalyzer.analyzePackageJson content
           = before ++ ["Invalid package.json format"]
           /\ ~ In "Invalid package.json format" before)
  /\ (Js.is_ok (Js.JSON_parse content) = false
      \/ Js.JSON_parse content = Js.Ok Js.JNull
      -> DeepAnalyzer.analyzePackageJson content = ["Invalid package.json format"]).
Proof.
  destruct (analyzePackageJson_outcome content) as [before [Hout E]].
  assert (Hin : In "Invalid package.json format" (DeepAnalyzer.analyzePackageJson content)
                <-> Js.is_ok (fst (DeepAnalyzer.packageJsonBody content [])) = false).
  { rewrite E. destruct (Js.is_ok (fst (DeepAnalyzer.packageJsonBody content []))).
    - split; [tauto | discriminate].
    - split; [reflexivity |]. intros _. apply in_or_app. right. now left. }
  split; [| split; [| apply analyzePackageJson_unreadable]].
  - rewrite Hin.
    destruct (Js.JSON_parse content) as [pkg | e] eqn:Hp.
    + assert (Hd : pkg = Js.JNull \/ pkg <> Js.JNull)
        by (destruct pkg; (now left) || (right; discriminate)).
      destruct Hd as [-> | Hn].
      * unfold DeepAnalyzer.packageJsonBody, Js.se_bind, Js.se_lift. rewrite Hp.
        cbn. split; [intros _; right; now left | reflexivity].
      * rewrite (packageJsonBody_throws content pkg Hp Hn []).
        split.
        -- intros [engines H]. right; right. now exists pkg, engines.
        -- intros [H | [H | [pkg' [engines [Hp' H]]]]];
             [discriminate | congruence |].
           inversion Hp'; subst pkg'. now exists engines.
    + unfold DeepAnalyzer.packageJsonBody, Js.se_bind, Js.se_lift. rewrite Hp.
      cbn. split; [intros _; now left | reflexivity].
  - intros H. apply Hin in H. rewrite H in E. now exists before.
Qed.

(** A manifest whose [engines.node] is an object with a member named
    [toString]: the scripts are listed, then the conversion throws. *)
Lemma invalid_manifest_insight_witness :
  let content :=
    Samples.jsonText "{'scripts':{'a':'b'},'engines':{'node':{'toString':1}}}" in
  Js.is_ok (@Js.JSON_parse Js.node content) = true
  /\ In "Invalid package.json format" (@DeepAnalyzer.analyzePackageJson Js.node content)
  /\ @DeepAnalyzer.analyzePackageJson Js.node content
     = ["Available scripts: a"; "Invalid package.json format"].
Proof.
  intros content.
  split; [vm_compute; reflexivity |].
  destruct (@invalid_manifest_insight Js.node content) as [Hin _].
  split; [| vm_compute; reflexivity].
  apply (proj2 Hin). right; right.
  eexists. eexists. repeat split; vm_compute; reflexivity.
Defined.

(** ** What is read from the AI's answer *)
Section Insights.
Import Js.
Context {RT : Runtime}.

Lemma or_default_filled s d : d <> EmptyString -> or_default s d <> EmptyString.
Proof. destruct s; cbn; [auto | discriminate]. Qed.

Lemma or_list_filled l d : d <> [] -> Onboarding.or_list l d <> [].
Proof. destruct l; cbn; [auto | discriminate]. Qed.

Lemma scan_assistant_only messages : forall acc,
  fold_left Onboarding.scanMessage
    (filter (fun m => String.eqb (Onboarding.msg_type m) "assistant") messages) acc
  = fold_left Onboarding.scanMessage messages acc.
Proof.
  induction messages as [| m rest IH]; intros acc; [reflexivity |].
  cbn [filter fold_left].
  destruct (String.eqb (Onboarding.msg_type m) "assistant") eqn:E.
  - cbn [fold_left]. apply IH.
  - rewrite IH. unfold Onboarding.scanMessage at 3. now rewrite E.
Qed.

Lemma extracted_insights_filled messages :
  Onboarding.keyInsights (Onboarding.extractClaudeInsights messages) <> [].
Proof. apply or_list_filled. discriminate. Qed.

Lemma analysis_insights_filled {TX : Onboarding.Texts} w data owner repo :
  Onboarding.keyInsights (Onboarding.performClaudeCodeAnalysis w data owner repo) <> [].
Proof.
  rewrite analysis_value.
  destruct (Onboarding.failure _); [discriminate | apply extracted_insights_filled].
Qed.

End Insights.

(** X7.  No field of the analysis read from the AI's messages is ever
    blank: each text is non-empty and each list has an entry, whatever the
    messages are (none at all included). *)
Theorem claude_insights_never_blank `{RT : Js.Runtime}
    (messages : list Onboarding.SDKMessage) :
  let a := Onboarding.extractClaudeInsights messages in
  Onboarding.codeAnalysis a <> EmptyString
  /\ Onboarding.dataModel a <> EmptyString
  /\ Onboarding.architecture a <> EmptyString
  /\ Onboarding.setupInstructions a <> EmptyString
  /\ Onboarding.features a <> []
  /\ Onboarding.keyInsights a <> [].
Proof.
  cbv zeta. unfold Onboarding.extractClaudeInsights.
  cbn [Onboarding.codeAnalysis Onboarding.dataModel Onboarding.architecture
       Onboarding.setupInstructions Onboarding.features Onboarding.keyInsights].
  repeat split;
    first [ apply or_default_filled; discriminate
          | apply or_list_filled; discriminate ].
Qed.

(** X8.  Only the assistant's messages count: the analysis read from a
    list of messages is the one read from its assistant messages alone. *)
Theorem claude_insights_from_assistant `{RT : Js.Runtime}
    (messages : list Onboarding.SDKMessage) :
  Onboarding.extractClaudeInsights
    (filter (fun m => String.eqb (Onboarding.msg_type m) "assistant") messages)
  = Onboarding.extractClaudeInsights messages.
Proof.
  unfold Onboarding.extractClaudeInsights. now rewrite scan_assistant_only.
Qed.

(** X9.  On the enhanced path the recommendations always open with the
    heading of the AI part followed by a bullet, also when the AI call
    failed: the bullet then reads that the analysis is limited. *)
Theorem ai_heading_always_shown `{RT : Js.Runtime} `{TX : Onboarding.Texts}
    (w : Onboarding.World) (owner repo : string)
    (data : Onboarding.RepositoryAnalysisData) :
  Onboarding.gatherRepositoryData (Onboarding.remote w) = Js.Ok data ->
  let recs :=
    Onboarding.recommendations (Onboarding.generateComprehensiveOnboarding w owner repo) in
  (exists insight rest,
     recs = "**🤖 AI-Powered Recommendations:**" :: ("• " +++ insight) :: rest)
  /\ (Onboarding.failure
        (Onboarding.query w (Onboarding.createDeepAnalysisPrompt data owner repo))
      <> None ->
      exists rest,
        recs = "**🤖 AI-Powered Recommendations:**"
               :: "• Analysis limited - Claude SDK unavailable" :: rest).
Proof.
  intros Hg. cbv zeta. rewrite (enhanced_result w owner repo data Hg).
  cbv zeta. cbn [Onboarding.recommendations].
  unfold Onboarding.generateEnhancedRecommendations.
  split.
  - pose proof (analysis_insights_filled w data owner repo) as Hk.
    destruct (Onboarding.keyInsights
                (Onboarding.performClaudeCodeAnalysis w data owner repo))
      as [| i l]; [congruence |].
    cbn [firstn map app]. eexists. eexists. reflexivity.
  - intros Hf. rewrite analysis_value.
    destruct (Onboarding.failure _); [| congruence].
    cbn [Onboarding.keyInsights Onboarding.claudeUnavailable firstn map app].
    eexists. reflexivity.
Qed.

Lemma ai_heading_always_shown_witness :
  exists rest,
    Onboarding.recommendations
      (@Onboarding.generateComprehensiveOnboarding Js.node Samples.texts
         (Samples.world Samples.remoteOk (Samples.aiFails 1500)) "acme" "demo")
    = "**🤖 AI-Powered Recommendations:**"
      :: "• Analysis limited - Claude SDK unavailable" :: rest.
Proof.
  assert (Hg : { data | @Onboarding.gatherRepositoryData Js.node
                   (Onboarding.remote (Samples.world Samples.remoteOk (Samples.aiFails 1500)))
                 = Js.Ok data }).
  { eexists. vm_compute. reflexivity. }
  destruct Hg as [data Hg].
  apply (proj2 (@ai_heading_always_shown Js.node Samples.texts
                  (Samples.world Samples.remoteOk (Samples.aiFails 1500)) "acme" "demo" data Hg)).
  vm_compute. discriminate.
Defined.

(** ** Outcomes of the service *)
Section Outcomes.
Import Js.
Context {RT : Runtime} {TX : Onboarding.Texts}.

Lemma gather_error_message (r : GitHub.Remote) (e : exn) :
  Onboarding.gatherRepositoryData r = Throw e ->
  Js.message e = "Failed to fetch comprehensive analytics"
  \/ Js.message e = "Failed to fetch repository tree".
Proof.
  unfold Onboarding.gatherRepositoryData, GitHub.getComprehensiveRepoAnalytics,
    GitHub.getRepositoryTree, try_catch, bind.
  destruct (GitHub.getRepoDetails r) as [d | e1].
  - destruct (GitHub.await (GitHub.git_getTree r)) as [t | e2]; [discriminate |].
    intros H. inversion H. now right.
  - intros H. inversion H. now left.
Qed.

Lemma failed_result w owner repo e :
  Onboarding.gatherRepositoryData (Onboarding.remote w) = Throw e ->
  is_ok (Onboarding.gatherRepositoryData (Onboarding.remote_retry w)) = false ->
  Onboarding.generateComprehensiveOnboarding w owner repo
  = {| Onboarding.success := false;
       Onboarding.error := Some (Js.message e);
       Onboarding.onboardingGuide := "Failed to generate onboarding guide";
       Onboarding.technicalAnalysis := "Analysis failed";
       Onboarding.recommendations := ["Please try again later"];
       Onboarding.metadata := None |}.
Proof.
  intros H1 H2.
  unfold Onboarding.generateComprehensiveOnboarding, Onboarding.generateBasicOnboarding.
  rewrite H1.
  destruct (Onboarding.gatherRepositoryData (Onboarding.remote_retry w));
    [discriminate | reflexivity].
Qed.

Lemma unsuccessful_result w owner repo :
  Onboarding.success (Onboarding.generateComprehensiveOnboarding w owner repo) = false ->
  exists e,
    Onboarding.gatherRepositoryData (Onboarding.remote w) = Throw e
    /\ is_ok (Onboarding.gatherRepositoryData (Onboarding.remote_retry w)) = false.
Proof.
  unfold Onboarding.generateComprehensiveOnboarding, Onboarding.generateBasicOnboarding.
  destruct (Onboarding.gatherRepositoryData (Onboarding.remote w)) as [d | e];
    [discriminate |].
  destruct (Onboarding.gatherRepositoryData (Onboarding.remote_retry w));
    [discriminate |].
  intros _. now exists e.
Qed.

End Outcomes.

(** X10.  The mode of a report follows the two gatherings alone.  It is
    the enhanced one exactly when the first gathering succeeds, the
    fallback exactly when the first fails and the second succeeds, and the
    service reports failure exactly when both fail; the error it then
    gives is the one of the first gathering. *)
Theorem report_mode_by_gathering `{RT : Js.Runtime} `{TX : Onboarding.Texts}
    (w : Onboarding.World) (owner repo : string) :
  let r := Onboarding.generateComprehensiveOnboarding w owner repo in
  let first := Onboarding.gatherRepositoryData (Onboarding.remote w) in
  let second := Onboarding.gatherRepositoryData (Onboarding.remote_retry w) in
  (Spec.analysisMode r = Some Spec.ai_enhanced <-> Js.is_ok first = true)
  /\ (Spec.analysisMode r = Some Spec.heuristic_fallback
      <-> Js.is_ok first = false /\ Js.is_ok second = true)
  /\ (Onboarding.success r = false
      <-> Js.is_ok first = false /\ Js.is_ok second = false)
  /\ (forall e, first = Js.Throw e -> Onboarding.success r = false ->
                Onboarding.error r = Some (Js.message e)).
Proof.
  cbv zeta.
  unfold Onboarding.generateComprehensiveOnboarding, Onboarding.generateBasicOnboarding.
  destruct (Onboarding.gatherRepositoryData (Onboarding.remote w)) as [d | e];
    [| destruct (Onboarding.gatherRepositoryData (Onboarding.remote_retry w))
         as [d' | e']];
    cbn; unfold Spec.analysisMode, Spec.ai_enhanced, Spec.heuristic_fallback; cbn;
    (split; [| split; [| split]]);
    try (intros e0 H H'; inversion H; congruence);
    (split; [intros H; try split; first [discriminate H | reflexivity]
            | intros H; first [easy | destruct H; easy | reflexivity]]).
Qed.

Lemma report_mode_by_gathering_witness :
  Onboarding.error
    (@Onboarding.generateComprehensiveOnboarding Js.node Samples.texts
       Cases.worldTwoFailures "acme" "demo")
  = Some "Failed to fetch repository tree".
Proof.
  apply (proj2 (proj2 (proj2
    (@report_mode_by_gathering Js.node Samples.texts Cases.worldTwoFailures "acme" "demo")))
    (Js.Error "Failed to fetch repository tree")).
  - vm_compute. reflexivity.
  - vm_compute. reflexivity.
Defined.

(** X11.  An error event of the route's stream carries one of the two
    messages of the gatherer; the stand-in texts ['Analysis failed'] and
    ['Unknown error occurred'] are never sent. *)
Theorem stream_error_texts `{RT : Js.Runtime} `{TX : Onboarding.Texts}
    (token : option string) (owner repo : string) (c : Route.Client)
    (clock : nat -> string) (w : Onboarding.World) (st : Route.Stream) (m : string) :
  Route.POST token owner repo c clock w = Route.eventStream st ->
  In (Route.error m) (Route.enqueued st) ->
  m = "Failed to fetch comprehensive analytics"
  \/ m = "Failed to fetch repository tree".
Proof.
  intros Hp Hin. apply POST_stream_inv in Hp. subst st.
  destruct (start_prefix c clock
              (Js.Ok (Onboarding.generateComprehensiveOnboarding w owner repo)))
    as [n Hn].
  rewrite Hn in Hin. apply in_firstn in Hin.
  unfold Spec.script in Hin. cbn [app] in Hin.
  destruct Hin as [Hin | [Hin | Hin]]; [discriminate | discriminate |].
  apply in_app_or in Hin.
  assert (Hterm : Route.error m
                  = Spec.terminalOf
                      (Js.Ok (Onboarding.generateComprehensiveOnboarding w owner repo))).
  { destruct Hin as [Hin | [Hin | []]]; [| now symmetry].
    exfalso. destruct (Spec.succeeds _); [| destruct Hin].
    cbn in Hin. decompose [or] Hin; try discriminate; contradiction. }
  cbn [Spec.terminalOf] in Hterm.
  destruct (Onboarding.success
              (Onboarding.generateComprehensiveOnboarding w owner repo)) eqn:Hs;
    [discriminate |].
  destruct (unsuccessful_result w owner repo Hs) as [e [H1 H2]].
  rewrite (failed_result w owner repo e H1 H2) in Hterm.
  cbn in Hterm. inversion Hterm as [Hm].
  destruct (gather_error_message _ e H1) as [-> | ->]; cbn; auto.
Qed.

Lemma stream_error_texts_witness :
  let st := Route.start Samples.stays Samples.clock
              (Js.Ok (@Onboarding.generateComprehensiveOnboarding Js.node Samples.texts
                        Cases.worldTwoFailures "acme" "demo")) in
  In (Route.error "Failed to fetch repository tree") (Route.enqueued st)
  /\ ("Failed to fetch repository tree" = "Failed to fetch comprehensive analytics"
      \/ "Failed to fetch repository tree" = "Failed to fetch repository tree").
Proof.
  cbv zeta.
  assert (Hin : In (Route.error "Failed to fetch repository tree")
                  (Route.enqueued
                     (Route.start Samples.stays Samples.clock
                        (Js.Ok (@Onboarding.generateComprehensiveOnboarding Js.node
                                  Samples.texts Cases.worldTwoFailures "acme" "demo"))))).
  { vm_compute. auto. }
  split; [exact Hin |].
  apply (@stream_error_texts Js.node Samples.texts (Some "token") "acme" "demo"
           Samples.stays Samples.clock Cases.worldTwoFailures _ _ eq_refl Hin).
Defined.

(** ** The stream's controller *)
Section Controller.
Import Js.
Variable c : Route.Client.
Variable clock : nat -> string.
Hypothesis accepts : forall k, Route.enqueueThrows c k = false.

Lemma closedTogether_suspend k st :
  Props.closedTogether st -> Props.closedTogether (Route.suspend c k st).
Proof.
  intros H. unfold Route.suspend.
  destruct (Route.abortAt c) as [n |]; [| exact H].
  destruct (Nat.eqb n k); [| exact H]. intros _. reflexivity.
Qed.

Lemma closedTogether_send d st :
  Props.closedTogether st -> Props.closedTogether (Route.sendSSE c d st).
Proof.
  intros H. unfold Route.sendSSE.
  destruct (Route.isStreamClosed st) eqn:E; [exact H |].
  rewrite accepts. intros Hc. discriminate Hc.
Qed.

Lemma closedTogether_sendIfOpen k d st :
  Props.closedTogether st -> Props.closedTogether (Route.sendIfOpen c k d st).
Proof.
  intros H. unfold Route.sendIfOpen.
  destruct (Route.isStreamClosed st) eqn:E; [exact H |].
  now apply closedTogether_suspend, closedTogether_send.
Qed.

Lemma closedTogether_sendSteps steps : forall i st,
  Props.closedTogether st -> Props.closedTogether (Route.sendSteps c clock i steps st).
Proof.
  induction steps as [| [m p] rest IH]; intros i st H; cbn [Route.sendSteps];
    [exact H |].
  destruct (Route.isStreamClosed st) eqn:E; [exact H |].
  apply IH. now apply closedTogether_suspend, closedTogether_suspend,
              closedTogether_send.
Qed.

Lemma closedTogether_respond service st :
  Props.closedTogether st -> Props.closedTogether (Route.respond c clock service st).
Proof.
  intros H. unfold Route.respond.
  destruct service as [result | e].
  - destruct (Route.isStreamClosed st) eqn:E; [exact H |].
    destruct (Onboarding.success result).
    + now apply closedTogether_sendIfOpen, closedTogether_sendSteps.
    + now apply closedTogether_sendIfOpen.
  - now apply closedTogether_sendIfOpen.
Qed.

End Controller.

(** X12.  When the stream accepts every chunk, [controller.close()] has
    been called by the end of [start], whatever the service returned and
    whenever the client disconnects: by the listener of the disconnection,
    and otherwise by the [finally] block. *)
Theorem controller_closed_at_end (c : Route.Client) (clock : nat -> string)
    (service : Js.res Onboarding.OnboardingResult) :
  (forall k, Route.enqueueThrows c k = false) ->
  Route.controllerClosed (Route.start c clock service) = true.
Proof.
  intros accepts. unfold Route.start.
  assert (H0 : Props.closedTogether Route.opened) by (intros H; discriminate H).
  apply (closedTogether_send c accepts (Route.progress "Starting repository analysis...")),
        (closedTogether_suspend c 0) in H0.
  apply (closedTogether_send c accepts (Route.progress "Gathering repository data...")),
        (closedTogether_suspend c 1), (closedTogether_suspend c 2) in H0.
  apply (closedTogether_respond c clock accepts service) in H0.
  cbv zeta. unfold Route.finish.
  destruct (Route.isStreamClosed (Route.respond _ _ _ _)) eqn:E;
    [exact (H0 E) | reflexivity].
Qed.

Lemma controller_closed_at_end_witness :
  Route.controllerClosed
    (Route.start Cases.leavesLate Samples.clock
       (Js.Ok (@Onboarding.generateComprehensiveOnboarding Js.node Samples.texts
                 (Samples.world Samples.remoteOk (Samples.aiAnswers 1500))
                 "acme" "demo")))
  = true.
Proof.
  apply controller_closed_at_end. intros k. reflexivity.
Defined.

(** X13.  The steps with percentages are sent only after the service has
    returned a successful result, and each is one of the four fixed
    steps: they do not follow the progress of the analysis. *)
Theorem steps_follow_success (c : Route.Client) (clock : nat -> string)
    (service : Js.res Onboarding.OnboardingResult)
    (content timestamp : string) (percent : nat) :
  In (Route.step content timestamp percent)
     (Route.enqueued (Route.start c clock service)) ->
  Spec.succeeds service = true /\ In (content, percent) Route.progressSteps.
Proof.
  intros Hin. destruct (start_prefix c clock service) as [n Hn].
  rewrite Hn in Hin. apply in_firstn in Hin.
  unfold Spec.script in Hin. cbn [app] in Hin.
  destruct Hin as [Hin | [Hin | Hin]]; [discriminate | discriminate |].
  apply in_app_or in Hin. destruct Hin as [Hin | [Hin | []]].
  - destruct (Spec.succeeds service); [| destruct Hin].
    split; [reflexivity |].
    cbn in Hin. cbn.
    decompose [or] Hin; try contradiction;
      match goal with H : Route.step _ _ _ = _ |- _ => inversion H end; tauto.
  - exfalso. unfold Spec.terminalOf in Hin.
    destruct service as [r | e]; [destruct (Onboarding.success r) |]; discriminate.
Qed.

Lemma steps_follow_success_witness :
  Spec.succeeds
    (Js.Ok (@Onboarding.generateComprehensiveOnboarding Js.node Samples.texts
              (Samples.world Samples.remoteOk (Samples.aiAnswers 1500)) "acme" "demo"))
  = true
  /\ In ("Processing key files...", 50) Route.progressSteps.
Proof.
  apply (steps_follow_success Samples.stays Samples.clock _ _ (Samples.clock 1)).
  vm_compute. auto.
Defined.

(** ** Frameworks and project structure *)

(** X14.  A manifest with a truthy [react] dependency is reported as
    React, whatever other frameworks it names (Next.js among them) and
    whatever a requirements file says. *)
Theorem react_named_first `{RT : Js.Runtime}
    (files : list Onboarding.KeyFile.t) (language : string)
    (packageJson : Onboarding.KeyFile.t) (pkg deps : Js.json) :
  find (fun f => String.eqb (Onboarding.KeyFile.path f) "package.json") files
    = Some packageJson ->
  Onboarding.KeyFile.content packageJson <> EmptyString ->
  Js.JSON_parse (Onboarding.KeyFile.content packageJson) = Js.Ok pkg ->
  Js.get pkg "dependencies" = Js.Ok (Some deps) ->
  Js.truthy deps = true ->
  Js.truthy_opt (Js.prop deps "react") = true ->
  Onboarding.detectFramework files language = Some "React".
Proof.
  intros Hf Hc Hp Hd Ht Hr. unfold Onboarding.detectFramework. rewrite Hf.
  rewrite (is_empty_false _ Hc). unfold Onboarding.packageFramework.
  rewrite Hp. cbn [Js.bind]. rewrite Hd. cbn [Js.bind]. rewrite Ht.
  unfold Onboarding.firstTruthy, Onboarding.frameworkTable. cbn [find fst].
  now rewrite Hr.
Qed.

Lemma react_named_first_witness :
  @Onboarding.detectFramework Js.node [Cases.manifestFile] "TypeScript" = Some "React".
Proof.
  apply (@react_named_first Js.node [Cases.manifestFile] "TypeScript" Cases.manifestFile
           (Js.JObj [("name", Js.JStr "demo");
                     ("scripts", Js.JObj [("dev", Js.JStr "next dev");
                                          ("build", Js.JStr "next build")]);
                     ("dependencies", Js.JObj [("react", Js.JStr "18.2.0");
                                               ("next", Js.JStr "14.0.0")])])
           (Js.JObj [("react", Js.JStr "18.2.0"); ("next", Js.JStr "14.0.0")])).
  - reflexivity.
  - vm_compute. discriminate.
  - vm_compute. reflexivity.
  - vm_compute. reflexivity.
  - reflexivity.
  - vm_compute. reflexivity.
Defined.

Section StructureValues.
Import Js.
Context {RT : Runtime}.

Lemma firstTruthy_tests d tf :
  DeepAnalyzer.firstTruthy d [("jest", "Jest"); ("mocha", "Mocha"); ("cypress", "Cypress")]
    = Some tf ->
  tf = "Jest" \/ tf = "Mocha" \/ tf = "Cypress".
Proof.
  intros H. apply firstTruthy_in in H. cbn in H.
  decompose [or] H; try contradiction; subst; tauto.
Qed.

Ltac keep_fields :=
  apply keeps_update; intros v0 Hv0; exact Hv0.

Lemma packageStructure_values text :
  keeps Props.knownValues (DeepAnalyzer.packageStructure text).
Proof.
  unfold DeepAnalyzer.packageStructure.
  apply keeps_bind; [apply keeps_lift | intros pkg].
  apply keeps_bind.
  { apply keeps_update. intros v0 [_ [Hb Ht]]. split; [| split]; cbn; tauto. }
  intros _.
  apply keeps_bind; [apply keeps_lift | intros pkgDeps].
  apply keeps_bind.
  { destruct pkgDeps as [d |]; [| apply keeps_ret].
    apply keeps_when. apply keeps_bind; [keep_fields | intros _].
    destruct (DeepAnalyzer.firstTruthy d _); [keep_fields | apply keeps_ret]. }
  intros _.
  apply keeps_bind; [apply keeps_lift | intros pkgScripts].
  apply keeps_bind.
  { destruct pkgScripts as [sc |]; [| apply keeps_ret].
    apply keeps_when. apply keeps_bind; [keep_fields | intros _].
    apply keeps_bind; [apply keeps_lift | intros [|]].
    - apply keeps_update. intros v0 [Hl [_ Ht]]. split; [| split]; cbn; tauto.
    - apply keeps_bind; [apply keeps_lift | intros [|]].
      + apply keeps_update. intros v0 [Hl [_ Ht]]. split; [| split]; cbn; tauto.
      + apply keeps_when.
        apply keeps_update. intros v0 [Hl [_ Ht]]. split; [| split]; cbn; tauto. }
  intros _.
  apply keeps_bind; [apply keeps_lift | intros pkgDev].
  destruct pkgDev as [d |]; [| apply keeps_ret].
  apply keeps_when.
  destruct (DeepAnalyzer.firstTruthy d _) as [tf |] eqn:E; [| apply keeps_ret].
  apply keeps_update. intros v0 [Hl [Hb _]]. split; [| split]; cbn; try tauto.
  destruct (firstTruthy_tests d tf E) as [-> | [-> | ->]]; tauto.
Qed.

Lemma pythonStructure_language text v :
  DeepAnalyzer.v_language (DeepAnalyzer.pythonStructure text v) = "Python"
  /\ DeepAnalyzer.v_buildSystem (DeepAnalyzer.pythonStructure text v)
     = DeepAnalyzer.v_buildSystem v
  /\ DeepAnalyzer.v_testFramework (DeepAnalyzer.pythonStructure text v)
     = DeepAnalyzer.v_testFramework v
  /\ DeepAnalyzer.v_dependencies (DeepAnalyzer.pythonStructure text v)
     = DeepAnalyzer.v_dependencies v
  /\ DeepAnalyzer.v_scripts (DeepAnalyzer.pythonStructure text v)
     = DeepAnalyzer.v_scripts v.
Proof.
  unfold DeepAnalyzer.pythonStructure.
  repeat match goal with
         | |- context [if ?b then _ else _] => destruct b
         end; cbn; tauto.
Qed.

Lemma manifestVars_values keyFiles :
  Props.knownValues (DeepAnalyzer.manifestVars keyFiles).
Proof.
  unfold DeepAnalyzer.manifestVars.
  assert (H0 : Props.knownValues DeepAnalyzer.initialVars)
    by (unfold Props.knownValues; cbn; tauto).
  assert (H1 : Props.knownValues
                 match find (fun f => String.eqb (DeepAnalyzer.filename f) "package.json")
                         keyFiles with
                 | Some packageJson =>
                     snd (se_try (DeepAnalyzer.packageStructure
                                    (DeepAnalyzer.content packageJson))
                            (fun _ => se_ret tt) DeepAnalyzer.initialVars)
                 | None => DeepAnalyzer.initialVars
                 end).
  { destruct (find _ keyFiles) as [packageJson |]; [| exact H0].
    apply (keeps_try Props.knownValues); [apply packageStructure_values | | exact H0].
    intros e. apply keeps_ret. }
  destruct (find (fun f => String.eqb (DeepAnalyzer.filename f) "requirements.txt")
              keyFiles) as [rq |]; [| exact H1].
  destruct H1 as [_ [Hb Ht]].
  destruct (pythonStructure_language (DeepAnalyzer.content rq)
              match find (fun f => String.eqb (DeepAnalyzer.filename f) "package.json")
                      keyFiles with
              | Some packageJson =>
                  snd (se_try (DeepAnalyzer.packageStructure
                                 (DeepAnalyzer.content packageJson))
                         (fun _ => se_ret tt) DeepAnalyzer.initialVars)
              | None => DeepAnalyzer.initialVars
              end) as [El [Eb [Et _]]].
  unfold Props.knownValues. rewrite El, Eb, Et. cbn [In]. tauto.
Qed.

Lemma find_present {A} (p : A -> bool) (l : list A) (x : A) :
  In x l -> p x = true -> exists y, find p l = Some y.
Proof.
  intros Hin Hp. destruct (find p l) as [y |] eqn:E; [now exists y |].
  now rewrite (find_none p l E x Hin) in Hp.
Qed.

End StructureValues.

(** X15.  The structure's language, build system and test framework
    only take their fixed values: the language one of Unknown,
    JavaScript/TypeScript and Python, the build system one of Unknown,
    Webpack, Vite and Custom, the test framework none or one of Jest,
    Mocha and Cypress. *)
Theorem structure_fields_known `{RT : Js.Runtime}
    (keyFiles : list DeepAnalyzer.FileAnalysis) :
  let s := DeepAnalyzer.analyzeProjectStructure keyFiles in
  In (DeepAnalyzer.ProjectStructure.language s)
     ["Unknown"; "JavaScript/TypeScript"; "Python"]
  /\ In (DeepAnalyzer.ProjectStructure.buildSystem s)
        ["Unknown"; "Webpack"; "Vite"; "Custom"]
  /\ In (DeepAnalyzer.ProjectStructure.testFramework s)
        [None; Some "Jest"; Some "Mocha"; Some "Cypress"].
Proof. exact (manifestVars_values keyFiles). Qed.

Section StructureOrder.
Import Js.
Context {RT : Runtime}.

Lemma packageStructure_restart text pkg v :
  JSON_parse text = Ok pkg ->
  DeepAnalyzer.packageStructure text v
  = DeepAnalyzer.packageStructure text
      (DeepAnalyzer.setLanguage "JavaScript/TypeScript" v).
Proof.
  intros Hp. unfold DeepAnalyzer.packageStructure.
  unfold se_bind at 1 2. unfold se_lift at 1. unfold se_update at 1.
  symmetry.
  unfold se_bind at 1 2. unfold se_lift at 1. unfold se_update at 1.
  rewrite Hp. reflexivity.
Qed.

Lemma packageStructure_languageSet text :
  keeps Props.languageSet (DeepAnalyzer.packageStructure text).
Proof.
  unfold DeepAnalyzer.packageStructure.
  repeat first
    [ apply keeps_lift
    | apply keeps_ret
    | apply keeps_when
    | apply keeps_update; intros v0 Hv0; first [exact Hv0 | discriminate]
    | apply keeps_bind; [| intros ?]
    | match goal with
      | |- keeps _ (match ?x with Some _ => _ | None => _ end) => destruct x
      | |- keeps _ (if ?x then _ else _) => destruct x
      end ].
Qed.

Lemma packageStructure_languageFirst text :
  Props.languageFirst
    (snd (se_try (DeepAnalyzer.packageStructure text) (fun _ => se_ret tt)
            DeepAnalyzer.initialVars)).
Proof.
  destruct (JSON_parse text) as [pkg | e] eqn:Hp.
  - unfold se_try. rewrite (packageStructure_restart text pkg _ Hp).
    pose proof (packageStructure_languageSet text
                  (DeepAnalyzer.setLanguage "JavaScript/TypeScript"
                     DeepAnalyzer.initialVars)) as Hk.
    destruct (DeepAnalyzer.packageStructure text _) as [[u | e] v'];
      cbn in *; intros Hl; exfalso; apply Hk; try exact Hl; discriminate.
  - unfold se_try, DeepAnalyzer.packageStructure.
    unfold se_bind at 1. unfold se_lift at 1. rewrite Hp. cbn. intros _. reflexivity.
Qed.

End StructureOrder.

(** X16.  A file named [requirements.txt] makes the language Python,
    also beside a [package.json]; the build system, the test framework,
    the dependencies and the scripts stay those read from the
    [package.json]. *)
Theorem requirements_set_python `{RT : Js.Runtime}
    (keyFiles : list DeepAnalyzer.FileAnalysis) (f : DeepAnalyzer.FileAnalysis) :
  In f keyFiles ->
  DeepAnalyzer.filename f = "requirements.txt" ->
  let s := DeepAnalyzer.analyzeProjectStructure keyFiles in
  let js :=
    DeepAnalyzer.analyzeProjectStructure
      (filter (fun g => negb (String.eqb (DeepAnalyzer.filename g) "requirements.txt"))
         keyFiles) in
  DeepAnalyzer.ProjectStructure.language s = "Python"
  /\ DeepAnalyzer.ProjectStructure.buildSystem s
     = DeepAnalyzer.ProjectStructure.buildSystem js
  /\ DeepAnalyzer.ProjectStructure.testFramework s
     = DeepAnalyzer.ProjectStructure.testFramework js
  /\ DeepAnalyzer.ProjectStructure.dependencies s
     = DeepAnalyzer.ProjectStructure.dependencies js
  /\ DeepAnalyzer.ProjectStructure.scripts s
     = DeepAnalyzer.ProjectStructure.scripts js.
Proof.
  intros Hin Hname. cbv zeta.
  unfold DeepAnalyzer.analyzeProjectStructure.
  cbn [DeepAnalyzer.ProjectStructure.language DeepAnalyzer.ProjectStructure.buildSystem
       DeepAnalyzer.ProjectStructure.testFramework
       DeepAnalyzer.ProjectStructure.dependencies DeepAnalyzer.ProjectStructure.scripts].
  unfold DeepAnalyzer.manifestVars.
  rewrite (find_filtered_out
             (fun g => String.eqb (DeepAnalyzer.filename g) "requirements.txt")).
  rewrite (find_filter (fun g => String.eqb (DeepAnalyzer.filename g) "package.json")
             (fun g => negb (String.eqb (DeepAnalyzer.filename g) "requirements.txt"))).
  2: { intros x Hx. apply String.eqb_eq in Hx. rewrite Hx. reflexivity. }
  destruct (find_present
              (fun g => String.eqb (DeepAnalyzer.filename g) "requirements.txt")
              keyFiles f Hin) as [rq Hrq].
  { rewrite Hname. reflexivity. }
  rewrite Hrq.
  match goal with
  | |- context [DeepAnalyzer.pythonStructure ?t ?v] =>
      destruct (pythonStructure_language t v) as [El [Eb [Et [Ed Es]]]]
  end.
  rewrite El, Eb, Et, Ed, Es. repeat split.
Qed.

Lemma requirements_set_python_witness :
  DeepAnalyzer.ProjectStructure.language
    (@DeepAnalyzer.analyzeProjectStructure Js.node Cases.bothManifests) = "Python"
  /\ DeepAnalyzer.ProjectStructure.buildSystem
       (@DeepAnalyzer.analyzeProjectStructure Js.node Cases.bothManifests) = "Custom".
Proof.
  destruct (@requirements_set_python Js.node Cases.bothManifests
              (Samples.fileOf "requirements.txt" "flask==3.0.0"))
    as [Hl [Hb _]].
  - right. left. reflexivity.
  - vm_compute. reflexivity.
  - split; [exact Hl |]. rewrite Hb. vm_compute. reflexivity.
Defined.

(** X17.  Nothing is derived before the language: a structure whose
    language is Unknown has every other field at its initial value (no
    framework, build system, test framework, dependencies or scripts). *)
Theorem unknown_language_nothing_derived `{RT : Js.Runtime}
    (keyFiles : list DeepAnalyzer.FileAnalysis) :
  let s := DeepAnalyzer.analyzeProjectStructure keyFiles in
  DeepAnalyzer.ProjectStructure.language s = "Unknown" ->
  DeepAnalyzer.ProjectStructure.framework s = "Unknown"
  /\ DeepAnalyzer.ProjectStructure.buildSystem s = "Unknown"
  /\ DeepAnalyzer.ProjectStructure.testFramework s = None
  /\ DeepAnalyzer.ProjectStructure.dependencies s = []
  /\ DeepAnalyzer.ProjectStructure.scripts s = [].
Proof.
  cbv zeta. unfold DeepAnalyzer.analyzeProjectStructure.
  cbn [DeepAnalyzer.ProjectStructure.language DeepAnalyzer.ProjectStructure.buildSystem
       DeepAnalyzer.ProjectStructure.testFramework DeepAnalyzer.ProjectStructure.framework
       DeepAnalyzer.ProjectStructure.dependencies DeepAnalyzer.ProjectStructure.scripts].
  assert (H : Props.languageFirst (DeepAnalyzer.manifestVars keyFiles)).
  { unfold DeepAnalyzer.manifestVars.
    destruct (find (fun f => String.eqb (DeepAnalyzer.filename f) "requirements.txt")
                keyFiles) as [rq |].
    - intros Hl.
      match type of Hl with
      | context [DeepAnalyzer.pythonStructure ?t ?v] =>
          destruct (pythonStructure_language t v) as [El _]
      end.
      rewrite El in Hl. discriminate Hl.
    - destruct (find _ keyFiles) as [packageJson |];
        [apply packageStructure_languageFirst | intros _; reflexivity]. }
  intros Hl. rewrite (H Hl). cbn. repeat split.
Qed.

Lemma unknown_language_nothing_derived_witness :
  DeepAnalyzer.ProjectStructure.dependencies
    (@DeepAnalyzer.analyzeProjectStructure Js.node
       [Samples.fileOf "package.json" "{not json"]) = [].
Proof.
  apply (@unknown_language_nothing_derived Js.node
           [Samples.fileOf "package.json" "{not json"]).
  vm_compute. reflexivity.
Defined.

(** ** Tables of counts *)
Section CountingFacts.
Import Counting.

Lemma count_of_bump_same k t : count_of k (bump k t) = count_of k t + 1.
Proof.
  induction t as [| [k' n] rest IH]; cbn.
  - now rewrite String.eqb_refl.
  - destruct (String.eqb k' k) eqn:E; cbn; rewrite E; [reflexivity | exact IH].
Qed.

Lemma count_of_bump_other k k' t :
  k <> k' -> count_of k (bump k' t) = count_of k t.
Proof.
  intros Hne. induction t as [| [k0 n] rest IH]; cbn.
  - destruct (String.eqb k' k) eqn:E; [| reflexivity].
    apply String.eqb_eq in E. congruence.
  - destruct (String.eqb k0 k') eqn:E'; cbn; [| now rewrite IH].
    apply String.eqb_eq in E'. subst k0.
    destruct (String.eqb k' k) eqn:E; [| reflexivity].
    apply String.eqb_eq in E. congruence.
Qed.

Lemma bump_keys k t x :
  In x (map fst (bump k t)) -> x = k \/ In x (map fst t).
Proof.
  induction t as [| [k' n] rest IH]; cbn.
  - intros [H | []]. now left.
  - destruct (String.eqb k' k) eqn:E; cbn; [tauto |].
    intros [H | H]; [tauto |]. destruct (IH H); tauto.
Qed.

Lemma bump_NoDup k t : NoDup (map fst t) -> NoDup (map fst (bump k t)).
Proof.
  induction t as [| [k' n] rest IH]; cbn; intros H.
  - constructor; [intros [] | constructor].
  - inversion H as [| x l Hx Hl]. subst.
    destruct (String.eqb k' k) eqn:E; cbn; [now constructor |].
    constructor; [| now apply IH].
    intros Hin. apply bump_keys in Hin. destruct Hin as [-> | Hin]; [| tauto].
    now rewrite String.eqb_refl in E.
Qed.

Lemma bump_positive k t :
  (forall x, In x t -> 1 <= snd x) -> forall x, In x (bump k t) -> 1 <= snd x.
Proof.
  induction t as [| [k' n] rest IH]; cbn; intros H x.
  - intros [<- | []]. cbn. lia.
  - destruct (String.eqb k' k); cbn.
    + intros [<- | Hx]; [cbn; lia | apply H; tauto].
    + intros [<- | Hx]; [apply (H (k', n)); tauto |].
      apply IH; [intros y Hy; apply H; tauto | exact Hx].
Qed.

Lemma count_of_entry k n t :
  NoDup (map fst t) -> In (k, n) t -> count_of k t = n.
Proof.
  induction t as [| [k' n'] rest IH]; cbn; [tauto |].
  intros Hd [H | H].
  - inversion H. subst. now rewrite String.eqb_refl.
  - inversion Hd as [| x l Hx Hl]. subst.
    destruct (String.eqb k' k) eqn:E; [| now apply IH].
    apply String.eqb_eq in E. subst k'.
    exfalso. apply Hx. change k with (fst (k, n)). now apply in_map.
Qed.

Lemma entry_of_count k t :
  1 <= count_of k t -> In (k, count_of k t) t.
Proof.
  induction t as [| [k' n'] rest IH]; cbn; [lia |].
  destruct (String.eqb k' k) eqn:E.
  - apply String.eqb_eq in E. subst. now left.
  - intros H. right. now apply IH.
Qed.

Lemma insert_desc_In x l y : In y (insert_desc x l) <-> y = x \/ In y l.
Proof.
  induction l as [| z rest IH]; cbn.
  - split; intros [H | H]; auto.
  - destruct (snd z <=? snd x)%nat; cbn; [split; intros [H | H]; auto |].
    rewrite IH. tauto.
Qed.

Lemma insert_desc_length x l : length (insert_desc x l) = S (length l).
Proof.
  induction l as [| z rest IH]; cbn; [reflexivity |].
  destruct (snd z <=? snd x)%nat; cbn; [reflexivity | now rewrite IH].
Qed.

Lemma insert_desc_descending x l : descending l -> descending (insert_desc x l).
Proof.
  induction l as [| z rest IH]; cbn.
  - intros _. split; [intros y [] | exact I].
  - intros [Hz Hr]. destruct (snd z <=? snd x)%nat eqn:E; cbn.
    + apply Nat.leb_le in E. split; [| split; assumption].
      intros y [<- | Hy]; [exact E |]. specialize (Hz y Hy). lia.
    + apply Nat.leb_gt in E. split; [| now apply IH].
      intros y Hy. apply insert_desc_In in Hy.
      destruct Hy as [-> | Hy]; [lia | now apply Hz].
Qed.

Lemma sort_desc_In l y : In y (sort_desc l) <-> In y l.
Proof.
  induction l as [| x rest IH]; [cbn; tauto |].
  change (sort_desc (x :: rest)) with (insert_desc x (sort_desc rest)).
  rewrite insert_desc_In, IH. cbn. split; intros [H | H]; auto.
Qed.

Lemma sort_desc_length l : length (sort_desc l) = length l.
Proof.
  induction l as [| x rest IH]; [reflexivity |].
  change (sort_desc (x :: rest)) with (insert_desc x (sort_desc rest)).
  rewrite insert_desc_length, IH. reflexivity.
Qed.

Lemma sort_desc_descending l : descending (sort_desc l).
Proof.
  induction l as [| x rest IH]; [exact I |].
  change (sort_desc (x :: rest)) with (insert_desc x (sort_desc rest)).
  now apply insert_desc_descending.
Qed.

Lemma descending_firstn n : forall l, descending l -> descending (firstn n l).
Proof.
  induction n as [| n IH]; intros [| x rest]; cbn; try tauto.
  intros [Hx Hr]. split; [| now apply IH].
  intros y Hy. apply Hx. now apply in_firstn in Hy.
Qed.

(** An entry left out by [slice(0, n)] counts no more than the entries
    kept, of which there are [n]. *)
Lemma descending_cut n : forall l x,
  descending l -> In x l ->
  In x (firstn n l)
  \/ (length (firstn n l) = n /\ forall y, In y (firstn n l) -> snd x <= snd y).
Proof.
  induction n as [| n IH]; intros l x Hd Hin.
  - right. split; [reflexivity | intros y []].
  - destruct l as [| z rest]; [destruct Hin |].
    cbn [firstn]. destruct Hd as [Hz Hr].
    destruct Hin as [<- | Hin]; [left; now left |].
    destruct (IH rest x Hr Hin) as [H | [Hlen Hall]]; [left; now right |].
    right. split; [cbn; now rewrite Hlen |].
    intros y [<- | Hy]; [now apply Hz | now apply Hall].
Qed.

Lemma fold_bump_count (p : string -> bool) (ks : list string) :
  NoDup ks -> forall t k,
  count_of k (fold_left (fun t k' => if p k' then bump k' t else t) ks t)
  = count_of k t + (if (existsb (String.eqb k) ks && p k)%bool then 1 else 0).
Proof.
  induction ks as [| a rest IH]; intros Hd t k; cbn [fold_left existsb andb];
    [lia |].
  inversion Hd as [| x l Ha Hr]. subst.
  rewrite (IH Hr).
  destruct (String.eqb k a) eqn:E.
  - apply String.eqb_eq in E. subst a.
    assert (Hn : existsb (String.eqb k) rest = false).
    { destruct (existsb (String.eqb k) rest) eqn:Ex; [| reflexivity].
      apply existsb_exists in Ex. destruct Ex as [y [Hy Hk]].
      apply String.eqb_eq in Hk. subst y. contradiction. }
    rewrite Hn. cbn [orb andb].
    destruct (p k); [rewrite count_of_bump_same; lia | lia].
  - cbn [orb]. apply String.eqb_neq in E.
    destruct (p a); [now rewrite (count_of_bump_other k a t E) | reflexivity].
Qed.

Lemma fold_bump_keys (p : string -> bool) (ks : list string) : forall t,
  NoDup (map fst t) /\ (forall x, In x t -> 1 <= snd x) ->
  NoDup (map fst (fold_left (fun t k' => if p k' then bump k' t else t) ks t))
  /\ (forall x,
        In x (fold_left (fun t k' => if p k' then bump k' t else t) ks t) ->
        1 <= snd x).
Proof.
  induction ks as [| a rest IH]; intros t H; cbn [fold_left]; [exact H |].
  apply IH. destruct (p a); [| exact H].
  destruct H as [Hd Hp]. split; [now apply bump_NoDup | now apply bump_positive].
Qed.

End CountingFacts.

(** ** Issues and commits *)
Section PatternFacts.
Import Js Counting.

Lemma issueTypes_count k issues : forall t,
  count_of k (fold_left Patterns.countIssue issues t)
  = count_of k t + length (filter (Props.mentions k) issues).
Proof.
  induction issues as [| i rest IH]; intros t; cbn [fold_left filter length];
    [lia |].
  rewrite IH. unfold Patterns.countIssue.
  rewrite (fold_bump_count (fun k' => includes (Patterns.issueText i) k')).
  - fold (Props.mentions k i). destruct (Props.mentions k i); cbn [length]; lia.
  - unfold Patterns.commonKeywords.
    repeat constructor; cbn; intuition discriminate.
Qed.

Lemma issueTypes_entries issues : forall t,
  NoDup (map fst t) /\ (forall x, In x t -> 1 <= snd x) ->
  NoDup (map fst (fold_left Patterns.countIssue issues t))
  /\ (forall x, In x (fold_left Patterns.countIssue issues t) -> 1 <= snd x).
Proof.
  induction issues as [| i rest IH]; intros t H; cbn [fold_left]; [exact H |].
  apply IH. unfold Patterns.countIssue.
  now apply (fold_bump_keys (fun k' => includes (Patterns.issueText i) k')).
Qed.

Lemma issueTypes_entry issues k n :
  In (k, n) (Patterns.issueTypes issues) ->
  In k Patterns.commonKeywords
  /\ 1 <= n
  /\ n = length (filter (fun i => includes (Patterns.issueText i) k) issues).
Proof.
  intros Hin. unfold Patterns.issueTypes in *.
  destruct (issueTypes_entries issues []) as [Hd Hp].
  { split; [constructor | intros x []]. }
  pose proof (Hp _ Hin) as Hn. cbn in Hn.
  pose proof (count_of_entry k n _ Hd Hin) as Hc.
  rewrite issueTypes_count in Hc. cbn [count_of] in Hc.
  assert (Hk : existsb (String.eqb k) Patterns.commonKeywords = true).
  { destruct (existsb (String.eqb k) Patterns.commonKeywords) eqn:E; [reflexivity |].
    exfalso. assert (Hz : length (filter (Props.mentions k) issues) = 0); [| lia].
    clear -E. induction issues as [| i rest IH]; [reflexivity |].
    cbn [filter]. unfold Props.mentions at 1. rewrite E. exact IH. }
  split; [| split; [exact Hn |]].
  - apply existsb_exists in Hk. destruct Hk as [y [Hy Hk]].
    apply String.eqb_eq in Hk. now subst y.
  - rewrite <- Hc. cbn. f_equal. apply filter_ext. intros i.
    unfold Props.mentions. now rewrite Hk.
Qed.

Lemma issueTypes_present issues k :
  In k Patterns.commonKeywords ->
  1 <= length (filter (fun i => includes (Patterns.issueText i) k) issues) ->
  In (k, length (filter (fun i => includes (Patterns.issueText i) k) issues))
     (Patterns.issueTypes issues).
Proof.
  intros Hk Hn.
  assert (Hc : count_of k (Patterns.issueTypes issues)
               = length (filter (fun i => includes (Patterns.issueText i) k) issues)).
  { unfold Patterns.issueTypes. rewrite issueTypes_count. cbn. f_equal.
    apply filter_ext. intros i. unfold Props.mentions.
    assert (He : existsb (String.eqb k) Patterns.commonKeywords = true).
    { apply existsb_exists. exists k. split; [exact Hk | apply String.eqb_refl]. }
    now rewrite He. }
  rewrite <- Hc. apply entry_of_count. lia.
Qed.

Lemma recentCommits_length now commits : forall recent,
  Patterns.recentCommits now commits = Ok recent -> length recent <= length commits.
Proof.
  induction commits as [| c rest IH]; cbn; intros recent H.
  - inversion H. cbn. lia.
  - destruct (Patterns.isRecent now c) as [keep | e]; [| discriminate]. cbn in H.
    destruct (Patterns.recentCommits now rest) as [l | e]; [| discriminate].
    cbn in H. inversion H. specialize (IH l eq_refl).
    destruct keep; cbn; lia.
Qed.

Lemma recentCommits_throws now commits :
  is_ok (Patterns.recentCommits now commits) = false
  <-> exists c, In c commits /\ Patterns.author_time c = None.
Proof.
  induction commits as [| c rest IH]; cbn.
  - split; [discriminate | intros [c [[] _]]].
  - unfold Patterns.isRecent at 1.
    destruct (Patterns.author_time c) as [[t |] |] eqn:E; cbn.
    + destruct (Patterns.recentCommits now rest) as [l | e]; cbn in *.
      * split; [discriminate |]. intros [c' [[<- | Hin] Hc]]; [congruence |].
        apply IH. now exists c'.
      * split; [| reflexivity]. intros _.
        destruct (proj1 IH eq_refl) as [c' [Hin Hc]]. exists c'. tauto.
    + destruct (Patterns.recentCommits now rest) as [l | e]; cbn in *.
      * split; [discriminate |]. intros [c' [[<- | Hin] Hc]]; [congruence |].
        apply IH. now exists c'.
      * split; [| reflexivity]. intros _.
        destruct (proj1 IH eq_refl) as [c' [Hin Hc]]. exists c'. tauto.
    + split; [| reflexivity]. intros _. exists c. tauto.
Qed.

Lemma frequency_labels now commits label :
  Patterns.analyzeCommitFrequency now commits = Ok label ->
  (includes label "Very active" = true ->
   exists l, commits = Some l /\ 20 <= length l)
  /\ label <> "Unknown".
Proof.
  unfold Patterns.analyzeCommitFrequency.
  destruct commits as [[| c rest] |].
  - intros H. inversion H. subst label.
    split; [intros Hx; vm_compute in Hx; discriminate Hx | discriminate].
  - destruct (Patterns.recentCommits now (c :: rest)) as [recent | e] eqn:E;
      [| discriminate].
    unfold bind. cbv beta zeta. intros H.
    match type of H with Ok ?x = _ => assert (Hl : x = label) by congruence end.
    clear H. subst label.
    apply recentCommits_length in E.
    destruct (20 <=? length recent)%nat eqn:E20.
    + apply Nat.leb_le in E20. split; [| discriminate].
      intros _. exists (c :: rest). split; [reflexivity | lia].
    + destruct (10 <=? length recent)%nat;
        [| destruct (5 <=? length recent)%nat];
        (split; [intros Hx; vm_compute in Hx; discriminate Hx | discriminate]).
  - intros H. inversion H. subst label.
    split; [intros Hx; vm_compute in Hx; discriminate Hx | discriminate].
Qed.

End PatternFacts.

(** X18.  The common issues are the three keywords met most often: at
    most three entries, counts not increasing, each for a keyword of the
    fixed list with the exact number of issues whose title or body holds
    it; a keyword left out is met no more often than the three shown. *)
Theorem common_issues_top_three (issues : list Patterns.Issue) :
  let shown := Patterns.topIssueTypes issues in
  let occurrences k :=
    length (filter (fun i => Js.includes (Patterns.issueText i) k) issues) in
  Patterns.analyzeCommonIssues (Some issues)
    = map (fun kc => fst kc +++ " (" +++ Js.of_nat (snd kc) +++ " issues)") shown
  /\ length shown <= 3
  /\ Counting.descending shown
  /\ (forall k n, In (k, n) shown ->
        In k Patterns.commonKeywords /\ 1 <= n /\ n = occurrences k)
  /\ (forall k, In k Patterns.commonKeywords -> 1 <= occurrences k ->
        In (k, occurrences k) shown
        \/ (length shown = 3 /\ forall y, In y shown -> occurrences k <= snd y)).
Proof.
  cbv beta zeta. unfold Patterns.topIssueTypes.
  split; [| split; [| split; [| split]]].
  - destruct issues; reflexivity.
  - apply firstn_le_length.
  - apply descending_firstn, sort_desc_descending.
  - intros k n Hin. apply in_firstn in Hin.
    apply (proj1 (sort_desc_In _ _)) in Hin. now apply issueTypes_entry.
  - intros k Hk Hn.
    pose proof (issueTypes_present issues k Hk Hn) as Hin.
    apply (proj2 (sort_desc_In _ _)) in Hin.
    exact (descending_cut 3 _ _ (sort_desc_descending _) Hin).
Qed.

(** X19.  The insight on very active development is shown only when the
    commit call returned at least twenty commits. *)
Theorem very_active_needs_twenty (now : Z)
    (commits : Js.res (option (list Patterns.Commit)))
    (issues : Js.res (option (list Patterns.Issue)))
    (pullRequests : Js.res (option (list Js.json)))
    (repoInfo : Patterns.Info) (structure : DeepAnalyzer.ProjectStructure.t) :
  In "Very active development with frequent updates"
     (Patterns.generateKeyInsights repoInfo structure
        (Patterns.analyzeDevelopmentPatterns now commits issues pullRequests)) ->
  exists l, commits = Js.Ok (Some l) /\ 20 <= length l.
Proof.
  intros Hin.
  assert (Hv : Js.includes
                 (Patterns.commitFrequency
                    (Patterns.analyzeDevelopmentPatterns now commits issues pullRequests))
                 "Very active" = true).
  { unfold Patterns.generateKeyInsights in Hin.
    repeat (apply in_app_or in Hin; destruct Hin as [Hin | Hin]);
      repeat match type of Hin with
             | In _ (if ?b then _ else _) => destruct b eqn:?
             | In _ (match ?x with Some _ => _ | None => _ end) => destruct x
             end;
      try reflexivity;
      cbn in Hin; try contradiction;
      destruct Hin as [Hin | []]; discriminate Hin. }
  unfold Patterns.analyzeDevelopmentPatterns in Hv.
  destruct commits as [cs | e]; [| vm_compute in Hv; discriminate Hv].
  destruct issues as [iss | e]; [| vm_compute in Hv; discriminate Hv].
  destruct pullRequests as [prs | e]; [| vm_compute in Hv; discriminate Hv].
  cbn [Js.bind] in Hv.
  destruct (Patterns.analyzeCommitFrequency now cs) as [label | e] eqn:E;
    [| vm_compute in Hv; discriminate Hv].
  cbn [Js.bind Patterns.commitFrequency] in Hv.
  destruct (proj1 (frequency_labels now cs label E) Hv) as [l [-> Hl]].
  now exists l.
Qed.

Lemma very_active_needs_twenty_witness :
  exists l, Js.Ok (Some Cases.twentyCommits) = Js.Ok (Some l) /\ 20 <= length l.
Proof.
  apply (very_active_needs_twenty Cases.today (Js.Ok (Some Cases.twentyCommits))
           (Js.Ok None) (Js.Ok None) Cases.plainInfo Cases.noStructure).
  vm_compute. auto.
Defined.

(** X20.  The development patterns are all or nothing.  The frequency is
    ['Unknown'] exactly when one of the three calls failed or a commit of
    a non-empty list has no author, and then every field has its default:
    the counts of the calls that succeeded are dropped too. *)
Theorem patterns_all_or_nothing (now : Z)
    (commits : Js.res (option (list Patterns.Commit)))
    (issues : Js.res (option (list Patterns.Issue)))
    (pullRequests : Js.res (option (list Js.json))) :
  let p := Patterns.analyzeDevelopmentPatterns now commits issues pullRequests in
  (Patterns.commitFrequency p = "Unknown"
   <-> Js.is_ok commits = false \/ Js.is_ok issues = false
       \/ Js.is_ok pullRequests = false
       \/ exists l c, commits = Js.Ok (Some l) /\ In c l
                      /\ Patterns.author_time c = None)
  /\ (Patterns.commitFrequency p = "Unknown" -> p = Patterns.noPatterns).
Proof.
  cbv zeta. unfold Patterns.analyzeDevelopmentPatterns.
  destruct commits as [cs | e]; [| cbn; split; [split |]; auto].
  destruct issues as [iss | e]; [| cbn; split; [split |]; auto].
  destruct pullRequests as [prs | e]; [| cbn; split; [split |]; auto 6].
  cbn [Js.bind Js.is_ok].
  destruct (Patterns.analyzeCommitFrequency now cs) as [label | e] eqn:E;
    cbn [Js.bind Patterns.commitFrequency].
  - pose proof (proj2 (frequency_labels now cs label E)) as Hl.
    split; [split |]; try (intros H; contradiction).
    intros [H | [H | [H | [l [c [Hc [Hin Ha]]]]]]]; try discriminate H.
    exfalso. injection Hc as ->.
    unfold Patterns.analyzeCommitFrequency in E.
    destruct l as [| c0 rest]; [destruct Hin |].
    assert (Ht : Js.is_ok (Patterns.recentCommits now (c0 :: rest)) = false)
      by (apply recentCommits_throws; now exists c).
    destruct (Patterns.recentCommits now (c0 :: rest)); discriminate.
  - split; [split |]; try reflexivity. intros _.
    right. right. right.
    unfold Patterns.analyzeCommitFrequency in E.
    destruct cs as [[| c0 rest] |]; try discriminate E.
    destruct (Patterns.recentCommits now (c0 :: rest)) as [r | e'] eqn:Er;
      [discriminate E |].
    assert (Ht : Js.is_ok (Patterns.recentCommits now (c0 :: rest)) = false)
      by now rewrite Er.
    apply recentCommits_throws in Ht. destruct Ht as [c [Hin Ha]].
    now exists (c0 :: rest), c.
Qed.

Lemma patterns_all_or_nothing_witness :
  Patterns.analyzeDevelopmentPatterns Cases.today
    (Js.Ok (Some [Cases.recentCommit; Cases.orphanCommit]))
    (Js.Ok (Some Cases.someIssues)) (Js.Ok None)
  = Patterns.noPatterns.
Proof.
  apply (proj2 (patterns_all_or_nothing Cases.today
                  (Js.Ok (Some [Cases.recentCommit; Cases.orphanCommit]))
                  (Js.Ok (Some Cases.someIssues)) (Js.Ok None))).
  vm_compute. reflexivity.
Defined.

(** X21.  The older analyzer's advice always holds the line on the
    README, so it is never empty, and it has at most eight lines. *)
Theorem older_advice_bounded (structure : DeepAnalyzer.ProjectStructure.t)
    (devPatterns : Patterns.DevPatterns) (repoInfo : Patterns.Info) :
  let advice := Patterns.generateRecommendations structure devPatterns repoInfo in
  In "Read the README.md for project-specific setup instructions" advice
  /\ 1 <= length advice <= 8.
Proof.
  cbv zeta. unfold Patterns.generateRecommendations.
  split.
  - do 4 (apply in_or_app; right). apply in_or_app. left. now left.
  - rewrite !length_app.
    repeat match goal with
           | |- context [if ?b then _ else _] => destruct b
           | |- context [match ?x with Some _ => _ | None => _ end] => destruct x
           end; cbn; lia.
Qed.

(** ** Language distribution *)
Section LanguageStats.
Import Js Counting.

Lemma stats_count k items : forall t,
  count_of k
    (fold_left (fun stats item =>
                  match Report.statsKey item with
                  | Some k' => bump k' stats
                  | None => stats
                  end) items t)
  = count_of k t + length (filter (Report.countedAs k) items).
Proof.
  induction items as [| it rest IH]; intros t; cbn [fold_left filter length];
    [lia |].
  rewrite IH. unfold Report.countedAs at 2.
  destruct (Report.statsKey it) as [k' |]; [| lia].
  destruct (String.eqb k' k) eqn:E.
  - apply String.eqb_eq in E. subst k'. rewrite count_of_bump_same. cbn. lia.
  - apply String.eqb_neq in E. rewrite count_of_bump_other; [lia | congruence].
Qed.

Lemma stats_entries items : forall t,
  NoDup (map fst t) /\ (forall x, In x t -> 1 <= snd x) ->
  NoDup (map fst (fold_left (fun stats item =>
                               match Report.statsKey item with
                               | Some k' => bump k' stats
                               | None => stats
                               end) items t))
  /\ (forall x,
        In x (fold_left (fun stats item =>
                           match Report.statsKey item with
                           | Some k' => bump k' stats
                           | None => stats
                           end) items t) -> 1 <= snd x).
Proof.
  induction items as [| it rest IH]; intros t H; cbn [fold_left]; [exact H |].
  apply IH. destruct (Report.statsKey it); [| exact H].
  destruct H as [Hd Hp]. split; [now apply bump_NoDup | now apply bump_positive].
Qed.

End LanguageStats.

(** X22.  The language distribution of the fallback's technical
    analysis lists at most five languages, counts not increasing; each
    count is the exact number of files of the tree counted under the
    language (at least one), and a language left out has no more files
    than the five shown. *)
Theorem language_distribution (tree : list GitHub.TreeItem) :
  let items := Onboarding.analyzeCodeStructure tree in
  let shown := Report.topLanguages items in
  let files k := length (filter (Report.countedAs k) items) in
  length shown <= 5
  /\ Counting.descending shown
  /\ (forall k n, In (k, n) shown -> 1 <= n /\ n = files k)
  /\ (forall k, 1 <= files k ->
        In (k, files k) shown
        \/ (length shown = 5 /\ forall y, In y shown -> files k <= snd y)).
Proof.
  cbv beta zeta. unfold Report.topLanguages.
  set (items := Onboarding.analyzeCodeStructure tree).
  destruct (stats_entries items []) as [Hd Hp].
  { split; [constructor | intros x []]. }
  fold (Report.calculateLanguageStats items) in Hd, Hp.
  assert (Hc : forall k, Counting.count_of k (Report.calculateLanguageStats items)
                         = length (filter (Report.countedAs k) items)).
  { intros k. unfold Report.calculateLanguageStats. now rewrite stats_count. }
  split; [| split; [| split]].
  - apply firstn_le_length.
  - apply descending_firstn, sort_desc_descending.
  - intros k n Hin. apply in_firstn in Hin.
    apply (proj1 (sort_desc_In _ _)) in Hin.
    split; [exact (Hp _ Hin) |].
    rewrite <- Hc. symmetry. now apply count_of_entry.
  - intros k Hk. rewrite <- Hc in *.
    pose proof (entry_of_count k _ Hk) as Hin.
    apply (proj2 (sort_desc_In _ _)) in Hin.
    exact (descending_cut 5 _ _ (sort_desc_descending _) Hin).
Qed.

(** ** Reading back what [JSON.stringify] wrote *)
Section JsonFacts.
Import Js.

Lemma append_assoc a b c : (a +++ b) +++ c = a +++ (b +++ c).
Proof. induction a as [| x a IH]; cbn; [reflexivity | now rewrite IH]. Qed.

Lemma append_nil_r a : a +++ EmptyString = a.
Proof. induction a as [| x a IH]; cbn; [reflexivity | now rewrite IH]. Qed.

Lemma json_induction (P : json -> Prop) :
  P JNull -> (forall b, P (JBool b)) -> (forall lit, P (JNum lit)) ->
  (forall s, P (JStr s)) ->
  (forall l, Forall P l -> P (JArr l)) ->
  (forall ms, Forall (fun kv => P (snd kv)) ms -> P (JObj ms)) ->
  forall j, P j.
Proof.
  intros Hn Hb Hnum Hs Ha Ho.
  fix IH 1. intros [| b | lit | s | l | ms].
  - exact Hn.
  - apply Hb.
  - apply Hnum.
  - apply Hs.
  - apply Ha. induction l as [| x l IHl]; constructor; [apply IH | exact IHl].
  - apply Ho. induction ms as [| [k v] ms IHm]; constructor; [apply IH | exact IHm].
Qed.

(** One escaped character is read back as the character. *)
Lemma read_chars_char c t acc :
  read_chars (escape_char c +++ t) acc = read_chars t (String c acc).
Proof. destruct c as [[] [] [] [] [] [] [] []]; reflexivity. Qed.

Lemma read_chars_escape s : forall rest acc,
  read_chars (escape s +++ String "034" rest) acc = Some (rev_string acc s, rest).
Proof.
  induction s as [| c s IH]; intros rest acc.
  - reflexivity.
  - cbn [escape]. rewrite append_assoc, read_chars_char, IH. reflexivity.
Qed.

Lemma escape_char_no_newline c : Props.every Props.not_nl (escape_char c) = true.
Proof. destruct c as [[] [] [] [] [] [] [] []]; reflexivity. Qed.

Lemma every_append p a b :
  Props.every p (a +++ b) = (Props.every p a && Props.every p b)%bool.
Proof.
  induction a as [| x a IH]; cbn; [reflexivity |].
  rewrite IH. now rewrite andb_assoc.
Qed.

Lemma escape_no_newline s : Props.every Props.not_nl (escape s) = true.
Proof.
  induction s as [| c s IH]; [reflexivity |].
  cbn [escape]. now rewrite every_append, escape_char_no_newline, IH.
Qed.

End JsonFacts.

Section NumberFacts.
Import Js.

Lemma digits_of_uint u : Props.every is_digit (NilEmpty.string_of_uint u) = true.
Proof. induction u; cbn; auto. Qed.

Lemma of_nat_canonical p : Props.canonical (of_nat p) = true.
Proof.
  unfold of_nat.
  assert (Hu : Nat.to_uint p = Decimal.unorm (Nat.to_uint p)).
  { rewrite <- (DecimalNat.Unsigned.to_of (Nat.to_uint p)).
    now rewrite DecimalNat.Unsigned.of_to. }
  rewrite Hu. unfold Decimal.unorm.
  pose proof (DecimalFacts.nzhead_nonzero (Nat.to_uint p)) as Hnz.
  destruct (Decimal.nzhead (Nat.to_uint p)) as [| d | d | d | d | d | d | d | d | d | d];
    try reflexivity;
    try (cbn; apply digits_of_uint).
  exfalso. now apply (Hnz d).
Qed.

Lemma digit_not_mark c :
  is_digit c = true ->
  Ascii.eqb c "-" = false /\ Ascii.eqb c "." = false
  /\ (Ascii.eqb c "e" || Ascii.eqb c "E")%bool = false.
Proof.
  destruct c as [[] [] [] [] [] [] [] []]; vm_compute; intros H;
    try discriminate H; repeat split.
Qed.

Lemma cut_digits (p : ascii -> bool) s :
  (forall c, is_digit c = true -> p c = false) ->
  Props.every is_digit s = true -> cut p s = (s, EmptyString).
Proof.
  intros Hp. induction s as [| c r IH]; [reflexivity |].
  cbn [Props.every cut]. intros H. apply andb_prop in H. destruct H as [Hc Hr].
  now rewrite (Hp c Hc), (IH Hr).
Qed.

(** A text of digits is read as an integer: no sign, no fraction, no
    exponent. *)
Lemma decimal_of_digits lit :
  Props.every is_digit lit = true ->
  decimal_of lit = {| negative := false; digits := lit; exponent := 0 |}.
Proof.
  intros H. unfold decimal_of.
  assert (Hb : match lit with
               | String c r => if Ascii.eqb c "-" then (true, r) else (false, lit)
               | EmptyString => (false, lit)
               end = (false, lit)).
  { destruct lit as [| c r]; [reflexivity |].
    cbn [Props.every] in H. apply andb_prop in H. destruct H as [Hc _].
    destruct (digit_not_mark c Hc) as [-> _]. reflexivity. }
  rewrite Hb.
  rewrite (cut_digits (fun c => (Ascii.eqb c "e" || Ascii.eqb c "E")%bool) lit);
    [| intros c Hc; apply (digit_not_mark c Hc) | exact H].
  rewrite (cut_digits (fun c => Ascii.eqb c ".") lit);
    [| intros c Hc; apply (digit_not_mark c Hc) | exact H].
  now rewrite append_nil_r.
Qed.

Lemma digits_N_ge s acc : (acc <= digits_N s acc)%N.
Proof.
  revert acc. induction s as [| c r IH]; intros acc; cbn [digits_N]; [lia |].
  destruct (is_digit c); [| apply IH].
  eapply N.le_trans; [| apply IH]. lia.
Qed.

Lemma canonical_digits lit :
  Props.canonical lit = true -> Props.every is_digit lit = true.
Proof.
  destruct lit as [| c r]; [discriminate |]. unfold Props.canonical.
  destruct (Ascii.eqb c "0") eqn:E; [| now intros H].
  apply Ascii.eqb_eq in E. subst c. destruct r; [reflexivity | discriminate].
Qed.

(** A numeral without a leading zero denotes zero only when it is [0]:
    an integer is never rounded to zero. *)
Lemma canonical_zero lit :
  Props.canonical lit = true -> num_is_zero lit = String.eqb lit "0".
Proof.
  intros Hc. unfold num_is_zero.
  rewrite (decimal_of_digits lit (canonical_digits lit Hc)).
  cbn [digits exponent]. change (0 <=? 0)%Z with true.
  destruct lit as [| c r]; [discriminate |]. unfold Props.canonical in Hc.
  destruct (Ascii.eqb c "0") eqn:E0.
  - apply Ascii.eqb_eq in E0. subst c. destruct r; [reflexivity | discriminate].
  - apply andb_prop in Hc. destruct Hc as [Hd Hr].
    assert (Hs : String.eqb (String c r) "0" = false) by (cbn; now rewrite E0).
    rewrite Hs. cbn [digits_N]. rewrite Hd.
    assert (H1 : (1 <= digits_N r (0 * 10 + N.of_nat (nat_of_ascii c - 48)))%N).
    { eapply N.le_trans; [| apply digits_N_ge].
      revert Hd E0. clear.
      destruct c as [[] [] [] [] [] [] [] []]; vm_compute; intros Hd E0;
        first [discriminate Hd | discriminate E0 | (intros Hx; discriminate Hx)]. }
    destruct (Z.of_N (digits_N r (0 * 10 + N.of_nat (nat_of_ascii c - 48))) =? 0)%Z
      eqn:Ez; [| reflexivity].
    apply Z.eqb_eq in Ez. lia.
Qed.

Lemma of_nat_is_zero p : String.eqb (of_nat p) "0" = Nat.eqb p 0.
Proof.
  destruct p as [| p]; [reflexivity |]. cbn [Nat.eqb].
  apply String.eqb_neq. intros H.
  assert (Hu : Nat.to_uint (S p) = Decimal.D0 Decimal.Nil).
  { unfold of_nat in H.
    destruct (Nat.to_uint (S p)) as [| d | d | d | d | d | d | d | d | d | d];
      try discriminate H.
    destruct d; [reflexivity | | | | | | | | | |]; discriminate H. }
  pose proof (DecimalNat.Unsigned.of_to (S p)) as Ho. rewrite Hu in Ho.
  discriminate Ho.
Qed.

Lemma closes_facts c rest :
  Props.closes (String c rest) = true ->
  is_digit c = false /\ Ascii.eqb c "." = false /\ Ascii.eqb c "e" = false
  /\ Ascii.eqb c "E" = false /\ is_json_ws c = false.
Proof.
  destruct c as [[] [] [] [] [] [] [] []]; cbn; try discriminate; intros _;
    repeat split; reflexivity.
Qed.

Lemma take_digits_every r : forall rest,
  Props.every is_digit r = true -> Props.closes rest = true ->
  take_digits (r +++ rest) = (r, rest).
Proof.
  induction r as [| c r IH]; intros rest Hr Hc.
  - destruct rest as [| c' rest']; [reflexivity |].
    destruct (closes_facts c' rest' Hc) as [Hd _]. cbn. now rewrite Hd.
  - cbn in Hr. apply andb_prop in Hr. destruct Hr as [Hd Hr].
    cbn. rewrite Hd, (IH rest Hr Hc). reflexivity.
Qed.

Lemma read_frac_closed rest :
  Props.closes rest = true -> read_frac rest = Some (EmptyString, rest).
Proof.
  destruct rest as [| c' rest']; [reflexivity |]. intros Hc.
  destruct (closes_facts c' rest' Hc) as [_ [Hdot _]]. cbn. now rewrite Hdot.
Qed.

Lemma read_exp_closed rest :
  Props.closes rest = true -> read_exp rest = Some (EmptyString, rest).
Proof.
  destruct rest as [| c' rest']; [reflexivity |]. intros Hc.
  destruct (closes_facts c' rest' Hc) as [_ [_ [He [HE _]]]]. cbn.
  now rewrite He, HE.
Qed.

Lemma read_value_digit c text fuel :
  is_digit c = true ->
  read_value (S fuel) (String c text)
  = match read_number (String c text) with
    | Some (lit, r) => Some (JNum lit, r)
    | None => None
    end.
Proof.
  destruct c as [[] [] [] [] [] [] [] []]; cbn; try discriminate; intros _;
    reflexivity.
Qed.

Lemma canonical_digit c r : Props.canonical (String c r) = true -> is_digit c = true.
Proof.
  destruct c as [[] [] [] [] [] [] [] []]; cbn; try discriminate; intros _;
    reflexivity.
Qed.

Lemma read_value_number lit rest fuel :
  Props.canonical lit = true -> Props.closes rest = true ->
  read_value (S fuel) (lit +++ rest) = Some (JNum lit, rest).
Proof.
  intros Hl Hc.
  destruct lit as [| c r]; [discriminate |].
  assert (Hint : read_int (String c r +++ rest) = Some (String c r, rest)).
  { destruct c as [[] [] [] [] [] [] [] []]; cbn in Hl; try discriminate Hl;
      try (cbn; rewrite (take_digits_every r rest Hl Hc); reflexivity).
    destruct r; [reflexivity | discriminate Hl]. }
  assert (Hnum : read_number (String c r +++ rest) = Some (String c r, rest)).
  { unfold read_number.
    assert (Hs : Ascii.eqb c "-" = false)
      by (destruct c as [[] [] [] [] [] [] [] []]; cbn in Hl; try discriminate Hl;
          reflexivity).
    cbn [String.append]. rewrite Hs.
    change (String c (r +++ rest)) with (String c r +++ rest).
    rewrite Hint, (read_frac_closed rest Hc), (read_exp_closed rest Hc).
    cbn [String.append]. now rewrite !append_nil_r. }
  cbn [String.append]. rewrite (read_value_digit c _ fuel (canonical_digit c r Hl)).
  change (String c (r +++ rest)) with (String c r +++ rest).
  now rewrite Hnum.
Qed.

End NumberFacts.

Section RoundTrip.
Import Js.

Lemma quote_append s rest :
  quote s +++ rest = String "034" (escape s +++ String "034" rest).
Proof.
  unfold quote, dquote. cbn [String.append]. now rewrite append_assoc.
Qed.

Lemma opens_append a b : Props.opens a = true -> Props.opens (a +++ b) = true.
Proof. destruct a; [discriminate | exact (fun H => H)]. Qed.

Lemma opens_stringify j : Props.plain j = true -> Props.opens (stringify j) = true.
Proof.
  destruct j as [| b | lit | s | l | ms]; try discriminate; try reflexivity.
  cbn [Props.plain stringify]. destruct lit as [| c r]; [discriminate |].
  destruct c as [[] [] [] [] [] [] [] []]; cbn; try discriminate; reflexivity.
Qed.

Lemma read_value_string s rest fuel :
  read_value (S fuel) (quote s +++ rest) = Some (JStr s, rest).
Proof.
  rewrite quote_append.
  change (read_value (S fuel) (String "034" (escape s +++ String "034" rest)))
    with (match read_chars (escape s +++ String "034" rest) EmptyString with
          | Some (str, r') => Some (JStr str, r')
          | None => None
          end).
  now rewrite read_chars_escape.
Qed.

Lemma skip_ws_opens s : Props.opens s = true -> skip_ws s = s.
Proof.
  destruct s as [| c r]; [discriminate |]. cbn.
  destruct (is_json_ws c); [discriminate | reflexivity].
Qed.

Lemma read_value_array text fuel :
  Props.opens text = true ->
  read_value (S fuel) (String "[" text) = read_items fuel text [].
Proof.
  intros H.
  change (read_value (S fuel) (String "[" text))
    with (match skip_ws text with
          | String c' r' =>
              if Ascii.eqb c' "]" then Some (JArr [], r') else read_items fuel text []
          | EmptyString => None
          end).
  rewrite (skip_ws_opens text H).
  destruct text as [| c r]; [discriminate |]. cbn in H.
  destruct (Ascii.eqb c "]"); [| reflexivity].
  rewrite andb_false_r in H. discriminate H.
Qed.

Lemma read_value_object text fuel :
  Props.opens text = true ->
  read_value (S fuel) (String "{" text) = read_members fuel text [].
Proof.
  intros H.
  change (read_value (S fuel) (String "{" text))
    with (match skip_ws text with
          | String c' r' =>
              if Ascii.eqb c' "}" then Some (JObj [], r') else read_members fuel text []
          | EmptyString => None
          end).
  rewrite (skip_ws_opens text H).
  destruct text as [| c r]; [discriminate |]. cbn in H.
  destruct (Ascii.eqb c "}"); [| reflexivity].
  rewrite andb_false_r in H. discriminate H.
Qed.

Lemma read_members_step fuel k text acc :
  read_members (S fuel) (quote k +++ String ":" text) acc
  = match read_value fuel text with
    | Some (v, r3) =>
        match skip_ws r3 with
        | String c3 r4 =>
            if Ascii.eqb c3 ","
            then read_members fuel r4 (acc ++ [(k, v)])
            else if Ascii.eqb c3 "}"
                 then Some (JObj (acc ++ [(k, v)]), r4)
                 else None
        | EmptyString => None
        end
    | None => None
    end.
Proof.
  rewrite quote_append.
  change (read_members (S fuel) (String "034" (escape k +++ String "034" (String ":" text))) acc)
    with (match read_chars (escape k +++ String "034" (String ":" text)) EmptyString with
          | Some (k, r1) =>
              match skip_ws r1 with
              | String c1 r2 =>
                  if Ascii.eqb c1 ":"
                  then match read_value fuel r2 with
                       | Some (v, r3) =>
                           match skip_ws r3 with
                           | String c3 r4 =>
                               if Ascii.eqb c3 ","
                               then read_members fuel r4 (acc ++ [(k, v)])
                               else if Ascii.eqb c3 "}"
                                    then Some (JObj (acc ++ [(k, v)]), r4)
                                    else None
                           | EmptyString => None
                           end
                       | None => None
                       end
                  else None
              | EmptyString => None
              end
          | None => None
          end).
  rewrite read_chars_escape. reflexivity.
Qed.

Lemma join_cons (x y : string) (l : list string) :
  join "," (x :: y :: l) = x +++ String "," (join "," (y :: l)).
Proof. reflexivity. Qed.

Lemma read_items_all (l : list json) :
  l <> [] -> Forall Props.readBack l -> forallb Props.plain l = true ->
  forall fuel acc rest,
    fold_right (fun x n => 1 + Props.weight x + n) 0 l <= fuel ->
    read_items fuel (join "," (map stringify l) +++ String "]" rest) acc
    = Some (JArr (acc ++ l), rest).
Proof.
  induction l as [| x l IH]; [congruence |].
  intros _ Hall Hp fuel acc rest Hf.
  inversion Hall as [| x0 l0 Hx Hl]. subst.
  cbn [forallb] in Hp. apply andb_prop in Hp. destruct Hp as [Hpx Hpl].
  cbn [fold_right] in Hf.
  destruct fuel as [| f]; [lia |].
  destruct l as [| y l].
  - cbn [map join String.concat].
    change (read_items (S f) (stringify x +++ String "]" rest) acc)
      with (match read_value f (stringify x +++ String "]" rest) with
            | Some (v, r) =>
                match skip_ws r with
                | String c r' =>
                    if Ascii.eqb c ","
                    then read_items f r' (acc ++ [v])
                    else if Ascii.eqb c "]"
                         then Some (JArr (acc ++ [v]), r')
                         else None
                | EmptyString => None
                end
            | None => None
            end).
    rewrite (Hx Hpx f (String "]" rest)); [reflexivity | cbn in Hf; lia | reflexivity].
  - change (map stringify (x :: y :: l))
      with (stringify x :: stringify y :: map stringify l).
    rewrite join_cons, append_assoc. cbn [String.append].
    change (read_items (S f)
              (stringify x +++ String "," (join "," (stringify y :: map stringify l)
                                            +++ String "]" rest)) acc)
      with (match read_value f
                    (stringify x +++ String "," (join "," (stringify y :: map stringify l)
                                                  +++ String "]" rest)) with
            | Some (v, r) =>
                match skip_ws r with
                | String c r' =>
                    if Ascii.eqb c ","
                    then read_items f r' (acc ++ [v])
                    else if Ascii.eqb c "]"
                         then Some (JArr (acc ++ [v]), r')
                         else None
                | EmptyString => None
                end
            | None => None
            end).
    rewrite (Hx Hpx f); [| cbn in Hf; lia | reflexivity].
    cbn [skip_ws is_json_ws]. 
    change (is_json_ws ",") with false. cbv iota.
    change (Ascii.eqb "," ",") with true. cbv iota.
    change (stringify y :: map stringify l) with (map stringify (y :: l)).
    rewrite (IH ltac:(discriminate) Hl Hpl f (acc ++ [x]) rest);
      [| cbn [fold_right] in *; lia].
    now rewrite <- app_assoc.
Qed.

End RoundTrip.

Section RoundTripObjects.
Import Js.

(** The text [JSON.stringify] writes for a member. *)
Lemma member_text (kv : string * json) :
  (let (k, v) := kv in quote k +++ ":" +++ stringify v)
  = quote (fst kv) +++ String ":" (stringify (snd kv)).
Proof. destruct kv as [k v]. reflexivity. Qed.

Lemma skip_ws_comma text : skip_ws (String "," text) = String "," text.
Proof. reflexivity. Qed.

Lemma read_members_all (ms : list (string * json)) :
  ms <> [] -> Forall (fun kv => Props.readBack (snd kv)) ms ->
  forallb (fun kv => Props.plain (snd kv)) ms = true ->
  forall fuel acc rest,
    fold_right (fun kv n => 1 + Props.weight (snd kv) + n) 0 ms <= fuel ->
    read_members fuel
      (join "," (map (fun kv => match kv with
                                | (k, v) => quote k +++ ":" +++ stringify v
                                end) ms) +++ String "}" rest) acc
    = Some (JObj (acc ++ ms), rest).
Proof.
  induction ms as [| [k v] ms IH]; [congruence |].
  intros _ Hall Hp fuel acc rest Hf.
  inversion Hall as [| x0 l0 Hx Hl]. subst. cbn [snd] in Hx.
  cbn [forallb snd] in Hp. apply andb_prop in Hp. destruct Hp as [Hpx Hpl].
  cbn [fold_right snd] in Hf.
  destruct fuel as [| f]; [lia |].
  destruct ms as [| m ms].
  - cbn [map join String.concat].
    change (quote k +++ ":" +++ stringify v)
      with (quote k +++ String ":" (stringify v)).
    rewrite append_assoc. cbn [String.append].
    rewrite read_members_step.
    rewrite (Hx Hpx f (String "}" rest)); [reflexivity | cbn in Hf; lia | reflexivity].
  - cbn [map].
    rewrite join_cons.
    change (quote k +++ ":" +++ stringify v)
      with (quote k +++ String ":" (stringify v)).
    rewrite !append_assoc. cbn [String.append].
    rewrite read_members_step.
    rewrite (Hx Hpx f); [| cbn in Hf; lia | reflexivity].
    rewrite skip_ws_comma. change (Ascii.eqb "," ",") with true. cbv iota.
    replace (acc ++ (k, v) :: m :: ms) with ((acc ++ [(k, v)]) ++ m :: ms)
      by (now rewrite <- app_assoc).
    apply (IH ltac:(discriminate) Hl Hpl f (acc ++ [(k, v)]) rest).
    cbn [fold_right] in *. lia.
Qed.

Lemma opens_join (f : string) (l : list string) :
  Props.opens f = true -> Props.opens (join "," (f :: l)) = true.
Proof.
  intros H. destruct l as [| y l]; [exact H |].
  rewrite join_cons. now apply opens_append.
Qed.

(** Every value of strings, natural numbers, arrays and objects is read
    back from the text written for it. *)
Lemma read_value_stringify : forall j, Props.readBack j.
Proof.
  apply json_induction; unfold Props.readBack;
    try (intros; discriminate).
  - intros lit Hp fuel rest Hf Hc. destruct fuel as [| f]; [cbn in Hf; lia |].
    now apply read_value_number.
  - intros s _ fuel rest Hf Hc. destruct fuel as [| f]; [cbn in Hf; lia |].
    apply read_value_string.
  - intros l Hall Hp fuel rest Hf Hc.
    cbn [Props.weight] in Hf. destruct fuel as [| f]; [lia |].
    cbn [stringify Props.plain] in *.
    rewrite !append_assoc. cbn [String.append].
    destruct l as [| x l]; [reflexivity |].
    rewrite read_value_array.
    + rewrite (read_items_all (x :: l) ltac:(discriminate) Hall Hp f [] rest);
        [reflexivity | lia].
    + apply opens_append. cbn [map]. apply opens_join, opens_stringify.
      cbn [forallb] in Hp. apply andb_prop in Hp. tauto.
  - intros ms Hall Hp fuel rest Hf Hc.
    cbn [Props.weight] in Hf. destruct fuel as [| f]; [lia |].
    cbn [stringify Props.plain] in *.
    rewrite !append_assoc. cbn [String.append].
    destruct ms as [| [k v] ms]; [reflexivity |].
    rewrite read_value_object.
    + apply (read_members_all ((k, v) :: ms) ltac:(discriminate) Hall Hp f [] rest).
      lia.
    + apply opens_append. cbn [map]. apply opens_join. reflexivity.
Qed.

Lemma join_length (l : list string) :
  fold_right (fun s n => 1 + String.length s + n) 0 l
  <= String.length (join "," l) + 1.
Proof.
  induction l as [| x l IH]; [cbn; lia |].
  destruct l as [| y l]; [cbn; lia |].
  rewrite join_cons, append_length. cbn [fold_right String.length] in *. lia.
Qed.

Lemma weight_le_length : forall j,
  Props.plain j = true -> Props.weight j <= String.length (stringify j).
Proof.
  apply (json_induction
           (fun j => Props.plain j = true
                     -> Props.weight j <= String.length (stringify j)));
    try (intros; discriminate).
  - intros lit H. destruct lit; [cbn in H; discriminate H | cbn; lia].
  - intros s _. cbn. lia.
  - intros l Hall Hp. cbn [Props.weight stringify Props.plain] in *.
    rewrite !append_length. cbn [String.length].
    pose proof (join_length (map stringify l)) as Hj.
    assert (Hs : fold_right (fun x n => 1 + Props.weight x + n) 0 l
                 <= fold_right (fun s n => 1 + String.length s + n) 0
                      (map stringify l)).
    { clear Hj. induction l as [| x l IH]; [cbn; lia |].
      inversion Hall as [| x0 l0 Hx Hl]. subst.
      cbn [forallb] in Hp. apply andb_prop in Hp. destruct Hp as [Hpx Hpl].
      cbn [map fold_right]. specialize (IH Hl Hpl). specialize (Hx Hpx). lia. }
    lia.
  - intros ms Hall Hp. cbn [Props.weight stringify Props.plain] in *.
    rewrite !append_length. cbn [String.length].
    pose proof (join_length (map (fun kv => match kv with
                                            | (k, v) => quote k +++ ":" +++ stringify v
                                            end) ms)) as Hj.
    assert (Hs : fold_right (fun kv n => 1 + Props.weight (snd kv) + n) 0 ms
                 <= fold_right (fun s n => 1 + String.length s + n) 0
                      (map (fun kv => match kv with
                                      | (k, v) => quote k +++ ":" +++ stringify v
                                      end) ms)).
    { clear Hj. induction ms as [| [k v] ms IH]; [cbn; lia |].
      inversion Hall as [| x0 l0 Hx Hl]. subst. cbn [snd] in Hx.
      cbn [forallb snd] in Hp. apply andb_prop in Hp. destruct Hp as [Hpx Hpl].
      cbn [map fold_right snd]. specialize (IH Hl Hpl). specialize (Hx Hpx).
      rewrite !append_length. lia. }
    lia.
Qed.

(** [JSON.parse(JSON.stringify(v))] is [v]. *)
Lemma parse_stringify j :
  Props.plain j = true -> json_parse (stringify j) = Ok j.
Proof.
  intros Hp. unfold json_parse.
  pose proof (read_value_stringify j Hp (S (String.length (stringify j))) EmptyString)
    as H.
  rewrite append_nil_r in H. rewrite H; [reflexivity | | reflexivity].
  pose proof (weight_le_length j Hp). lia.
Qed.

Lemma toJson_plain d : Props.plain (Route.toJson d) = true.
Proof.
  destruct d as [m | c t p | g t r | m]; cbn; try reflexivity.
  - now rewrite of_nat_canonical.
  - rewrite !andb_true_r. induction r as [| x r IH]; [reflexivity | exact IH].
Qed.

End RoundTripObjects.

(** ** The page reads what the route wrote *)
Section PageFacts.
Import Js.

Lemma digit_not_newline c : is_digit c = true -> Props.not_nl c = true.
Proof. destruct c as [[] [] [] [] [] [] [] []]; cbn; try discriminate; reflexivity. Qed.

Lemma digits_no_newline r :
  Props.every is_digit r = true -> Props.every Props.not_nl r = true.
Proof.
  induction r as [| c r IH]; [reflexivity |]. cbn. intros H.
  apply andb_prop in H. destruct H as [Hc Hr].
  now rewrite (digit_not_newline c Hc), (IH Hr).
Qed.

Lemma canonical_no_newline lit :
  Props.canonical lit = true -> Props.every Props.not_nl lit = true.
Proof.
  destruct lit as [| c r]; [discriminate |]. unfold Props.canonical.
  destruct (Ascii.eqb c "0") eqn:E.
  - apply Ascii.eqb_eq in E. subst c. destruct r; [reflexivity | discriminate].
  - intros H. apply digits_no_newline. exact H.
Qed.

Lemma every_join p (l : list string) :
  p ","%char = true -> Forall (fun s => Props.every p s = true) l ->
  Props.every p (join "," l) = true.
Proof.
  intros Hc Hl. induction Hl as [| x l Hx Hl IH]; [reflexivity |].
  destruct l as [| y l]; [exact Hx |].
  rewrite join_cons, every_append, Hx. cbn [Props.every andb]. now rewrite Hc, IH.
Qed.

Lemma quote_no_newline s : Props.every Props.not_nl (quote s) = true.
Proof.
  unfold quote, dquote. cbn [String.append Props.every].
  now rewrite every_append, escape_no_newline.
Qed.

Lemma stringify_no_newline : forall j,
  Props.plain j = true -> Props.every Props.not_nl (stringify j) = true.
Proof.
  apply (json_induction
           (fun j => Props.plain j = true
                     -> Props.every Props.not_nl (stringify j) = true));
    try (intros; discriminate).
  - intros lit H. now apply canonical_no_newline.
  - intros s _. apply quote_no_newline.
  - intros l Hall Hp. cbn [stringify Props.plain] in *.
    rewrite !every_append. cbn [Props.every andb].
    repeat (apply andb_true_intro; split); try reflexivity.
    apply every_join; [reflexivity |].
    induction l as [| x l IH]; [constructor |].
    inversion Hall as [| x0 l0 Hx Hl]. subst.
    cbn [forallb] in Hp. apply andb_prop in Hp. destruct Hp as [Hpx Hpl].
    cbn [map]. constructor; [now apply Hx | now apply IH].
  - intros ms Hall Hp. cbn [stringify Props.plain] in *.
    rewrite !every_append. cbn [Props.every andb].
    repeat (apply andb_true_intro; split); try reflexivity.
    apply every_join; [reflexivity |].
    induction ms as [| [k v] ms IH]; [constructor |].
    inversion Hall as [| x0 l0 Hx Hl]. subst. cbn [snd] in Hx.
    cbn [forallb snd] in Hp. apply andb_prop in Hp. destruct Hp as [Hpx Hpl].
    cbn [map]. constructor; [| now apply IH].
    rewrite !every_append, quote_no_newline, (Hx Hpx). reflexivity.
Qed.

Lemma split_line line : forall rest cur,
  Props.every Props.not_nl line = true ->
  split_lines_aux (line +++ String "010" rest) cur
  = rev_string cur line :: split_lines_aux rest EmptyString.
Proof.
  induction line as [| c line IH]; intros rest cur H; [reflexivity |].
  cbn in H. apply andb_prop in H. destruct H as [Hc Hl].
  cbn [String.append split_lines_aux].
  unfold Props.not_nl in Hc. apply negb_true_iff in Hc. rewrite Hc.
  now rewrite (IH rest (String c cur) Hl).
Qed.

Lemma delivered_cons d events :
  Page.delivered (d :: events) = Route.frame d +++ Page.delivered events.
Proof.
  unfold Page.delivered. destruct events as [| e events].
  - cbn. now rewrite append_nil_r.
  - reflexivity.
Qed.

Lemma frame_text d rest :
  Route.frame d +++ rest
  = ("data: " +++ stringify (Route.toJson d))
      +++ String "010" (EmptyString +++ String "010" rest).
Proof.
  unfold Route.frame, nl. rewrite !append_assoc. reflexivity.
Qed.

(** The lines of a chunk of whole frames: for each event its [data:]
    line and an empty line, and a last empty piece. *)
Lemma delivered_lines events :
  split_lines (Page.delivered events)
  = flat_map (fun d => ["data: " +++ stringify (Route.toJson d); EmptyString]) events
    ++ [EmptyString].
Proof.
  unfold split_lines. induction events as [| d events IH]; [reflexivity |].
  rewrite delivered_cons, frame_text.
  rewrite split_line.
  - rewrite split_line; [| reflexivity].
    cbn [flat_map app rev_string]. now rewrite IH.
  - rewrite every_append. rewrite stringify_no_newline; [reflexivity |].
    apply toJson_plain.
Qed.

Lemma prefix_empty s : String.prefix EmptyString s = true.
Proof. destruct s; reflexivity. Qed.

Lemma data_line text : startsWith ("data: " +++ text) "data: " = true.
Proof. unfold startsWith. cbn. apply prefix_empty. Qed.

Lemma truthy_count p : truthy (JNum (of_nat p)) = negb (Nat.eqb p 0).
Proof.
  cbn [truthy].
  now rewrite (canonical_zero _ (of_nat_canonical p)), of_nat_is_zero.
Qed.

(** A percentage is printed as it is written. *)
Lemma percent_text p : p <= 100 -> number_text (of_nat p) = of_nat p.
Proof.
  intros Hp.
  assert (H : forallb (fun q => String.eqb (number_text (of_nat q)) (of_nat q))
                (seq 0 101) = true) by (vm_compute; reflexivity).
  rewrite forallb_forall in H. apply String.eqb_eq, H, in_seq. lia.
Qed.

Lemma handleData_event owner repo d st :
  @Page.handleData node owner repo (Route.toJson d) st
  = (Ok tt, Props.received owner repo st d).
Proof.
  destruct d as [m | c t p | g t r | m].
  - reflexivity.
  - unfold Page.handleData.
    change (get (Route.toJson (Route.step c t p)) "type")
      with (@Ok (option json) (Some (JStr "message"))).
    unfold se_bind at 1. unfold se_lift at 1.
    change (Page.is_string (Some (JStr "message")) "progress") with false.
    change (Page.is_string (Some (JStr "message")) "message") with true.
    cbv iota.
    change (Page.optional (prop (Route.toJson (Route.step c t p)) "data") "content")
      with (Some (JStr c)).
    change (Page.optional (prop (Route.toJson (Route.step c t p)) "data") "progress")
      with (Some (JNum (of_nat p))).
    cbv zeta. cbn [truthy_opt]. rewrite truthy_count.
    unfold Props.received, Props.lineOf.
    destruct c as [| a c]; destruct (Nat.eqb p 0); reflexivity.
  - reflexivity.
  - reflexivity.
Qed.

Lemma processLine_event owner repo d st :
  @Page.processLine node owner repo ("data: " +++ stringify (Route.toJson d)) st
  = (Ok tt, Props.received owner repo st d).
Proof.
  unfold Page.processLine. rewrite data_line. unfold se_when, se_try.
  change (Page.slice 6 ("data: " +++ stringify (Route.toJson d)))
    with (stringify (Route.toJson d)).
  unfold se_bind at 1. unfold se_lift at 1.
  change (@JSON_parse node) with json_parse.
  rewrite (parse_stringify _ (toJson_plain d)).
  now rewrite handleData_event.
Qed.

Lemma forEach_lines owner repo events : forall rest st,
  Page.forEach (@Page.processLine node owner repo)
    (flat_map (fun d => ["data: " +++ stringify (Route.toJson d); EmptyString]) events
     ++ rest) st
  = Page.forEach (@Page.processLine node owner repo) rest
      (fold_left (Props.received owner repo) events st).
Proof.
  induction events as [| d events IH]; intros rest st; [reflexivity |].
  cbn [flat_map app Page.forEach fold_left].
  unfold se_bind at 1. rewrite processLine_event.
  unfold se_bind at 1.
  change (@Page.processLine node owner repo EmptyString
            (Props.received owner repo st d))
    with (@Ok unit tt, Props.received owner repo st d).
  apply IH.
Qed.

Lemma processChunk_delivered owner repo events st :
  @Page.processChunk node owner repo (Page.delivered events) st
  = (Ok tt, fold_left (Props.received owner repo) events st).
Proof.
  unfold Page.processChunk. rewrite delivered_lines, forEach_lines. reflexivity.
Qed.

Lemma readLoop_delivered owner repo reads : forall st,
  @Page.readLoop node owner repo (map Page.delivered reads) None st
  = Page.addTerminalLine "✅ Analysis stream completed" "success"
      (fold_left (Props.received owner repo) (concat reads) st).
Proof.
  induction reads as [| events reads IH]; intros st; [reflexivity |].
  cbn [map Page.readLoop concat]. unfold se_bind at 1.
  rewrite processChunk_delivered, fold_left_app. apply IH.
Qed.

Lemma received_lines owner repo events : forall st,
  Page.onboardingTerminalLines (fold_left (Props.received owner repo) events st)
  = Page.onboardingTerminalLines st ++ map Props.lineOf events.
Proof.
  induction events as [| d events IH]; intros st; cbn [fold_left map].
  - now rewrite app_nil_r.
  - rewrite IH. cbn [Props.received Page.onboardingTerminalLines].
    now rewrite <- app_assoc.
Qed.

Lemma received_result owner repo events : forall st,
  Page.currentOnboarding (fold_left (Props.received owner repo) events st)
  = fold_left (fun kept d =>
                 match d with
                 | Route.complete g t r =>
                     Some (JObj [("onboardingGuide", JStr g);
                                 ("technicalAnalysis", JStr t);
                                 ("recommendations", JArr (map JStr r));
                                 ("repositoryName", JStr (owner +++ "/" +++ repo))])
                 | _ => kept
                 end) events (Page.currentOnboarding st).
Proof.
  induction events as [| d events IH]; intros st; [reflexivity |].
  cbn [fold_left]. rewrite IH. destruct d; reflexivity.
Qed.

End PageFacts.

(** X23.  A frame of the route is one [data:] line followed by an empty
    line, whatever the texts of the event hold (line breaks and quotes
    included), and the payload of the line parses back to the object that
    was sent. *)
Theorem frame_is_one_data_line (d : Route.SseData) :
  let payload := Js.stringify (Route.toJson d) in
  Js.split_lines (Route.frame d) = ["data: " +++ payload; EmptyString; EmptyString]
  /\ Js.json_parse payload = Js.Ok (Route.toJson d).
Proof.
  cbv zeta. split.
  - pose proof (delivered_lines [d]) as H.
    unfold Page.delivered in H. cbn [map String.concat flat_map app] in H.
    exact H.
  - apply parse_stringify, toJson_plain.
Qed.

Section PageRun.
Import Js.

Lemma addLine_then t ty (c : SE Page.State unit) st :
  (Page.addTerminalLine t ty ;; c) st
  = c (snd (Page.addTerminalLine t ty st)).
Proof. reflexivity. Qed.

Lemma try_then {A} (body : SE Page.State A) (h : exn -> SE Page.State A)
    (k : SE Page.State unit) st a st' :
  body st = (Ok a, st') -> (se_try body h ;; k) st = k st'.
Proof. intros H. unfold se_bind, se_try. now rewrite H. Qed.

End PageRun.

(** X24.  When every read returns whole frames, the page shows one line
    for each event of the route, in the order sent, between its three
    opening lines and the closing one, and never the line of a parse
    failure; it keeps the data of the last result with the repository's
    name, and it ends with the loading flag off. *)
Theorem page_shows_every_event (owner repo : string)
    (reads : list (list Route.SseData)) :
  let final :=
    @Page.handleOnboarding Js.node owner repo
      (Page.answered 200
         (Some {| Page.chunks := map Page.delivered reads; Page.failure := None |})) in
  Page.onboardingTerminalLines final
  = [{| Page.text := "🚀 Starting comprehensive analysis for " +++ owner +++ "/" +++ repo;
        Page.type := "info" |};
     {| Page.text := "📊 Initializing repository onboarding system...";
        Page.type := "progress" |};
     {| Page.text := "🔄 Connected to analysis stream..."; Page.type := "success" |}]
    ++ map Props.lineOf (concat reads)
    ++ [{| Page.text := "✅ Analysis stream completed"; Page.type := "success" |}]
  /\ Page.currentOnboarding final = Props.resultOf owner repo (concat reads)
  /\ Page.isOnboardingLoading final = false.
Proof.
  cbv zeta. unfold Page.handleOnboarding.
  change (Page.ok 200) with true. cbv iota.
  cbn [Page.chunks Page.failure].
  rewrite !addLine_then.
  rewrite (try_then _ _ _ _ tt
             (snd (Page.addTerminalLine "✅ Analysis stream completed" "success"
                     (fold_left (Props.received owner repo) (concat reads)
                        (snd (Page.addTerminalLine "🔄 Connected to analysis stream..."
                                "success"
                                (snd (Page.addTerminalLine
                                        "📊 Initializing repository onboarding system..."
                                        "progress"
                                        (snd (Page.addTerminalLine
                                                ("🚀 Starting comprehensive analysis for "
                                                 +++ owner +++ "/" +++ repo)
                                                "info" Page.started)))))))))).
  2: { rewrite addLine_then, readLoop_delivered. reflexivity. }
  unfold Page.addTerminalLine, Page.setIsOnboardingLoading, Js.se_update.
  cbn [snd Page.onboardingTerminalLines Page.currentOnboarding
       Page.isOnboardingLoading].
  split; [| split; [| reflexivity]].
  - rewrite received_lines.
    cbn [Page.onboardingTerminalLines Page.started app].
    reflexivity.
  - rewrite received_result. reflexivity.
Qed.
